(** * bambu_callback: a shallow embedding of the slicing-and-costing script

    The script [bambu_callback.py] runs top to bottom: it reads its command
    line and environment, decides whether the input is a pre-sliced archive,
    prepares a per-request working directory, optionally writes a modified
    process profile, supervises the external slicer, parses the produced
    archive, computes a cost breakdown and prints it.

    The embedding follows the script in that order.

    - Text is [string]: Python [str] restricted to code points below 256.
    - Python floats are IEEE binary64 values, modelled with [spec_float]
      at precision 53; Python integers are [Z].
    - The environment, the file system and the external processes are
      read from a [world] record; what the script does to the outside is
      recorded as a list of [event]s.
    - Control flow that can leave the script ([sys.exit], an exception
      that nobody catches) is carried by a small monad [run]. *)

From Stdlib Require Import ZArith List String Ascii Bool Lia QArith Qabs.
From Stdlib Require Import Floats.SpecFloat.
From stdpp Require Import gmap strings.

Open Scope string_scope.
Open Scope Z_scope.

(** ** Text *)

Module Text.

(** [str.isspace] on a single character below 256. *)
Definition is_space (c : ascii) : bool :=
  let n := nat_of_ascii c in
  ((9 <=? n)%nat && (n <=? 13)%nat)
  || ((28 <=? n)%nat && (n <=? 32)%nat)
  || (n =? 133)%nat || (n =? 160)%nat.

(** A decimal digit as matched by [\d]. *)
Definition is_digit (c : ascii) : bool :=
  let n := nat_of_ascii c in (48 <=? n)%nat && (n <=? 57)%nat.

Definition lower_char (c : ascii) : ascii :=
  let n := nat_of_ascii c in
  if ((65 <=? n)%nat && (n <=? 90)%nat)
     || ((192 <=? n)%nat && (n <=? 222)%nat && negb (n =? 215)%nat)
  then ascii_of_nat (n + 32) else c.

(** [s.lower()] *)
Fixpoint lower (s : string) : string :=
  match s with
  | EmptyString => EmptyString
  | String c s' => String (lower_char c) (lower s')
  end.

(** [s.startswith(p)] *)
Definition startswith (s p : string) : bool := String.prefix p s.

(** [s.endswith(suf)]: some suffix of [s] is [suf]. *)
Fixpoint endswith (s suf : string) : bool :=
  String.eqb s suf
  || match s with
     | EmptyString => false
     | String _ s' => endswith s' suf
     end.

(** [sub in s] *)
Fixpoint contains (s sub : string) : bool :=
  String.prefix sub s
  || match s with
     | EmptyString => false
     | String _ s' => contains s' sub
     end.

Fixpoint lstrip (s : string) : string :=
  match s with
  | EmptyString => EmptyString
  | String c s' => if is_space c then lstrip s' else s
  end.

Fixpoint rstrip (s : string) : string :=
  match s with
  | EmptyString => EmptyString
  | String c s' =>
      match rstrip s' with
      | EmptyString => if is_space c then EmptyString else String c EmptyString
      | r => String c r
      end
  end.

(** [s.strip()] *)
Definition strip (s : string) : string := rstrip (lstrip s).

(** [s.rfind(c)] for a one-character needle; [-1] when absent. *)
Fixpoint rfind_from (c : ascii) (s : string) (i : Z) (found : Z) : Z :=
  match s with
  | EmptyString => found
  | String a s' => rfind_from c s' (i + 1) (if Ascii.eqb a c then i else found)
  end.

Definition rfind (c : ascii) (s : string) : Z := rfind_from c s 0 (-1).

(** [s[a:b]] for [0 <= a <= b]. *)
Definition slice (s : string) (a b : Z) : string :=
  String.substring (Z.to_nat a) (Z.to_nat (b - a)) s.

Definition slice_from (s : string) (a : Z) : string :=
  slice s a (Z.of_nat (String.length s)).

(** Python truth value of a string. *)
Definition truthy (s : string) : bool := negb (String.eqb s "").

End Text.

(** ** Paths: the parts of [os.path] the script uses (POSIX flavour) *)

Module Path.
Import Text.

(** The loop of [genericpath._splitext] that skips the leading dots of
    the last component: is there a character other than a dot in
    [p[from:upto]]? *)
Fixpoint has_non_dot (p : string) (from : Z) (n : nat) : bool :=
  match n with
  | O => false
  | S n' =>
      match String.get (Z.to_nat from) p with
      | Some c => if Ascii.eqb c "." then has_non_dot p (from + 1) n' else true
      | None => true
      end
  end.

(** [os.path.splitext(p)] *)
Definition splitext (p : string) : string * string :=
  let sepIndex := rfind "/" p in
  let dotIndex := rfind "." p in
  if sepIndex <? dotIndex then
    if has_non_dot p (sepIndex + 1) (Z.to_nat (dotIndex - (sepIndex + 1)))
    then (slice p 0 dotIndex, slice_from p dotIndex)
    else (p, "")
  else (p, "").

(** [os.path.basename(p)] *)
Definition basename (p : string) : string := slice_from p (rfind "/" p + 1).

(** [os.path.join(a, b)] *)
Definition join (a b : string) : string :=
  if startswith b "/" then b
  else if negb (truthy a) || endswith a "/" then a ++ b
  else a ++ "/" ++ b.

End Path.

(** ** Exceptions

    The exception classes that matter to the script's handlers.
    [except Exception] catches every one of them; [sys.exit] is not among
    them (it raises [SystemExit], which [except Exception] lets through). *)

Inductive exn :=
| ValueError
| OverflowError
| ZeroDivisionError
| FileNotFoundError
| BadZipFile
| TimeoutExpired
| RuntimeError
| KeyError
| OSError.

Definition exn_eqb (a b : exn) : bool :=
  match a, b with
  | ValueError, ValueError | OverflowError, OverflowError
  | ZeroDivisionError, ZeroDivisionError
  | FileNotFoundError, FileNotFoundError | BadZipFile, BadZipFile
  | TimeoutExpired, TimeoutExpired | RuntimeError, RuntimeError
  | KeyError, KeyError | OSError, OSError => true
  | _, _ => false
  end.

(** A pure computation that may raise. *)
Definition result (A : Type) : Type := exn + A.

Definition ok {A} (a : A) : result A := inr a.
Definition throw {A} (e : exn) : result A := inl e.

Definition rbind {A B} (m : result A) (f : A -> result B) : result B :=
  match m with
  | inl e => inl e
  | inr a => f a
  end.

Declare Scope result_scope.
Delimit Scope result_scope with result.
Notation "'let*' x ':=' m 'in' k" := (rbind m (fun x => k))
  (at level 10, x name, m at level 100, k at level 200) : result_scope.

(** ** Numbers *)

(** Binary64 arithmetic, round to nearest even, as the interpreter's
    [float] has it. *)
Module Float64.

Definition prec : Z := 53.
Definition emax : Z := 1024.

Definition add : spec_float -> spec_float -> spec_float := SFadd prec emax.
Definition mul : spec_float -> spec_float -> spec_float := SFmul prec emax.
Definition div : spec_float -> spec_float -> spec_float := SFdiv prec emax.

(** The float nearest to an integer. *)
Definition of_Z (z : Z) : spec_float := binary_normalize prec emax z 0 false.

(** The float nearest to the rational [p / q], for [q > 0]: one
    correctly rounded division of the two integers. *)
Definition ratio (p q : Z) : spec_float :=
  match p, q with
  | Zpos a, Zpos b => div (S754_finite false a 0) (S754_finite false b 0)
  | Zneg a, Zpos b => div (S754_finite true a 0) (S754_finite false b 0)
  | Z0, Zpos _ => S754_zero false
  | _, _ => S754_nan
  end.

Definition is_finite (x : spec_float) : bool :=
  match x with
  | S754_zero _ | S754_finite _ _ _ => true
  | _ => false
  end.

Definition is_zero (x : spec_float) : bool :=
  match x with
  | S754_zero _ => true
  | _ => false
  end.

(** [num / den] rounded to the nearest integer, ties to even
    ([0 <= num], [0 < den]). *)
Definition half_even (num den : Z) : Z :=
  let q := num / den in
  let r := num mod den in
  match 2 * r ?= den with
  | Lt => q
  | Gt => q + 1
  | Eq => if Z.even q then q else q + 1
  end.

(** [round(x, ndigits)] on a float: the exact binary value is rounded
    to [ndigits] decimals, ties to even, and the decimal result is
    converted back to the nearest float. *)
Definition round (x : spec_float) (ndigits : Z) : spec_float :=
  match x with
  | S754_finite s m e =>
      let k := if 0 <=? e then Zpos m * 2 ^ e * 10 ^ ndigits
               else half_even (Zpos m * 10 ^ ndigits) (2 ^ (- e)) in
      if k =? 0 then S754_zero s
      else ratio (if s then - k else k) (10 ^ ndigits)
  | _ => x
  end.

(** The exact value of a finite float. *)
Definition to_Q (x : spec_float) : Q :=
  match x with
  | S754_finite s m e =>
      let n := if s then Zneg m else Zpos m in
      if 0 <=? e then inject_Z (n * 2 ^ e)
      else Qmake n (Z.to_pos (2 ^ (- e)))
  | _ => 0%Q
  end.

End Float64.

(** A Python number: an [int] or a [float]. *)
Inductive number :=
| PyInt (z : Z)
| PyFloat (f : spec_float).

Module Num.
Import Float64.
Local Open Scope result_scope.

(** Conversion of an [int] operand in mixed arithmetic. *)
Definition int_to_float (z : Z) : result spec_float :=
  let f := of_Z z in
  if is_finite f then ok f else throw OverflowError.

Definition to_float (x : number) : result spec_float :=
  match x with
  | PyFloat f => ok f
  | PyInt z => int_to_float z
  end.

(** [x + y] *)
Definition add (x y : number) : result number :=
  match x, y with
  | PyInt a, PyInt b => ok (PyInt (a + b))
  | _, _ =>
      let* a := to_float x in
      let* b := to_float y in
      ok (PyFloat (Float64.add a b))
  end.

(** [x * y] *)
Definition mul (x y : number) : result number :=
  match x, y with
  | PyInt a, PyInt b => ok (PyInt (a * b))
  | _, _ =>
      let* a := to_float x in
      let* b := to_float y in
      ok (PyFloat (Float64.mul a b))
  end.

(** [x / y]: true division.  Two integers are divided exactly and
    rounded once. *)
Definition truediv (x y : number) : result number :=
  match x, y with
  | PyInt a, PyInt b =>
      if b =? 0 then throw ZeroDivisionError
      else
        let f := if 0 <? b then ratio a b else ratio (- a) (- b) in
        if is_finite f then ok (PyFloat f) else throw OverflowError
  | _, _ =>
      let* a := to_float x in
      let* b := to_float y in
      if is_zero b then throw ZeroDivisionError
      else ok (PyFloat (Float64.div a b))
  end.

(** [x ** 2] on a float.  The C library's [pow] returns the correctly
    rounded square for the one operand the script squares. *)
Definition square (x : spec_float) : spec_float := Float64.mul x x.

(** [round(x, ndigits)] for [ndigits >= 0] *)
Definition round (x : number) (ndigits : Z) : number :=
  match x with
  | PyInt z => PyInt z
  | PyFloat f => PyFloat (Float64.round f ndigits)
  end.

(** [x == 0] *)
Definition is_zero (x : number) : bool :=
  match x with
  | PyInt z => z =? 0
  | PyFloat f => Float64.is_zero f
  end.

(** [x == y] *)
Definition eqb (x y : number) : bool :=
  match x, y with
  | PyInt a, PyInt b => a =? b
  | PyFloat a, PyFloat b => SFeqb a b
  | PyInt a, PyFloat b | PyFloat b, PyInt a =>
      match b with
      | S754_zero _ => a =? 0
      | S754_finite _ _ _ => Qeq_bool (inject_Z a) (to_Q b)
      | _ => false
      end
  end.

(** The exact value of a number. *)
Definition to_Q (x : number) : Q :=
  match x with
  | PyInt z => inject_Z z
  | PyFloat f => Float64.to_Q f
  end.

End Num.

(** A decimal literal of the source, [n / 10^k], as the float the
    interpreter reads it as. *)
Definition literal (n : Z) (k : Z) : spec_float := Float64.ratio n (10 ^ k).

Import Text Path.

(** ** Request identifiers

    [uuid.uuid4()] of the standard library: sixteen random bytes read as
    a big-endian integer, with the variant and version bits forced, and
    printed as 32 lowercase hexadecimal digits in five groups. *)

Module Uuid.

Definition hex_digit (d : Z) : ascii :=
  if d <? 10 then ascii_of_nat (Z.to_nat (48 + d))
  else ascii_of_nat (Z.to_nat (87 + d)).

(** ['%0nx' % i], for [0 <= i < 16^n]. *)
Fixpoint hex_fixed (n : nat) (i : Z) : string :=
  match n with
  | O => ""
  | S n' => hex_fixed n' (i / 16) ++ String (hex_digit (i mod 16)) ""
  end.

(** [UUID(bytes=..., version=4).int] *)
Definition uuid4_int (random : Z) : Z :=
  let i := Z.land random (Z.lnot (Z.shiftl 0xc000 48)) in
  let i := Z.lor i (Z.shiftl 0x8000 48) in
  let i := Z.land i (Z.lnot (Z.shiftl 0xf000 64)) in
  Z.lor i (Z.shiftl 4 76).

(** [str(UUID)] *)
Definition to_str (i : Z) : string :=
  let hex := hex_fixed 32 i in
  slice hex 0 8 ++ "-" ++ slice hex 8 12 ++ "-" ++ slice hex 12 16
  ++ "-" ++ slice hex 16 20 ++ "-" ++ slice_from hex 20.

(** [str(uuid.uuid4())[:8]], from the sixteen random bytes. *)
Definition generated_request_id (random : Z) : string :=
  slice (to_str (uuid4_int random)) 0 8.

End Uuid.

(** ** The outside world *)

(** JSON documents, for the process profile. *)
Inductive json :=
| JNull
| JBool (b : bool)
| JNum (x : number)
| JStr (s : string)
| JCompound (text : string).  (* an array or object, in serialised form *)

(** A member of a zip archive, as the parser meets it: its text already
    decoded and split into lines, or the exception met on the way. *)
Inductive member :=
| Content (lines : list string)
| OpenRaises (e : exn)
| ReadRaises (e : exn).

(** What [zipfile.ZipFile(path, 'r')] finds at a path.  A file that is
    not a zip container is [OpenFails BadZipFile]. *)
Inductive archive :=
| Missing
| OpenFails (e : exn)
| Zip (members : list (string * member)).

(** A diagnostic probe run through [subprocess.run]. *)
Inductive probe :=
| ProbeExit (returncode : Z)
| ProbeNotFound
| ProbeTimeout
| ProbeError (e : exn).

(** The supervised slicer: [Popen] followed by [communicate]. *)
Inductive slicer :=
| SlicerExit (returncode : Z) (stdout stderr : string)
| SlicerTimeout
| SlicerRaises (e : exn).

Record world := World {
  argv : list string;                  (* sys.argv *)
  environ : gmap string string;        (* os.environ *)
  urandom : Z;                         (* os.urandom(16), big-endian *)
  archive_at : string -> archive;      (* zip files, by path *)
  profile_at : string -> result (gmap string json);
                                       (* open(path) and json.load *)
  profile_write : option exn;          (* writing process_modified.json *)
  makedirs_fault : option exn;         (* os.makedirs of the work dirs *)
  display_probe : probe;
  opengl_probe : probe;
  slicer_run : slicer;
  work_dir_present : bool;             (* os.path.exists at teardown *)
  teardown_fault : option exn;         (* a fault inside teardown's guard *)
}.

(** [os.environ.get(key, default)] *)
Definition getenv (w : world) (key default : string) : string :=
  match environ w !! key with
  | Some v => v
  | None => default
  end.

(** ** Module-level configuration (lines 21-116) *)

Section Globals.
Variable w : world.

Definition project_file : string := nth 1 (argv w) "".

Definition request_id : string :=
  if (2 <? Z.of_nat (List.length (argv w))) then nth 2 (argv w) ""
  else Uuid.generated_request_id (urandom w).

Definition CONFIG_DIR : string := getenv w "CONFIG_DIR" "/config".

Definition USE_SYSTEM_PROFILES : bool :=
  String.eqb (getenv w "USE_SYSTEM_PROFILES" "1") "1".

Definition SYSTEM_PROFILES_DIR : string :=
  "/opt/bambustudio/resources/profiles/BBL".

Definition PRINTER_MACHINE_DIR : string :=
  if USE_SYSTEM_PROFILES then join SYSTEM_PROFILES_DIR "machine"
  else join CONFIG_DIR "process_config".

Definition PRINT_QUALITY_DIR : string :=
  if USE_SYSTEM_PROFILES then join SYSTEM_PROFILES_DIR "process"
  else join CONFIG_DIR "printer_config".

Definition FILAMENT_CONFIG_DIR : string :=
  if USE_SYSTEM_PROFILES then join SYSTEM_PROFILES_DIR "filament"
  else join CONFIG_DIR "filament_config".

Definition printer_machine_name : string :=
  getenv w "PRINTER_MACHINE_NAME" "Bambu Lab X1 Carbon 0.4 nozzle.json".
Definition print_quality_name : string :=
  getenv w "PRINT_QUALITY_NAME" "0.20mm Standard @BBL X1C.json".
Definition filament_config_name : string :=
  getenv w "FILAMENT_CONFIG_NAME" "Bambu PLA Basic @BBL X1C.json".

Definition ENABLE_SUPPORT : string := "1".
Definition SUPPORT_TYPE : string := "tree(auto)".

Definition printer_machine_config : string :=
  join PRINTER_MACHINE_DIR printer_machine_name.
Definition print_quality_config : string :=
  join PRINT_QUALITY_DIR print_quality_name.
Definition filament_config : string :=
  join FILAMENT_CONFIG_DIR filament_config_name.

Definition WORK_BASE_DIR : string := join CONFIG_DIR "work".
Definition request_work_dir : string := join WORK_BASE_DIR request_id.
Definition output_directory : string := join request_work_dir "slice_output".

Definition input_extension : string := lower (snd (splitext project_file)).
Definition is_3mf_file : bool := String.eqb input_extension ".3mf".

(** [check_3mf_has_slice_data] (lines 74-91) *)
Definition check_3mf_has_slice_data (filepath : string) : bool :=
  match archive_at w filepath with
  | Zip members =>
      let file_list := map fst members in
      let has_slice_info :=
        existsb (fun f => endswith f "slice_info.config") file_list in
      let has_gcode :=
        existsb (fun f => endswith f ".gcode" && contains (lower f) "plate")
                file_list in
      has_slice_info && has_gcode
  | _ => false
  end.

Definition is_presliced_3mf : bool :=
  if is_3mf_file then check_3mf_has_slice_data project_file else false.

Definition needs_slicing : bool := negb is_presliced_3mf.

Definition input_basename : string := fst (splitext (basename project_file)).

Definition min_save_3mf : string :=
  if is_presliced_3mf then project_file
  else join request_work_dir (input_basename ++ "_output.3mf").

Definition bambu_slicer_exe : string := "/opt/bambustudio/AppRun".

End Globals.

(** ** ArtifactParser: the two pattern matches *)

Module Parse.

(** The longest prefix of characters satisfying [p], and the rest. *)
Fixpoint span (p : ascii -> bool) (s : string) : string * string :=
  match s with
  | EmptyString => ("", "")
  | String c s' =>
      if p c then let '(a, b) := span p s' in (String c a, b)
      else ("", s)
  end.

(** [s] without its prefix [p], when it starts with [p]. *)
Fixpoint strip_prefix (p s : string) : option string :=
  match p, s with
  | EmptyString, _ => Some s
  | String a p', String b s' =>
      if Ascii.eqb a b then strip_prefix p' s' else None
  | String _ _, EmptyString => None
  end.

(** The text after the first occurrence of [needle] in [s]. *)
Fixpoint after_first (needle s : string) : option string :=
  match strip_prefix needle s with
  | Some rest => Some rest
  | None =>
      match s with
      | EmptyString => None
      | String _ s' => after_first needle s'
      end
  end.

(** [int(digits)] on a run of decimal digits. *)
Definition digit_value (c : ascii) : Z := Z.of_nat (nat_of_ascii c) - 48.

Fixpoint int_of_digits_from (acc : Z) (s : string) : Z :=
  match s with
  | EmptyString => acc
  | String c s' => int_of_digits_from (10 * acc + digit_value c) s'
  end.

Definition int_of_digits (s : string) : Z := int_of_digits_from 0 s.

(** The interpreter's default limit on the length of a decimal string
    it converts to an [int] ([sys.int_info.default_max_str_digits]). *)
Definition max_str_digits : Z := 4300.

(** [int(s)] on a run of decimal digits: a run of more than 4300
    digits, leading zeros counted, raises [ValueError]. *)
Definition int_of_str (s : string) : result Z :=
  if max_str_digits <? Z.of_nat (String.length s) then throw ValueError
  else ok (int_of_digits s).

(** *** The duration pattern (line 570)

    The pattern is the fixed text [total estimated time: ] followed by
    four optional groups in this order: digits and [d], digits and [h],
    digits and [m], each followed by any amount of white space, and
    digits and [s].

    Everything after the fixed prefix is optional, so [re.search]
    matches at the first occurrence of the prefix.  An optional group
    [(\d+)u] is taken when the longest run of digits at the current
    position is not empty and is followed by the unit letter [u];
    giving back digits cannot help, since the character after a shorter
    run is a digit.  Whatever follows can always match the empty
    string, so a group that can be taken is taken. *)

(** [(\d+)u] at the start of [s]: the digits and the text after [u]. *)
Definition unit_group (u : ascii) (s : string) : option (string * string) :=
  match span is_digit s with
  | (String d ds, String c rest) =>
      if Ascii.eqb c u then Some (String d ds, rest) else None
  | _ => None
  end.

(** The optional group for unit [u] with its trailing white space. *)
Definition optional_unit (u : ascii) (s : string) : option string * string :=
  match unit_group u s with
  | Some (ds, rest) => (Some ds, lstrip rest)
  | None => (None, s)
  end.

(** Groups 2 to 5 of the match. *)
Record duration_groups := Groups {
  group_d : option string;
  group_h : option string;
  group_m : option string;
  group_s : option string
}.

Definition match_duration (s : string) : duration_groups :=
  let '(d, s1) := optional_unit "d" s in
  let '(h, s2) := optional_unit "h" s1 in
  let '(m, s3) := optional_unit "m" s2 in
  let sec := match unit_group "s" s3 with
             | Some (ds, _) => Some ds
             | None => None
             end in
  Groups d h m sec.

Definition search_duration (line : string) : option duration_groups :=
  match after_first "total estimated time: " line with
  | Some rest => Some (match_duration rest)
  | None => None
  end.

(** [int(match.group(i)) if match.group(i) else 0] *)
Definition group_int (g : option string) : result Z :=
  match g with
  | Some ds => int_of_str ds
  | None => ok 0
  end.

(** *** The attribute patterns (lines 506-507)

    [used_g=] or [used_m=], a quote, one or more characters other than
    a quote, and a quote. *)

Definition quote : ascii := ascii_of_nat 34.

Definition not_quote (c : ascii) : bool := negb (Ascii.eqb c quote).

(** The pattern at the start of [s]; [open] is the key, the equals
    sign and the opening quote. *)
Definition attribute_here (open s : string) : option string :=
  match strip_prefix open s with
  | Some rest =>
      match span not_quote rest with
      | (String c v, String _ _) => Some (String c v)
      | _ => None
      end
  | None => None
  end.

(** [pattern.search(line)], group 1. *)
Fixpoint search_attribute (open s : string) : option string :=
  match attribute_here open s with
  | Some v => Some v
  | None =>
      match s with
      | EmptyString => None
      | String _ s' => search_attribute open s'
      end
  end.

Definition used_g_open : string := "used_g=" ++ String quote "".
Definition used_m_open : string := "used_m=" ++ String quote "".

(** The loop over the lines of [Metadata/slice_info.config]
    (lines 536-547): the last match of each attribute wins. *)
Definition scan_line (acc : option string * option string) (line : string)
  : option string * option string :=
  if startswith (strip line) "<filament" then
    let g := match search_attribute used_g_open line with
             | Some v => Some v
             | None => fst acc
             end in
    let m := match search_attribute used_m_open line with
             | Some v => Some v
             | None => snd acc
             end in
    (g, m)
  else acc.

Definition scan_slice_info (acc : option string * option string)
                           (lines : list string) :=
  fold_left scan_line lines acc.

(** Lines 556-558: the third line, when there is one. *)
Definition third_line (lines : list string) : option string :=
  if (3 <=? Z.of_nat (List.length lines)) then Some (nth 2 lines "") else None.

End Parse.

(** ** CostEstimator (lines 512-517 and 568-642) *)

Module Cost.
Import Parse.
Local Open Scope result_scope.

(** Lines 515-517. *)
Definition DEFAULT_FILAMENT_DENSITY : spec_float := literal 124 2.
Definition FILAMENT_DIAMETER_CM : spec_float := literal 175 3.
Definition FILAMENT_CROSS_SECTION : spec_float :=
  Float64.mul (literal 314159 5)
    (Num.square (Float64.div FILAMENT_DIAMETER_CM (Float64.of_Z 2))).

(** Line 576: [days * 24 + hours + minutes / 60 + seconds / 3600]. *)
Definition hours_formula (days hours minutes seconds : Z) : result number :=
  let* a := Num.mul (PyInt days) (PyInt 24) in
  let* b := Num.add a (PyInt hours) in
  let* c := Num.truediv (PyInt minutes) (PyInt 60) in
  let* d := Num.add b c in
  let* e := Num.truediv (PyInt seconds) (PyInt 3600) in
  Num.add d e.

(** Lines 572-576. *)
Definition hours_of_groups (g : duration_groups) : result number :=
  let* days := group_int (group_d g) in
  let* hours := group_int (group_h g) in
  let* minutes := group_int (group_m g) in
  let* seconds := group_int (group_s g) in
  hours_formula days hours minutes seconds.

(** Lines 569-580. *)
Definition Total_printing_hours (printing_time_line : option string)
  : result number :=
  match printing_time_line with
  | Some line =>
      if truthy line then
        match search_duration line with
        | Some g => hours_of_groups g
        | None => ok (PyInt 0)
        end
      else ok (PyInt 0)
  | None => ok (PyInt 0)
  end.

(** Lines 583-584. *)
Definition calculate_cost_per_hour (item_name : string)
    (cost lifespan_hours : Z) : result (string * number) :=
  let* q := Num.truediv (PyInt cost) (PyInt lifespan_hours) in
  ok (item_name, Num.round q 3).

Record item := Item {
  name : string;
  price : Z;
  lifespan_min : Z
}.

(** Lines 586-604. *)
Definition items : list item :=
  [ Item "Nozzle" 10 300;
    Item "PTFE Tube (Hotend Liner)" 5 500;
    Item "Extruder Gears" 20 1000;
    Item "Build Plate Surface" 30 500;
    Item "Cooling Fans" 15 2000;
    Item "Belts" 10 2000;
    Item "Linear Bearings and Rods" 40 3000;
    Item "Hotend Heater Cartridge" 15 2000;
    Item "Thermistor" 10 2000;
    Item "Drive Gears/Pulleys" 25 3000;
    Item "Motherboard" 150 5000;
    Item "Stepper Driver" 20 5000;
    Item "LCD Screen" 60 (5 * 365 * 24);
    Item "Power Supply Unit (PSU)" 80 5000;
    Item "Stepper Motors" 30 10000;
    Item "Filament Sensor" 15 3000;
    Item "Print Bed Heating Element" 50 5000 ].

(** Lines 605-608: the loop that accumulates the hourly rates. *)
Fixpoint accumulate_rates (total : number) (l : list item) : result number :=
  match l with
  | [] => ok total
  | it :: l' =>
      let* r := calculate_cost_per_hour (name it) (price it) (lifespan_min it) in
      let* total' := Num.add total (snd r) in
      accumulate_rates total' l'
  end.

Definition total_dep_cost_per_hour : result number :=
  accumulate_rates (PyInt 0) items.

(** Lines 611-616. *)
Definition calculate_electricity_cost
    (power_watts electricity_rate_per_kwh : number) : result number :=
  let* kw := Num.truediv power_watts (PyInt 1000) in
  let* c := Num.mul kw electricity_rate_per_kwh in
  ok (Num.round c 3).

Definition power_consumption_watts : number := PyInt 105.
Definition electricity_rate_per_kwh : number := PyFloat (literal 6 2).

Definition electricity_cost_per_hour : result number :=
  calculate_electricity_cost power_consumption_watts electricity_rate_per_kwh.

(** Lines 619-620. *)
Definition calculate_filament_cost
    (filament_price spool_weight total_used_grams : number) : result number :=
  let* per_gram := Num.truediv filament_price spool_weight in
  let* c := Num.mul per_gram total_used_grams in
  ok (Num.round c 2).

Definition spool_weight : number := PyInt 1000.

(** The cost figures the script computes, before they are printed. *)
Record breakdown := Breakdown {
  total_depreciation_cost : number;
  total_electricity_cost : number;
  filament_cost : number;
  total_cost : number
}.

(** Lines 637-642. *)
Definition estimate (hours total_used_grams filament_price : number)
  : result breakdown :=
  let* dep_rate := total_dep_cost_per_hour in
  let* el_rate := electricity_cost_per_hour in
  let* fil := calculate_filament_cost filament_price spool_weight total_used_grams in
  let* dep := Num.mul hours dep_rate in
  let* el := Num.mul hours el_rate in
  let* s := Num.add dep el in
  let* total := Num.add s fil in
  ok (Breakdown dep el fil total).

Section Builtins.
(** The builtin [float] applied to a string; [None] stands for the
    [ValueError] it raises on text that is not a number. *)
Variable py_float : string -> option spec_float.

Definition float_of_str (s : string) : result number :=
  match py_float s with
  | Some f => ok (PyFloat f)
  | None => throw ValueError
  end.

(** Lines 627-635. *)
Definition total_used_grams (used_g_value used_m_value : option string)
  : result number :=
  let* grams :=
    match used_g_value with
    | Some s => if truthy s then float_of_str s else ok (PyInt 0)
    | None => ok (PyInt 0)
    end in
  match used_m_value with
  | Some m =>
      if Num.is_zero grams && truthy m then
        let* used_meters := float_of_str m in
        let* a := Num.mul used_meters (PyInt 100) in
        let* b := Num.mul a (PyFloat FILAMENT_CROSS_SECTION) in
        Num.mul b (PyFloat DEFAULT_FILAMENT_DENSITY)
      else ok grams
  | None => ok grams
  end.

End Builtins.

End Cost.

(** ** ResultReporter: the structured result (lines 645-659) *)

Module Reply.
Record t := Make {
  request_id : string;
  file : string;
  total_cost : number;
  printing_hours : number;
  filament_grams : number;
  filament_cost : number;
  depreciation_cost : number;
  electricity_cost : number;
  config : string * string * string
}.
End Reply.

(** ** Effects *)

(** What the script does to the outside, in the order it does it.
    [Log] carries the fixed part of a line written by [log]; lines that
    only echo configuration values are left out of the trace. *)
Inductive event :=
| StderrUsage
| InspectArchive (path : string)
| SweepStale (base : string)
| MakeDirs (path : string)
| Log (line : string)
| WriteProfile (path : string) (data : gmap string json)
| Probe (command : list string)
| LaunchSlicer (command : list string)
| KillSlicer
| WriteFile (path : string)
| OpenArchive (path : string)
| Teardown (dir : string)
| RemoveTree (dir : string)
| ResultJson (r : Reply.t)
| LegacyTotal (total : number).

(** How a piece of the script ends: it falls through with a value, an
    exception propagates, or [sys.exit] was called. *)
Inductive outcome (A : Type) :=
| Returns (a : A)
| Raises (e : exn)
| Exits (status : Z).

Arguments Returns {A} a.
Arguments Raises {A} e.
Arguments Exits {A} status.

Record run (A : Type) := Run {
  trace : list event;
  outcome_of : outcome A
}.

Arguments Run {A} trace outcome_of.
Arguments trace {A} r.
Arguments outcome_of {A} r.

Module Eff.

Definition ret {A} (a : A) : run A := Run [] (Returns a).

Definition bind {A B} (m : run A) (k : A -> run B) : run B :=
  match outcome_of m with
  | Returns a => let r := k a in Run (trace m ++ trace r)%list (outcome_of r)
  | Raises e => Run (trace m) (Raises e)
  | Exits c => Run (trace m) (Exits c)
  end.

Definition emit (ev : event) : run unit := Run [ev] (Returns tt).

Definition raise {A} (e : exn) : run A := Run [] (Raises e).

(** [sys.exit(status)] *)
Definition sys_exit {A} (status : Z) : run A := Run [] (Exits status).

(** A pure step that may raise. *)
Definition lift {A} (m : result A) : run A :=
  match m with
  | inl e => raise e
  | inr a => ret a
  end.

(** An operation of the outside world that fails when the world says
    so. *)
Definition faulting (fault : option exn) : run unit :=
  match fault with
  | Some e => raise e
  | None => ret tt
  end.

(** [try: body except C as e: handler(e)], [catches] telling which
    exceptions are instances of [C].  A [sys.exit] inside [body] is not
    an exception of class [Exception] and goes through. *)
Definition try_except {A} (catches : exn -> bool) (body : run A)
    (handler : exn -> run A) : run A :=
  match outcome_of body with
  | Raises e =>
      if catches e then
        let r := handler e in Run (trace body ++ trace r)%list (outcome_of r)
      else body
  | _ => body
  end.

Definition any_exception (e : exn) : bool := true.
Definition only (cls : exn) (e : exn) : bool := exn_eqb e cls.

End Eff.

Declare Scope run_scope.
Delimit Scope run_scope with run.
Notation "'let*' x ':=' m 'in' k" := (Eff.bind m (fun x => k))
  (at level 10, x name, m at level 100, k at level 200) : run_scope.
Notation "m ';;' k" := (Eff.bind m (fun _ => k))
  (at level 100, k at level 200, right associativity) : run_scope.

(** ** The script *)

Section Script.
Import Eff Parse.
Local Open Scope run_scope.

(** The builtins [float] and [int] applied to a string; [None] stands
    for the [ValueError] raised on text that is not a number. *)
Variable py_float : string -> option spec_float.
Variable py_int : string -> option Z.

Variable w : world.

(** [log] (lines 119-128): prints a line and appends it to the debug
    log in the work directory, making that directory when it is
    absent and swallowing any failure to write the file.  The [Log]
    event stands for the whole call.  Printing is taken to succeed: a
    standard output that cannot be written to is not part of this
    model, and what is proved of a run is proved of the runs in which
    every line can be printed. *)
Definition log (line : string) : run unit := emit (Log line).

(** [cleanup_current_work_dir] (lines 168-175).  The [Teardown] event
    marks the call. *)
Definition cleanup_current_work_dir : run unit :=
  emit (Teardown (request_work_dir w)) ;;
  try_except any_exception
    (faulting (teardown_fault w) ;;
     if work_dir_present w then
       emit (RemoveTree (request_work_dir w)) ;;
       log "Cleaned up work directory"
     else ret tt)
    (fun _ => log "Failed to cleanup work directory").

(** [int(os.environ.get(key, default))] *)
Definition int_of_env (key default : string) : run Z :=
  match py_int (getenv w key default) with
  | Some z => ret z
  | None => raise ValueError
  end.

(** Lines 17-19, 93-96, 110-114 and 178-187: the command line, the
    pre-sliced check, the integer settings, the sweep of stale
    directories and the creation of the work directory. *)
Definition startup : run unit :=
  if (Z.of_nat (List.length (argv w)) <? 2) then
    emit StderrUsage ;; sys_exit 1
  else
    (if is_3mf_file w then emit (InspectArchive (project_file w)) else ret tt) ;;
    let* slicer_timeout_secs := int_of_env "BAMBU_SLICE_TIMEOUT" "120" in
    let* CLEANUP_AGE_SECONDS := int_of_env "CLEANUP_AGE_SECONDS" "3600" in
    emit (SweepStale (WORK_BASE_DIR w)) ;;
    faulting (makedirs_fault w) ;;
    emit (MakeDirs (request_work_dir w)) ;;
    emit (MakeDirs (output_directory w)) ;;
    log "=== START bambu_callback.py ===".

(** *** ConfigComposer (lines 213-263) *)

Definition WALL_LOOPS : string := strip (getenv w "WALL_LOOPS" "").
Definition INFILL_DENSITY : string := strip (getenv w "INFILL_DENSITY" "").

Definition needs_config_modification : bool :=
  needs_slicing w
  && (String.eqb ENABLE_SUPPORT "1" || truthy WALL_LOOPS || truthy INFILL_DENSITY).

(** Line 246. *)
Definition density_value (infill : string) : string :=
  if endswith infill "%" then infill else infill ++ "%".

(** Lines 232-248: the keys set in the profile read from disk. *)
Definition modify_process_data (process_data : gmap string json)
  : gmap string json :=
  let d1 :=
    if String.eqb ENABLE_SUPPORT "1" then
      <["support_threshold_angle" := JStr (getenv w "SUPPORT_THRESHOLD_ANGLE" "30")]>
        (<["support_type" := JStr SUPPORT_TYPE]>
           (<["enable_support" := JStr "1"]> process_data))
    else process_data in
  let d2 :=
    if truthy WALL_LOOPS then <["wall_loops" := JStr WALL_LOOPS]> d1 else d1 in
  if truthy INFILL_DENSITY
  then <["sparse_infill_density" := JStr (density_value INFILL_DENSITY)]> d2
  else d2.

Definition modified_process_path : string :=
  join (request_work_dir w) "process_modified.json".

(** The path of the process profile handed to the slicer. *)
Definition compose_config : run string :=
  if needs_config_modification then
    log "Creating modified process config..." ;;
    try_except any_exception
      (let* process_data := lift (profile_at w (print_quality_config w)) in
       faulting (profile_write w) ;;
       emit (WriteProfile modified_process_path
               (modify_process_data process_data)) ;;
       log "  Created modified process config" ;;
       ret modified_process_path)
      (fun _ =>
         log "  WARNING: Failed to create modified process config" ;;
         log "  Falling back to original process config" ;;
         ret (print_quality_config w))
  else ret (print_quality_config w).

(** *** SlicerSupervisor (lines 266-503) *)

Definition auto_orient : string := if is_3mf_file w then "0" else "1".
Definition auto_arrange : string := "1".

(** Lines 282-300. *)
Definition slice_command (actual_process_config : string) : list string :=
  [ "xvfb-run";
    "--auto-servernum";
    "--server-args=-screen 0 1024x768x24";
    bambu_slicer_exe;
    "--orient=" ++ auto_orient;
    "--arrange=" ++ auto_arrange;
    "--load-settings=" ++ printer_machine_config w ++ ";" ++ actual_process_config;
    "--load-filaments=" ++ filament_config w;
    "--export-3mf=" ++ min_save_3mf w;
    "--export-slicedata=" ++ output_directory w;
    "--export-settings=" ++ output_directory w ++ "/settings.json";
    "--slice=1";
    "--min-save";
    project_file w ].

Definition display_probe_command : list string :=
  ["xvfb-run"; "--auto-servernum"; "--server-args=-screen 0 1024x768x24";
   "xdpyinfo"].

Definition opengl_probe_command : list string :=
  ["xvfb-run"; "--auto-servernum"; "--server-args=-screen 0 1024x768x24";
   "glxinfo"; "-B"].

(** Lines 311-326 and 330-350: a probe is run and its result is only
    logged, whatever it is. *)
Definition run_probe (command : list string) (p : probe) : run unit :=
  emit (Probe command) ;;
  match p with
  | ProbeExit rc => if rc =? 0 then log "validation: OK" else log "validation: WARN"
  | ProbeNotFound => log "validation: not found"
  | ProbeTimeout => log "validation: FAIL - timed out"
  | ProbeError _ => log "validation: ERROR"
  end.

(** Lines 456-490. *)
Definition on_timeout : run unit :=
  log "ERROR: slicer TIMEOUT" ;;
  emit KillSlicer ;;
  log "Files created before timeout:" ;;
  emit (WriteFile (join (request_work_dir w) "bambu_cli_error.txt")) ;;
  cleanup_current_work_dir ;;
  sys_exit 1.

(** Lines 416-454. *)
Definition on_exit (returncode : Z) : run unit :=
  if returncode =? 0 then
    log "Slicer finished: returncode=0" ;;
    emit (WriteFile (join (request_work_dir w) "bambu_cli_output.txt"))
  else
    log "ERROR: slicer failed" ;;
    emit (WriteFile (join (request_work_dir w) "bambu_cli_error.txt")) ;;
    cleanup_current_work_dir ;;
    sys_exit 1.

(** Lines 383-498. *)
Definition supervise (command : list string) : run unit :=
  log "=== Starting slicer process ===" ;;
  try_except any_exception
    (emit (LaunchSlicer command) ;;
     try_except (only TimeoutExpired)
       (match slicer_run w with
        | SlicerExit returncode _ _ => on_exit returncode
        | SlicerTimeout => raise TimeoutExpired
        | SlicerRaises e => raise e
        end)
       (fun _ => on_timeout))
    (fun _ =>
       log "ERROR: Unexpected exception" ;;
       cleanup_current_work_dir ;;
       sys_exit 1).

(** Lines 266-504. *)
Definition slicing (actual_process_config : string) : run unit :=
  (if negb (needs_slicing w) then
     log "=== Skipping slicing (input is pre-sliced 3MF) ==="
   else
     log "Slice command:" ;;
     log "=== X11/xvfb validation ===" ;;
     run_probe display_probe_command (display_probe w) ;;
     log "=== OpenGL/Mesa validation ===" ;;
     run_probe opengl_probe_command (opengl_probe w) ;;
     supervise (slice_command actual_process_config) ;;
     log "Post-slice output check:") ;;
  log "  settings.json:".

(** *** ArtifactParser (lines 506-566) *)

Record metadata := Metadata {
  used_g_value : option string;
  used_m_value : option string;
  printing_time_line : option string
}.

(** [zf.open(name)]: the last member of that name. *)
Fixpoint open_member (name : string) (members : list (string * member))
  : option member :=
  match members with
  | [] => None
  | (n, m) :: rest =>
      match open_member name rest with
      | Some m' => Some m'
      | None => if String.eqb n name then Some m else None
      end
  end.

(** Lines 531-549. *)
Definition read_slice_info (members : list (string * member))
    (acc : metadata) : run metadata :=
  log "Reading Metadata/slice_info.config" ;;
  match open_member "Metadata/slice_info.config" members with
  | Some (Content lines) =>
      let '(g, m) := scan_slice_info (used_g_value acc, used_m_value acc) lines in
      ret (Metadata g m (printing_time_line acc))
  | Some (ReadRaises _) =>
      log "Failed parsing slice_info.config" ;; ret acc
  | Some (OpenRaises e) => raise e
  | None => raise KeyError
  end.

(** Lines 551-561. *)
Definition read_plate_1 (members : list (string * member))
    (acc : metadata) : run metadata :=
  log "Reading Metadata/plate_1.gcode (header lines)" ;;
  match open_member "Metadata/plate_1.gcode" members with
  | Some (Content lines) =>
      match third_line lines with
      | Some l => ret (Metadata (used_g_value acc) (used_m_value acc) (Some l))
      | None => ret acc
      end
  | Some (ReadRaises _) =>
      log "Failed parsing plate_1.gcode" ;; ret acc
  | Some (OpenRaises e) => raise e
  | None => raise KeyError
  end.

(** Lines 530-561: the loop over the names of the archive. *)
Fixpoint scan_members (members : list (string * member))
    (file_list : list string) (acc : metadata) : run metadata :=
  match file_list with
  | [] => ret acc
  | file_name :: rest =>
      let* acc1 :=
        if String.eqb file_name "Metadata/slice_info.config"
        then read_slice_info members acc else ret acc in
      let* acc2 :=
        if String.eqb file_name "Metadata/plate_1.gcode"
        then read_plate_1 members acc1 else ret acc1 in
      scan_members members rest acc2
  end.

(** Lines 520-566. *)
Definition parse_archive : run metadata :=
  match archive_at w (min_save_3mf w) with
  | Missing =>
      log "ERROR: .3mf file missing, cannot parse; exiting." ;;
      cleanup_current_work_dir ;;
      sys_exit 1
  | found =>
      log "Opening .3mf zip to parse metadata..." ;;
      try_except (only BadZipFile)
        (emit (OpenArchive (min_save_3mf w)) ;;
         match found with
         | Zip members =>
             scan_members members (map fst members) (Metadata None None None)
         | OpenFails e => raise e
         | Missing => raise FileNotFoundError
         end)
        (fun _ =>
           log "ERROR: BadZipFile" ;;
           cleanup_current_work_dir ;;
           sys_exit 1)
  end.

(** *** CostEstimator and ResultReporter (lines 568-672) *)

Definition result_json (hours grams : number) (b : Cost.breakdown) : Reply.t :=
  {| Reply.request_id := request_id w;
     Reply.file := basename (project_file w);
     Reply.total_cost := Num.round (Cost.total_cost b) 4;
     Reply.printing_hours := Num.round hours 3;
     Reply.filament_grams := Num.round grams 2;
     Reply.filament_cost := Num.round (Cost.filament_cost b) 2;
     Reply.depreciation_cost := Num.round (Cost.total_depreciation_cost b) 4;
     Reply.electricity_cost := Num.round (Cost.total_electricity_cost b) 4;
     Reply.config :=
       (printer_machine_name w, print_quality_name w, filament_config_name w) |}.

(** The figures of one run: hours, grams and the cost breakdown. *)
Definition compute_costs (meta : metadata)
  : result (number * number * Cost.breakdown) :=
  (let* hours := Cost.Total_printing_hours (printing_time_line meta) in
   let* filament_price :=
     Cost.float_of_str py_float (getenv w "FILAMENT_PRICE" "12") in
   let* grams :=
     Cost.total_used_grams py_float (used_g_value meta) (used_m_value meta) in
   let* b := Cost.estimate hours grams filament_price in
   ok (hours, grams, b))%result.

Definition report (meta : metadata) : run unit :=
  let* figures := lift (compute_costs meta) in
  let '(hours, grams, b) := figures in
  emit (ResultJson (result_json hours grams b)) ;;
  emit (LegacyTotal (Cost.total_cost b)) ;;
  log "Total Cost:" ;;
  cleanup_current_work_dir ;;
  log "=== END bambu_callback.py ===".

(** The whole script. *)
Definition main : run unit :=
  startup ;;
  let* actual_process_config := compose_config in
  slicing actual_process_config ;;
  let* meta := parse_archive in
  report meta.

End Script.

(** ** Plain numerals

    Instances of the two builtins on the numerals the slicer and the
    operator write: an optional sign, digits, and for [float] an optional
    fraction.  On such text they return what the interpreter returns;
    anything else is rejected. *)

Module Plain.
Import Parse.

Definition signed (s : string) : bool * string :=
  match s with
  | String c rest =>
      if Ascii.eqb c "-" then (true, rest)
      else if Ascii.eqb c "+" then (false, rest)
      else (false, s)
  | EmptyString => (false, s)
  end.

Definition int (s : string) : option Z :=
  let '(neg, body) := signed (strip s) in
  match span is_digit body with
  | (String d ds, EmptyString) =>
      match int_of_str (String d ds) with
      | inr n => Some (if neg then - n else n)
      | inl _ => None
      end
  | _ => None
  end.

Definition float (s : string) : option spec_float :=
  let '(neg, body) := signed (strip s) in
  let '(ip, rest) := span is_digit body in
  let fraction :=
    match rest with
    | EmptyString => Some ""
    | String c r =>
        if Ascii.eqb c "." then
          match span is_digit r with
          | (fp, EmptyString) => Some fp
          | _ => None
          end
        else None
    end in
  match fraction with
  | Some fp =>
      if truthy (ip ++ fp) then
        let n := int_of_digits (ip ++ fp) in
        Some (if n =? 0 then S754_zero neg
              else Float64.ratio (if neg then - n else n)
                     (10 ^ Z.of_nat (String.length fp)))
      else None
  | None => None
  end.

End Plain.

(** ** Predicates on runs *)

(** Every event of the run satisfies [P]. *)
Definition every {A} (P : event -> Prop) (m : run A) : Prop :=
  Forall P (trace m).

(** The run falls through with a value. *)
Definition returns {A} (m : run A) : Prop :=
  exists a, outcome_of m = Returns a.

(** The run never lets an exception out. *)
Definition contained {A} (m : run A) : Prop :=
  forall e, outcome_of m <> Raises e.

(** A run that ends in [sys.exit] has called teardown on [dir] first. *)
Definition exits_torn_down {A} (dir : string) (m : run A) : Prop :=
  forall status, outcome_of m = Exits status -> In (Teardown dir) (trace m).

(** The slicer or one of its probes is started. *)
Definition slicer_activity (ev : event) : bool :=
  match ev with
  | Probe _ | LaunchSlicer _ | KillSlicer => true
  | _ => false
  end.

Definition is_inspection (ev : event) : bool :=
  match ev with
  | InspectArchive _ => true
  | _ => false
  end.

(** Events that neither start a process, nor open an archive, nor
    write a profile, nor carry the result. *)
Definition housekeeping (ev : event) : bool :=
  match ev with
  | StderrUsage | SweepStale _ | MakeDirs _ | Log _ | WriteFile _
  | Teardown _ | RemoveTree _ | LegacyTotal _ => true
  | _ => false
  end.

(** The command line names an input, the two integer settings parse
    and the work directories can be created. *)
Definition starts_up (py_int : string -> option Z) (w : world) : Prop :=
  (2 <= List.length (argv w))%nat
  /\ py_int (getenv w "BAMBU_SLICE_TIMEOUT" "120") <> None
  /\ py_int (getenv w "CLEANUP_AGE_SECONDS" "3600") <> None
  /\ makedirs_fault w = None.

(** *** Durations as the slicer prints them *)

Fixpoint all_chars (p : ascii -> bool) (s : string) : bool :=
  match s with
  | EmptyString => true
  | String c s' => p c && all_chars p s'
  end.

(** A non-empty run of decimal digits. *)
Definition digits (s : string) : bool := truthy s && all_chars is_digit s.

Definition optional_digits (g : option string) : bool :=
  match g with
  | Some ds => digits ds
  | None => true
  end.

(** One component: its digits, the unit letter and the white space
    after it; nothing at all when the component is left out. *)
Definition render_unit (g : option string) (u : ascii) (sp rest : string)
  : string :=
  match g with
  | Some ds => ds ++ String u (sp ++ rest)
  | None => rest
  end.

(** A duration [<days>d <hours>h <minutes>m <seconds>s] followed by
    [tail]. *)
Definition render_duration (d h m s : option string)
    (sp1 sp2 sp3 tail : string) : string :=
  render_unit d "d" sp1
    (render_unit h "h" sp2
       (render_unit m "m" sp3
          (render_unit s "s" "" tail))).

(** What follows the duration does not start, after white space, with
    a digit. *)
Definition no_number_ahead (tail : string) : Prop :=
  fst (Parse.span is_digit (lstrip tail)) = "".

(** The number a component stands for; a component left out counts as
    zero. *)
Definition component (g : option string) : Z :=
  match g with
  | Some ds => Parse.int_of_digits ds
  | None => 0
  end.

(** The component has no more digits than [int] converts. *)
Definition convertible (g : option string) : bool :=
  match g with
  | Some ds => Z.of_nat (String.length ds) <=? 4300
  | None => true
  end.

(** [days * 24 + hours + minutes / 60 + seconds / 3600] in binary64:
    the integer part is exact and converted once, each quotient is one
    correctly rounded division of two integers, and the two sums are
    float additions, from left to right. *)
Definition hours_in_binary64 (days hours minutes seconds : Z) : spec_float :=
  Float64.add
    (Float64.add (Float64.of_Z (days * 24 + hours))
                 (Float64.ratio minutes 60))
    (Float64.ratio seconds 3600).

(** A seconds component one digit longer than [int] converts. *)
Definition overlong_seconds : string :=
  string_of_list_ascii (repeat "7"%char 4301).

(** None of the three conversions to a float overflows. *)
Definition in_float_range (days hours minutes seconds : Z) : bool :=
  Float64.is_finite (Float64.of_Z (days * 24 + hours))
  && Float64.is_finite (Float64.ratio minutes 60)
  && Float64.is_finite (Float64.ratio seconds 3600).

(** *** Figures for comparison *)

(** [x] lies within [tolerance] of [target]. *)
Definition within (x target tolerance : Q) : Prop :=
  (Qabs (x - target) <= tolerance)%Q.

(** The hourly rate of one part as the script takes it: price over
    lifespan, rounded to three decimals. *)
Definition rounded_rate (it : Cost.item) : spec_float :=
  Float64.round (Float64.ratio (Cost.price it) (Cost.lifespan_min it)) 3.

(** The hourly rate of one part without the rounding. *)
Definition exact_rate (it : Cost.item) : spec_float :=
  Float64.ratio (Cost.price it) (Cost.lifespan_min it).

(** [0 + x1 + x2 + ...], from left to right. *)
Definition sum_floats (l : list spec_float) : spec_float :=
  fold_left Float64.add l (Float64.of_Z 0).

(** The electricity cost as the specification words it:
    [hours * (105 / 1000) * 0.06], with no rounding of the rate. *)
Definition unrounded_electricity_cost (hours : number) : result number :=
  (let* kw := Num.truediv (PyInt 105) (PyInt 1000) in
   let* a := Num.mul hours kw in
   Num.mul a (PyFloat (literal 6 2)))%result.

(** The sum of the three cost components of a result object. *)
Definition emitted_sum (r : Reply.t) : result number :=
  (let* a := Num.add (Reply.depreciation_cost r) (Reply.electricity_cost r) in
   Num.add a (Reply.filament_cost r))%result.

(** The first result object of a trace. *)
Fixpoint reply_of (t : list event) : option Reply.t :=
  match t with
  | [] => None
  | ResultJson r :: _ => Some r
  | _ :: t' => reply_of t'
  end.

(** The parsed filament mass is absent or zero. *)
Definition mass_absent_or_zero (py_float : string -> option spec_float)
    (used_g_value : option string) : Prop :=
  match used_g_value with
  | None => True
  | Some s =>
      truthy s = false
      \/ exists g, py_float s = Some g /\ Float64.is_zero g = true
  end.

(** *** Counting request identifiers *)

(** At least [n] different identifiers can be generated: there is a
    family of [n] draws of sixteen random bytes whose identifiers are
    pairwise different. *)
Definition at_least_distinct_ids (n : Z) : Prop :=
  exists draw : Z -> Z,
    (forall i, 0 <= i < n -> 0 <= draw i < 2 ^ 128)
    /\ (forall i j, 0 <= i < n -> 0 <= j < n ->
          Uuid.generated_request_id (draw i) = Uuid.generated_request_id (draw j) ->
          i = j).

(** The character code of a hexadecimal digit. *)
Definition hex_code (d : Z) : Z := if d <? 10 then 48 + d else 87 + d.

(** The archive holds a filament-usage entry and a per-plate
    machine-instruction entry. *)
Definition holds_slice_data (members : list (string * member)) : Prop :=
  (exists f, In f (map fst members) /\ endswith f "slice_info.config" = true)
  /\ (exists f, In f (map fst members)
                /\ endswith f ".gcode" = true /\ contains f "plate" = true).

(** The parser is handed this path and no other. *)
Definition parses_only (path : string) (ev : event) : Prop :=
  match ev with
  | OpenArchive p => p = path
  | _ => True
  end.

(** Skipping the slicer on the content of the input alone, whatever
    its name. *)
Definition skips_slicer_on_content
    (py_float : string -> option spec_float) (py_int : string -> option Z)
    (w : world) : Prop :=
  forall members,
    archive_at w (project_file w) = Zip members ->
    holds_slice_data members ->
    every (fun ev => slicer_activity ev = false) (main py_float py_int w)
    /\ min_save_3mf w = project_file w.

(** ** Sample runs *)

Module Sample.

Definition quoted (s : string) : string :=
  String Parse.quote s ++ String Parse.quote "".

(** A sliced archive: one filament line and a plate whose third line
    carries the estimated time. *)
Definition sliced_members (used_g time : string) : list (string * member) :=
  [ ("Metadata/slice_info.config",
     Content [ "<config>";
               "  <filament id=" ++ quoted "1" ++ " used_m=" ++ quoted "3.3"
               ++ " used_g=" ++ quoted used_g ++ " />";
               "</config>" ]);
    ("Metadata/plate_1.gcode",
     Content [ "; HEADER_BLOCK_START";
               "; BambuStudio";
               "; model printing time: 40s; total estimated time: " ++ time;
               "G1 X0 Y0" ]) ].

(** A world with one archive at [path] and nothing else of note. *)
Definition world_with (args : list string) (path : string)
    (members : list (string * member)) (s : slicer) : world :=
  {| argv := args;
     environ := ∅;
     urandom := 0x0123456789abcdef0123456789abcdef;
     archive_at := fun p => if String.eqb p path then Zip members else Missing;
     profile_at := fun _ => inr ∅;
     profile_write := None;
     makedirs_fault := None;
     display_probe := ProbeExit 0;
     opengl_probe := ProbeNotFound;
     slicer_run := s;
     work_dir_present := true;
     teardown_fault := None |}.

(** A pre-sliced input, 45 seconds of printing and 10 g of filament. *)
Definition presliced : world :=
  world_with ["bambu_callback.py"; "/in/model.3mf"; "req1"]
    "/in/model.3mf" (sliced_members "10.0" "45s") SlicerTimeout.

(** The same archive under a name that does not end in [.3mf]. *)
Definition presliced_as_zip : world :=
  world_with ["bambu_callback.py"; "/in/model.zip"; "req1"]
    "/in/model.zip" (sliced_members "10.0" "45s")
    (SlicerExit 0 "" "").

(** A pre-sliced input whose filament mass is not a number. *)
Definition bad_mass : world :=
  world_with ["bambu_callback.py"; "/in/model.3mf"; "req1"]
    "/in/model.3mf" (sliced_members "abc" "45s") SlicerTimeout.

(** No input file on the command line. *)
Definition no_arguments : world :=
  world_with ["bambu_callback.py"] "" [] SlicerTimeout.

(** An input file and no request identifier. *)
Definition no_request_id : world :=
  world_with ["bambu_callback.py"; "/in/cube.stl"] "" [] (SlicerExit 0 "" "").

(** An override of the infill density. *)
Definition with_infill (v : string) : world :=
  {| argv := ["bambu_callback.py"; "/in/cube.stl"];
     environ := {[ "INFILL_DENSITY" := v ]};
     urandom := 0;
     archive_at := fun _ => Missing;
     profile_at := fun _ => inr ∅;
     profile_write := None;
     makedirs_fault := None;
     display_probe := ProbeExit 0;
     opengl_probe := ProbeExit 0;
     slicer_run := SlicerExit 1 "" "";
     work_dir_present := true;
     teardown_fault := None |}.

End Sample.

(** ** Further vocabulary

    Predicates on runs and events used by the properties that follow
    the claims. *)

(** A run that ends in [sys.exit] ends with status 1. *)
Definition exits_with_failure {A} (m : run A) : Prop :=
  forall status, outcome_of m = Exits status -> status = 1.

Definition is_result (ev : event) : bool :=
  match ev with
  | ResultJson _ => true
  | _ => false
  end.

Definition is_parse (ev : event) : bool :=
  match ev with
  | OpenArchive _ => true
  | _ => false
  end.

(** The supervised slicer did not finish with return code 0. *)
Definition slicer_failed (w : world) : Prop :=
  match slicer_run w with
  | SlicerExit returncode _ _ => returncode <> 0
  | SlicerTimeout => True
  | SlicerRaises _ => True
  end.

(** Teardown is only ever called right before [sys.exit]. *)
Definition teardown_then_exit {A} (m : run A) : Prop :=
  forall dir, In (Teardown dir) (trace m) -> exists status, outcome_of m = Exits status.

(** No member of the archive fails to open. *)
Definition opens_cleanly (members : list (string * member)) : Prop :=
  forall name e, ~ In (name, OpenRaises e) members.

(** What a written profile is: the base profile read from disk with the
    overrides applied, stored in the work directory. *)
Definition composed_from_base (w : world) (ev : event) : Prop :=
  match ev with
  | WriteProfile path data =>
      path = modified_process_path w
      /\ needs_slicing w = true
      /\ profile_write w = None
      /\ exists base,
           profile_at w (print_quality_config w) = inr base
           /\ data = modify_process_data w base
  | _ => True
  end.

(** The slicer is launched with this profile and told to export to
    the path the parser opens. *)
Definition launched_with (w : world) (cfg : string) (ev : event) : Prop :=
  match ev with
  | LaunchSlicer command => command = slice_command w cfg
  | _ => True
  end.

Definition is_profile_write (ev : event) : bool :=
  match ev with
  | WriteProfile _ _ => true
  | _ => false
  end.

(** ** The sweep of stale work directories (lines 138-166)

    [cleanup_old_work_dirs], which [startup] calls at its [SweepStale]
    event, over what it finds on disk. *)

(** An entry of [os.listdir(WORK_BASE_DIR)]: its name, what
    [os.path.isdir] says of it, what [os.path.getmtime] gives, and a
    fault [shutil.rmtree] may meet in spite of [ignore_errors]. *)
Record dir_entry := Entry {
  entry_name : string;
  entry_is_dir : bool;
  entry_mtime : result spec_float;
  entry_rmtree_fault : option exn
}.

(** The work base as the sweep finds it. *)
Inductive listing :=
| NoWorkBase                      (* os.path.exists is false *)
| ListFails (e : exn)             (* os.listdir raises *)
| Listed (entries : list dir_entry).

(** [x > n] for a float [x] and an int [n]: the interpreter compares
    the exact values. *)
Definition float_gt_int (x : spec_float) (n : Z) : bool :=
  match x with
  | S754_nan => false
  | S754_infinity s => negb s
  | S754_zero _ => n <? 0
  | S754_finite _ _ _ => negb (Qle_bool (Float64.to_Q x) (inject_Z n))
  end.

Section Sweep.
Import Eff.
Local Open Scope run_scope.

Variable w : world.
Variable now : spec_float.               (* time.time() *)
Variable CLEANUP_AGE_SECONDS : Z.

(** Lines 148-161: one turn of the loop, from the count of removed
    directories so far to the new count. *)
Definition sweep_entry (cleaned : Z) (d : dir_entry) : run Z :=
  let dirpath := join (WORK_BASE_DIR w) (entry_name d) in
  if negb (entry_is_dir d) then ret cleaned
  else
    try_except any_exception
      (let* mtime := lift (entry_mtime d) in
       let age := SFsub Float64.prec Float64.emax now mtime in
       if float_gt_int age CLEANUP_AGE_SECONDS then
         emit (RemoveTree dirpath) ;;
         faulting (entry_rmtree_fault d) ;;
         ret (cleaned + 1)
       else ret cleaned)
      (fun _ => ret cleaned).

Fixpoint sweep_entries (cleaned : Z) (entries : list dir_entry) : run Z :=
  match entries with
  | [] => ret cleaned
  | d :: rest =>
      let* cleaned' := sweep_entry cleaned d in
      sweep_entries cleaned' rest
  end.

Definition cleanup_old_work_dirs (found : listing) : run unit :=
  match found with
  | NoWorkBase => ret tt
  | _ =>
      try_except any_exception
        (let* entries :=
           match found with
           | Listed entries => ret entries
           | ListFails e => raise e
           | NoWorkBase => ret []
           end in
         let* cleaned := sweep_entries 0 entries in
         if 0 <? cleaned then log "Cleanup: removed old work directories"
         else ret tt)
        (fun _ => log "Cleanup error")
  end.

(** A directory the sweep removes: one whose modification time can be
    read and lies more than the age limit back. *)
Definition is_stale (d : dir_entry) : bool :=
  entry_is_dir d
  && match entry_mtime d with
     | inr mtime =>
         float_gt_int (SFsub Float64.prec Float64.emax now mtime)
                      CLEANUP_AGE_SECONDS
     | inl _ => false
     end.

Definition removed_cleanly (d : dir_entry) : bool :=
  is_stale d
  && match entry_rmtree_fault d with
     | None => true
     | Some _ => false
     end.

End Sweep.

(** The same world with other results of the two diagnostic probes. *)
Definition with_probes (w : world) (display opengl : probe) : world :=
  {| argv := argv w;
     environ := environ w;
     urandom := urandom w;
     archive_at := archive_at w;
     profile_at := profile_at w;
     profile_write := profile_write w;
     makedirs_fault := makedirs_fault w;
     display_probe := display;
     opengl_probe := opengl;
     slicer_run := slicer_run w;
     work_dir_present := work_dir_present w;
     teardown_fault := teardown_fault w |}.

Definition is_log (ev : event) : bool :=
  match ev with
  | Log _ => true
  | _ => false
  end.

(** What a run does apart from logging. *)
Definition actions {A} (m : run A) : list event :=
  List.filter (fun ev => negb (is_log ev)) (trace m).

(** Two runs that end alike and differ in their log lines only. *)
Definition same_but_for_log {A} (m m' : run A) : Prop :=
  outcome_of m = outcome_of m' /\ actions m = actions m'.

(** ** Further sample runs *)

Module Cases.

(** A malformed filament price in the environment. *)
Definition bad_price : world :=
  {| argv := ["bambu_callback.py"; "/in/model.3mf"; "req1"];
     environ := {[ "FILAMENT_PRICE" := "12,50" ]};
     urandom := 0;
     archive_at := fun p =>
       if String.eqb p "/in/model.3mf"
       then Zip (Sample.sliced_members "10.0" "45s") else Missing;
     profile_at := fun _ => inr ∅;
     profile_write := None;
     makedirs_fault := None;
     display_probe := ProbeExit 0;
     opengl_probe := ProbeExit 0;
     slicer_run := SlicerExit 0 "" "";
     work_dir_present := true;
     teardown_fault := None |}.

(** A mesh whose slicing runs into the timeout. *)
Definition hung_slicer : world :=
  Sample.world_with ["bambu_callback.py"; "/in/cube.stl"; "req7"] "" []
    SlicerTimeout.

(** A pre-sliced archive whose g-code is stored for the second plate
    only. *)
Definition second_plate : world :=
  Sample.world_with ["bambu_callback.py"; "/in/part.3mf"; "req9"] "/in/part.3mf"
    [ ("Metadata/slice_info.config",
       Content ["<filament id=" ++ Sample.quoted "1" ++ " used_g="
                ++ Sample.quoted "10.0" ++ "/>"]);
      ("Metadata/plate_2.gcode",
       Content ["; HEADER_BLOCK_START"; "; BambuStudio";
                "; model printing time: 1h; total estimated time: 1h 2m 3s"]) ]
    (SlicerExit 0 "" "").

(** A setting that is not an integer. *)
Definition bad_timeout : world :=
  {| argv := ["bambu_callback.py"; "/in/model.3mf"; "req1"];
     environ := {[ "BAMBU_SLICE_TIMEOUT" := "2m" ]};
     urandom := 0;
     archive_at := fun _ => Missing;
     profile_at := fun _ => inr ∅;
     profile_write := None;
     makedirs_fault := None;
     display_probe := ProbeExit 0;
     opengl_probe := ProbeExit 0;
     slicer_run := SlicerExit 0 "" "";
     work_dir_present := true;
     teardown_fault := None |}.

(** A request identifier that is an absolute path. *)
Definition absolute_id : world :=
  Sample.world_with ["bambu_callback.py"; "/in/model.3mf"; "/srv/data"]
    "/in/model.3mf" (Sample.sliced_members "10.0" "45s") SlicerTimeout.

End Cases.

(** * Properties *)

(** ** Text *)

Lemma endswith_refl (s : string) : endswith s s = true.
Proof. destruct s; cbn [endswith]; rewrite String.eqb_refl; reflexivity. Qed.

Lemma endswith_app (s suf : string) : endswith (s ++ suf) suf = true.
Proof.
  induction s as [|c s IH].
  - apply endswith_refl.
  - change (String c s ++ suf) with (String c (s ++ suf)).
    cbn [endswith]. rewrite IH. apply orb_true_r.
Qed.

(** ** ConfigComposer *)

Lemma density_value_ends_with_percent (s : string) :
  endswith (density_value s) "%" = true.
Proof.
  unfold density_value. destruct (endswith s "%") eqn:E.
  - exact E.
  - apply endswith_app.
Qed.

Lemma density_value_idempotent (s : string) :
  density_value (density_value s) = density_value s.
Proof.
  unfold density_value at 1.
  rewrite density_value_ends_with_percent. reflexivity.
Qed.

Lemma truthy_nonempty (s : string) : s <> "" -> truthy s = true.
Proof.
  intros H. unfold truthy. destruct (String.eqb_spec s ""); [contradiction|reflexivity].
Qed.

Lemma modify_process_data_infill (w : world) (process_data : gmap string json) :
  INFILL_DENSITY w <> "" ->
  modify_process_data w process_data !! "sparse_infill_density"
  = Some (JStr (density_value (INFILL_DENSITY w))).
Proof.
  intros H. unfold modify_process_data.
  rewrite (truthy_nonempty _ H). apply lookup_insert_eq.
Qed.

(** ** Laws of the effect monad *)

Section EffLaws.
Import Eff.
Context {A B : Type}.
Implicit Types (m : run A) (k : A -> run B).

Lemma bind_returns m k a :
  outcome_of m = Returns a ->
  bind m k = Run (trace m ++ trace (k a))%list (outcome_of (k a)).
Proof. intros H. unfold bind. rewrite H. reflexivity. Qed.

Lemma bind_raises m k e :
  outcome_of m = Raises e -> bind m k = Run (trace m) (Raises e).
Proof. intros H. unfold bind. rewrite H. reflexivity. Qed.

Lemma bind_exits m k c :
  outcome_of m = Exits c -> bind m k = Run (trace m) (Exits c).
Proof. intros H. unfold bind. rewrite H. reflexivity. Qed.

Lemma in_bind_l m k ev : In ev (trace m) -> In ev (trace (bind m k)).
Proof.
  intros H. unfold bind. destruct (outcome_of m); simpl; auto.
  apply in_or_app. auto.
Qed.

Lemma in_bind_r m k a ev :
  outcome_of m = Returns a -> In ev (trace (k a)) -> In ev (trace (bind m k)).
Proof.
  intros H H'. rewrite (bind_returns _ _ _ H). simpl.
  apply in_or_app. auto.
Qed.

Lemma in_bind_inv m k ev :
  In ev (trace (bind m k)) ->
  In ev (trace m)
  \/ exists a, outcome_of m = Returns a /\ In ev (trace (k a)).
Proof.
  unfold bind. destruct (outcome_of m) as [a| |] eqn:E; simpl; auto.
  intros H. apply in_app_or in H. destruct H; eauto.
Qed.

Lemma every_bind (P : event -> Prop) m k :
  every P m ->
  (forall a, outcome_of m = Returns a -> every P (k a)) ->
  every P (bind m k).
Proof.
  unfold every, bind. intros Hm Hk.
  destruct (outcome_of m) as [a| |] eqn:E; simpl; auto.
  apply Forall_app. auto.
Qed.

Lemma returns_bind m k :
  returns m -> (forall a, returns (k a)) -> returns (bind m k).
Proof.
  intros [a Ha] Hk. destruct (Hk a) as [b Hb].
  exists b. rewrite (bind_returns _ _ _ Ha). exact Hb.
Qed.

Lemma contained_bind m k :
  contained m -> (forall a, contained (k a)) -> contained (bind m k).
Proof.
  unfold contained, bind. intros Hm Hk e.
  destruct (outcome_of m) as [a|e'|c] eqn:E; simpl.
  - apply Hk.
  - intros _. exact (Hm e' eq_refl).
  - discriminate.
Qed.

Lemma bind_no_exit m k :
  (forall c, outcome_of m <> Exits c) ->
  (forall a c, outcome_of (k a) <> Exits c) ->
  forall c, outcome_of (bind m k) <> Exits c.
Proof.
  unfold bind. intros Hm Hk c.
  destruct (outcome_of m) as [a|e'|c'] eqn:E; simpl.
  - apply Hk.
  - discriminate.
  - destruct (Hm c'). reflexivity.
Qed.

Lemma torn_down_bind dir m k :
  exits_torn_down dir m ->
  (forall a, exits_torn_down dir (k a)) ->
  exits_torn_down dir (bind m k).
Proof.
  unfold exits_torn_down, bind. intros Hm Hk c.
  destruct (outcome_of m) as [a|e'|c'] eqn:E; simpl.
  - intros H. apply in_or_app. right. eapply Hk, H.
  - discriminate.
  - intros _. apply (Hm c'). reflexivity.
Qed.

End EffLaws.

Section TryLaws.
Import Eff.
Context {A : Type}.
Implicit Types (body : run A) (handler : exn -> run A).

Lemma every_try (P : event -> Prop) catches body handler :
  every P body -> (forall e, every P (handler e)) ->
  every P (try_except catches body handler).
Proof.
  unfold every, try_except. intros Hb Hh.
  destruct (outcome_of body) as [a|e|c]; auto.
  destruct (catches e); simpl; auto. apply Forall_app. auto.
Qed.

Lemma in_try_body catches body handler ev :
  In ev (trace body) -> In ev (trace (try_except catches body handler)).
Proof.
  unfold try_except. intros H.
  destruct (outcome_of body) as [a|e|c]; auto.
  destruct (catches e); simpl; auto. apply in_or_app. auto.
Qed.

Lemma try_returns catches body handler a :
  outcome_of body = Returns a -> try_except catches body handler = body.
Proof. intros H. unfold try_except. rewrite H. reflexivity. Qed.

Lemma try_exits catches body handler c :
  outcome_of body = Exits c -> try_except catches body handler = body.
Proof. intros H. unfold try_except. rewrite H. reflexivity. Qed.

(** A handler for every exception that itself lets none out leaves a
    block that lets none out. *)
Lemma contained_try_any body handler :
  (forall e, contained (handler e)) ->
  contained (try_except any_exception body handler).
Proof.
  unfold contained, try_except, any_exception. intros Hh e.
  destruct (outcome_of body) as [a|e'|c] eqn:E; simpl.
  - rewrite E. discriminate.
  - apply Hh.
  - rewrite E. discriminate.
Qed.

Lemma returns_try_any body handler :
  (forall c, outcome_of body <> Exits c) ->
  (forall e, returns (handler e)) ->
  returns (try_except any_exception body handler).
Proof.
  unfold returns, try_except, any_exception. intros Hb Hh.
  destruct (outcome_of body) as [a|e'|c] eqn:E; simpl.
  - exists a. exact E.
  - apply Hh.
  - destruct (Hb c). reflexivity.
Qed.

Lemma torn_down_try dir catches body handler :
  exits_torn_down dir body ->
  (forall e, exits_torn_down dir (handler e)) ->
  exits_torn_down dir (try_except catches body handler).
Proof.
  unfold exits_torn_down, try_except. intros Hb Hh c.
  destruct (outcome_of body) as [a|e'|c'] eqn:E.
  - rewrite E. discriminate.
  - destruct (catches e'); simpl.
    + intros H. apply in_or_app. right. eapply Hh, H.
    + rewrite E. discriminate.
  - rewrite E. intros _. apply (Hb c'). reflexivity.
Qed.

End TryLaws.

(** ** The phases of the script *)

Lemma every_emit (P : event -> Prop) ev : P ev -> every P (Eff.emit ev).
Proof. intros H. constructor; [exact H|constructor]. Qed.

Lemma every_silent {A} (P : event -> Prop) (m : run A) :
  trace m = [] -> every P m.
Proof. unfold every. intros ->. constructor. Qed.

Ltac every_step :=
  match goal with
  | |- every _ (Eff.bind _ _) => apply every_bind; [|intros ? ?]
  | |- every _ (Eff.try_except _ _ _) => apply every_try; [|intros ?]
  | |- every _ (Eff.emit _) => apply every_emit
  | |- every _ (log _) => apply every_emit
  | |- every _ (Eff.ret _) => apply every_silent; reflexivity
  | |- every _ (Eff.raise _) => apply every_silent; reflexivity
  | |- every _ (Eff.sys_exit _) => apply every_silent; reflexivity
  | |- every _ (Eff.lift ?m) => apply every_silent; destruct m; reflexivity
  | |- every _ (Eff.faulting ?m) => apply every_silent; destruct m; reflexivity
  | |- every _ (if ?b then _ else _) => destruct b
  | |- every _ (match ?x with _ => _ end) => destruct x
  end.

Section Phases.
Import Eff.
Variable py_float : string -> option spec_float.
Variable py_int : string -> option Z.
Variable w : world.

(** *** Teardown *)

Lemma cleanup_returns : outcome_of (cleanup_current_work_dir w) = Returns tt.
Proof.
  unfold cleanup_current_work_dir.
  destruct (teardown_fault w), (work_dir_present w); reflexivity.
Qed.

Lemma cleanup_announced :
  In (Teardown (request_work_dir w)) (trace (cleanup_current_work_dir w)).
Proof.
  unfold cleanup_current_work_dir. apply in_bind_l. left. reflexivity.
Qed.

Lemma every_cleanup (P : event -> Prop) :
  P (Teardown (request_work_dir w)) ->
  P (RemoveTree (request_work_dir w)) ->
  (forall l, P (Log l)) ->
  every P (cleanup_current_work_dir w).
Proof.
  intros. unfold cleanup_current_work_dir. repeat every_step; auto.
Qed.

(** Teardown followed by [sys.exit]. *)
Lemma torn_down_cleanup_exit {A} (c : Z) :
  exits_torn_down (request_work_dir w)
    (bind (cleanup_current_work_dir w) (fun _ => sys_exit (A:=A) c)).
Proof. intros status _. apply in_bind_l, cleanup_announced. Qed.

Lemma torn_down_returns {A} dir (m : run A) :
  (forall c, outcome_of m <> Exits c) -> exits_torn_down dir m.
Proof. intros H c Hc. destruct (H c Hc). Qed.


(** *** Which events each phase can emit *)

Section Every.
Variable P : event -> Prop.
Hypothesis HK : forall ev, housekeeping ev = true -> P ev.

Ltac leaf := try (apply HK; reflexivity); auto.

Lemma every_cleanup' : every P (cleanup_current_work_dir w).
Proof. apply every_cleanup; intros; leaf. Qed.

Lemma every_startup :
  (is_3mf_file w = true -> P (InspectArchive (project_file w))) ->
  every P (startup py_int w).
Proof.
  intros H. unfold startup, int_of_env.
  destruct (is_3mf_file w); repeat every_step; leaf.
Qed.

Lemma every_compose_config :
  (forall data, P (WriteProfile (modified_process_path w)
                     (modify_process_data w data))) ->
  every P (compose_config w).
Proof. intros H. unfold compose_config. repeat every_step; leaf. Qed.

Lemma every_slicing_skipped cfg :
  needs_slicing w = false -> every P (slicing w cfg).
Proof.
  intros H. unfold slicing. rewrite H. simpl negb. cbv iota.
  repeat every_step; leaf.
Qed.

Lemma every_slicing cfg :
  (forall c, P (Probe c)) -> (forall c, P (LaunchSlicer c)) -> P KillSlicer ->
  every P (slicing w cfg).
Proof.
  intros H1 H2 H3.
  unfold slicing, supervise, run_probe, on_exit, on_timeout.
  repeat first [apply every_cleanup' | every_step]; leaf.
Qed.

Lemma every_scan_members members file_list acc :
  every P (scan_members members file_list acc).
Proof.
  revert acc. induction file_list as [|f rest IH]; intros acc.
  - apply every_silent. reflexivity.
  - cbn [scan_members]. unfold read_slice_info, read_plate_1.
    repeat first [apply IH | every_step]; leaf.
Qed.

Lemma every_parse_archive :
  P (OpenArchive (min_save_3mf w)) -> every P (parse_archive w).
Proof.
  intros H. unfold parse_archive.
  destruct (archive_at w (min_save_3mf w));
    repeat first [apply every_cleanup' | apply every_scan_members | every_step];
    leaf.
Qed.

Lemma every_report meta :
  (forall hours grams b,
     compute_costs py_float w meta = ok (hours, grams, b) ->
     P (ResultJson (result_json w hours grams b))) ->
  every P (report py_float w meta).
Proof.
  intros H. unfold report.
  destruct (compute_costs py_float w meta) as [e|[[hours grams] b]].
  - apply every_silent. reflexivity.
  - apply every_bind; [apply every_silent; reflexivity|intros a Ha].
    injection Ha as <-.
    repeat first [apply every_cleanup' | every_step]; leaf.
Qed.

Lemma every_main :
  (is_3mf_file w = true -> P (InspectArchive (project_file w))) ->
  (forall data, P (WriteProfile (modified_process_path w)
                     (modify_process_data w data))) ->
  (needs_slicing w = true ->
   (forall c, P (Probe c)) /\ (forall c, P (LaunchSlicer c)) /\ P KillSlicer) ->
  P (OpenArchive (min_save_3mf w)) ->
  (forall meta hours grams b,
     compute_costs py_float w meta = ok (hours, grams, b) ->
     P (ResultJson (result_json w hours grams b))) ->
  every P (main py_float py_int w).
Proof.
  intros H1 H2 H3 H4 H5. unfold main.
  apply every_bind; [apply every_startup; exact H1|intros _ _].
  apply every_bind; [apply every_compose_config; exact H2|intros cfg _].
  apply every_bind.
  - destruct (needs_slicing w) eqn:E.
    + destruct H3 as (? & ? & ?); [reflexivity|]. apply every_slicing; assumption.
    + apply every_slicing_skipped. exact E.
  - intros _ _. apply every_bind; [apply every_parse_archive; exact H4|].
    intros meta _. apply every_report. apply H5.
Qed.

End Every.

(** *** How each phase can end *)

Lemma bind_emit {A} ev (k : unit -> run A) :
  bind (emit ev) k = Run (ev :: trace (k tt)) (outcome_of (k tt)).
Proof. reflexivity. Qed.

Lemma no_exit_emit ev c : outcome_of (emit ev) <> Exits c.
Proof. discriminate. Qed.

Lemma no_exit_lift {A} (m : result A) c : outcome_of (lift m) <> Exits c.
Proof. destruct m; discriminate. Qed.

Lemma no_exit_faulting f c : outcome_of (faulting f) <> Exits c.
Proof. destruct f; discriminate. Qed.

Ltac torn_leaf :=
  apply torn_down_returns; intros ?;
  first [ apply no_exit_emit | apply no_exit_lift | apply no_exit_faulting
        | discriminate ].

Ltac torn_step :=
  match goal with
  | |- exits_torn_down _ (bind (cleanup_current_work_dir _) (fun _ => sys_exit _)) =>
      apply torn_down_cleanup_exit
  | |- exits_torn_down _ (bind _ _) => apply torn_down_bind; [|intros ?]
  | |- exits_torn_down _ (try_except _ _ _) => apply torn_down_try; [|intros ?]
  | |- exits_torn_down _ (if ?b then _ else _) => destruct b
  | |- exits_torn_down _ (match ?x with _ => _ end) => destruct x
  | |- exits_torn_down _ _ => torn_leaf
  end.

Lemma startup_returns :
  starts_up py_int w -> outcome_of (startup py_int w) = Returns tt.
Proof.
  intros (Hargs & Ht & Hc & Hm). unfold startup, int_of_env.
  destruct (Z.ltb_spec (Z.of_nat (List.length (argv w))) 2) as [Hlt|_]; [lia|].
  destruct (py_int (getenv w "BAMBU_SLICE_TIMEOUT" "120")); [|contradiction].
  destruct (py_int (getenv w "CLEANUP_AGE_SECONDS" "3600")); [|contradiction].
  rewrite Hm. destruct (is_3mf_file w); reflexivity.
Qed.

(** Past the usage check, the start-up never calls [sys.exit]. *)
Lemma startup_no_exit c :
  (2 <= List.length (argv w))%nat -> outcome_of (startup py_int w) <> Exits c.
Proof.
  intros Hargs. unfold startup, int_of_env.
  destruct (Z.ltb_spec (Z.of_nat (List.length (argv w))) 2) as [Hlt|_]; [lia|].
  destruct (is_3mf_file w),
    (py_int (getenv w "BAMBU_SLICE_TIMEOUT" "120")),
    (py_int (getenv w "CLEANUP_AGE_SECONDS" "3600")),
    (makedirs_fault w); discriminate.
Qed.

Lemma compose_config_returns : returns (compose_config w).
Proof.
  unfold compose_config. destruct (needs_config_modification w).
  - apply returns_bind; [eexists; reflexivity|intros _].
    apply returns_try_any.
    + intros c. destruct (profile_at w (print_quality_config w)),
        (profile_write w); discriminate.
    + intros e. eexists. reflexivity.
  - eexists. reflexivity.
Qed.

Lemma slicing_torn_down cfg :
  exits_torn_down (request_work_dir w) (slicing w cfg).
Proof.
  unfold slicing, supervise, run_probe, on_exit, on_timeout.
  repeat torn_step.
Qed.

Lemma read_slice_info_no_exit members acc c :
  outcome_of (read_slice_info members acc) <> Exits c.
Proof.
  unfold read_slice_info. apply bind_no_exit; [discriminate|intros _ c'].
  destruct (open_member _ members) as [[lines|e|e]|]; try discriminate.
  destruct (Parse.scan_slice_info _ lines). discriminate.
Qed.

Lemma read_plate_1_no_exit members acc c :
  outcome_of (read_plate_1 members acc) <> Exits c.
Proof.
  unfold read_plate_1. apply bind_no_exit; [discriminate|intros _ c'].
  destruct (open_member _ members) as [[lines|e|e]|]; try discriminate.
  destruct (Parse.third_line lines); discriminate.
Qed.

Lemma scan_members_no_exit members file_list acc c :
  outcome_of (scan_members members file_list acc) <> Exits c.
Proof.
  revert acc c. induction file_list as [|f rest IH]; intros acc c.
  - discriminate.
  - cbn [scan_members]. apply bind_no_exit.
    + intros c'. destruct (String.eqb f _);
        [apply read_slice_info_no_exit|discriminate].
    + intros a c'. apply bind_no_exit.
      * intros c''. destruct (String.eqb f _);
          [apply read_plate_1_no_exit|discriminate].
      * intros a' c''. apply IH.
Qed.

Lemma parse_archive_torn_down :
  exits_torn_down (request_work_dir w) (parse_archive w).
Proof.
  unfold parse_archive.
  destruct (archive_at w (min_save_3mf w)); repeat torn_step.
  all: apply torn_down_returns; intros c; apply scan_members_no_exit.
Qed.

Lemma report_no_exit meta c : outcome_of (report py_float w meta) <> Exits c.
Proof.
  unfold report. revert c. apply bind_no_exit; [apply no_exit_lift|].
  intros [[hours grams] b].
  do 3 (apply bind_no_exit; [discriminate|intros _]).
  apply bind_no_exit; [|discriminate].
  intros c. rewrite cleanup_returns. discriminate.
Qed.

(** A report that completes has called teardown. *)
Lemma report_returns_torn_down meta a :
  outcome_of (report py_float w meta) = Returns a ->
  In (Teardown (request_work_dir w)) (trace (report py_float w meta)).
Proof.
  unfold report.
  destruct (compute_costs py_float w meta) as [e|[[hours grams] b]];
    [discriminate|intros _].
  eapply in_bind_r; [reflexivity|].
  do 3 (eapply in_bind_r; [reflexivity|]).
  apply in_bind_l, cleanup_announced.
Qed.

(** The cost phase is the only one that computes with text turned
    into numbers; when it raises, nothing has been torn down. *)
Lemma report_raises_untouched meta e :
  outcome_of (report py_float w meta) = Raises e ->
  trace (report py_float w meta) = [].
Proof.
  unfold report.
  destruct (compute_costs py_float w meta) as [e'|[[hours grams] b]];
    [reflexivity|].
  intros H. exfalso. revert H.
  rewrite (bind_returns (lift (inr (hours, grams, b))) _ (hours, grams, b) eq_refl);
    cbn [outcome_of]; cbv beta iota.
  unfold log. rewrite !bind_emit. cbn [outcome_of].
  rewrite (bind_returns _ _ tt cleanup_returns). discriminate.
Qed.

(** *** The script as a whole *)

Lemma returns_no_exit {A} (m : run A) c : returns m -> outcome_of m <> Exits c.
Proof. intros [a ->]. discriminate. Qed.

Lemma bind_returns_inv {A B} (m : run A) (k : A -> run B) b :
  outcome_of (bind m k) = Returns b ->
  exists a, outcome_of m = Returns a /\ outcome_of (k a) = Returns b.
Proof.
  unfold bind. destruct (outcome_of m) as [a| |]; simpl; try discriminate.
  eauto.
Qed.

(** A run that completes has called teardown, and so has a run that
    ends in [sys.exit] once an input file was named. *)
Lemma main_torn_down :
  (forall a, outcome_of (main py_float py_int w) = Returns a ->
             In (Teardown (request_work_dir w)) (trace (main py_float py_int w)))
  /\ (forall c, outcome_of (main py_float py_int w) = Exits c ->
                (2 <= List.length (argv w))%nat ->
                In (Teardown (request_work_dir w))
                   (trace (main py_float py_int w))).
Proof.
  split.
  - intros a H. unfold main in *.
    apply bind_returns_inv in H as (u & H1 & H).
    apply bind_returns_inv in H as (cfg & H2 & H).
    apply bind_returns_inv in H as (u' & H3 & H).
    apply bind_returns_inv in H as (meta & H4 & H).
    eapply in_bind_r; [exact H1|]. eapply in_bind_r; [exact H2|].
    eapply in_bind_r; [exact H3|]. eapply in_bind_r; [exact H4|].
    eapply report_returns_torn_down, H.
  - intros c H Hargs. revert c H. unfold main.
    apply torn_down_bind;
      [apply torn_down_returns; intros c; apply startup_no_exit, Hargs|intros _].
    apply torn_down_bind;
      [apply torn_down_returns; intros c;
       apply returns_no_exit, compose_config_returns|intros cfg].
    apply torn_down_bind; [apply slicing_torn_down|intros _].
    apply torn_down_bind; [apply parse_archive_torn_down|intros meta].
    apply torn_down_returns. intros c. apply report_no_exit.
Qed.

Lemma run_probe_returns command p : outcome_of (run_probe command p) = Returns tt.
Proof. destruct p as [rc| | |e]; try reflexivity. simpl. destruct (rc =? 0); reflexivity. Qed.

Lemma slicing_launches cfg :
  needs_slicing w = true ->
  In (LaunchSlicer (slice_command w cfg)) (trace (slicing w cfg)).
Proof.
  intros H. unfold slicing. rewrite H. cbn [negb].
  apply in_bind_l.
  do 2 (eapply in_bind_r; [reflexivity|]).
  eapply in_bind_r; [apply run_probe_returns|].
  eapply in_bind_r; [reflexivity|].
  eapply in_bind_r; [apply run_probe_returns|].
  apply in_bind_l. unfold supervise.
  eapply in_bind_r; [reflexivity|].
  apply in_try_body, in_bind_l. left. reflexivity.
Qed.

Lemma slicing_skipped_returns cfg :
  needs_slicing w = false -> outcome_of (slicing w cfg) = Returns tt.
Proof. intros H. unfold slicing. rewrite H. reflexivity. Qed.

Lemma main_launches :
  starts_up py_int w -> needs_slicing w = true ->
  exists cfg, In (LaunchSlicer (slice_command w cfg))
                 (trace (main py_float py_int w)).
Proof.
  intros Hs Hn. destruct compose_config_returns as [cfg Hc].
  exists cfg. unfold main.
  eapply in_bind_r; [apply startup_returns, Hs|].
  eapply in_bind_r; [exact Hc|].
  apply in_bind_l, slicing_launches, Hn.
Qed.

Lemma main_parses_input members :
  starts_up py_int w -> is_presliced_3mf w = true ->
  archive_at w (project_file w) = Zip members ->
  In (OpenArchive (project_file w)) (trace (main py_float py_int w)).
Proof.
  intros Hs Hp Ha. destruct compose_config_returns as [cfg Hc].
  assert (Hmin : min_save_3mf w = project_file w)
    by (unfold min_save_3mf; rewrite Hp; reflexivity).
  unfold main.
  eapply in_bind_r; [apply startup_returns, Hs|].
  eapply in_bind_r; [exact Hc|].
  eapply in_bind_r;
    [apply slicing_skipped_returns; unfold needs_slicing; rewrite Hp; reflexivity|].
  apply in_bind_l. unfold parse_archive. rewrite Hmin, Ha.
  eapply in_bind_r; [reflexivity|].
  apply in_try_body, in_bind_l. left. reflexivity.
Qed.

End Phases.

(** ** Pre-sliced detection *)

Lemma prefix_lower (p s : string) :
  String.prefix p s = true -> String.prefix (lower p) (lower s) = true.
Proof.
  revert s. induction p as [|a p IH]; intros [|b s]; simpl; auto.
  destruct (ascii_dec a b) as [->|]; [|discriminate].
  intros H. destruct (ascii_dec (lower_char b) (lower_char b)); [auto|congruence].
Qed.

Lemma contains_lower (s sub : string) :
  contains s sub = true -> contains (lower s) (lower sub) = true.
Proof.
  induction s as [|c s IH]; cbn [contains lower]; intros H.
  - apply orb_true_iff in H as [H|H]; [|discriminate].
    apply prefix_lower in H. cbn [lower] in H. rewrite H. reflexivity.
  - apply orb_true_iff in H as [H|H].
    + apply (prefix_lower sub (String c s)) in H. cbn [lower] in H.
      rewrite H. reflexivity.
    + rewrite (IH H). apply orb_true_r.
Qed.

Lemma holds_slice_data_detected (w : world) (filepath : string) members :
  archive_at w filepath = Zip members ->
  holds_slice_data members ->
  check_3mf_has_slice_data w filepath = true.
Proof.
  intros Ha [(f & Hf & Hcfg) (g & Hg & Hgcode & Hplate)].
  unfold check_3mf_has_slice_data. rewrite Ha.
  apply andb_true_iff. split; apply existsb_exists.
  - exists f. auto.
  - exists g. split; [exact Hg|]. rewrite Hgcode.
    apply (contains_lower g "plate"), Hplate.
Qed.

(** * The claims *)

(** ** Teardown on exit *)

(** Teardown itself never raises: whatever goes wrong inside it, it
    returns to its caller. *)
Lemma teardown_never_raises (w : world) :
  outcome_of (cleanup_current_work_dir w) = Returns tt.
Proof. apply cleanup_returns. Qed.

(** X22.  Every path on which the script ends by itself, by completing
    or by [sys.exit] after an input file was named, has called
    teardown. *)
Lemma handled_paths_tear_down py_float py_int (w : world) status :
  (2 <= List.length (argv w))%nat ->
  outcome_of (main py_float py_int w) = Returns tt
  \/ outcome_of (main py_float py_int w) = Exits status ->
  In (Teardown (request_work_dir w)) (trace (main py_float py_int w)).
Proof.
  intros Hargs [H|H]; destruct (main_torn_down py_float py_int w) as [H1 H2].
  - exact (H1 tt H).
  - exact (H2 status H Hargs).
Qed.

(** C1.  The claim asks for teardown on every exit path.  A pre-sliced
    archive whose filament mass attribute is not a number makes [float]
    raise [ValueError] at line 627; nothing catches it, the script ends
    there, the work directory has been created and teardown has not been
    called. *)
Theorem teardown_skipped_when_float_raises :
  let r := main Plain.float Plain.int Sample.bad_mass in
  outcome_of r = Raises ValueError
  /\ In (MakeDirs (request_work_dir Sample.bad_mass)) (trace r)
  /\ ~ In (Teardown (request_work_dir Sample.bad_mass)) (trace r).
Proof.
  vm_compute. repeat split.
  - tauto.
  - intros H. repeat (destruct H as [H|H]; [discriminate H|]). exact H.
Qed.

(** ** The pre-sliced path *)

(** C3, as stated, fails: an archive with both entries whose name ends
    in [.zip] is handed to the slicer. *)
Lemma content_alone_does_not_skip_slicer :
  ~ skips_slicer_on_content Plain.float Plain.int Sample.presliced_as_zip.
Proof.
  intros H.
  destruct (H (Sample.sliced_members "10.0" "45s")) as [Hev _].
  - reflexivity.
  - split.
    + exists "Metadata/slice_info.config". split; [left|]; reflexivity.
    + exists "Metadata/plate_1.gcode". split; [right; left|split]; reflexivity.
  - assert (Hin : In (LaunchSlicer
                        (slice_command Sample.presliced_as_zip
                           (modified_process_path Sample.presliced_as_zip)))
                     (trace (main Plain.float Plain.int Sample.presliced_as_zip)))
      by (vm_compute; tauto).
    unfold every in Hev. rewrite List.Forall_forall in Hev.
    apply Hev in Hin. discriminate Hin.
Qed.

(** C3, amended.  For an input whose name ends in [.3mf], in any case,
    and whose archive holds both a filament-usage entry and a per-plate
    machine-instruction entry: no probe is run, the slicer is not
    launched, and the path handed to the parser is the input path
    itself. *)
Theorem presliced_3mf_skips_slicer :
  forall py_float py_int (w : world) members,
    is_3mf_file w = true ->
    archive_at w (project_file w) = Zip members ->
    holds_slice_data members ->
    every (fun ev => slicer_activity ev = false) (main py_float py_int w)
    /\ min_save_3mf w = project_file w
    /\ every (parses_only (project_file w)) (main py_float py_int w)
    /\ (starts_up py_int w ->
        In (OpenArchive (project_file w)) (trace (main py_float py_int w))).
Proof.
  intros py_float py_int w members H3mf Ha Hdata.
  assert (Hp : is_presliced_3mf w = true).
  { unfold is_presliced_3mf. rewrite H3mf.
    eapply holds_slice_data_detected; eauto. }
  assert (Hn : needs_slicing w = false) by (unfold needs_slicing; rewrite Hp; reflexivity).
  assert (Hmin : min_save_3mf w = project_file w)
    by (unfold min_save_3mf; rewrite Hp; reflexivity).
  split; [|split; [|split]].
  - apply every_main.
    + intros [] E; try discriminate E; reflexivity.
    + reflexivity.
    + reflexivity.
    + rewrite Hn. discriminate.
    + reflexivity.
    + reflexivity.
  - exact Hmin.
  - apply every_main.
    + intros [] E; try discriminate E; exact I.
    + intros _. exact I.
    + intros d. exact I.
    + intros _. repeat split; intros; exact I.
    + exact Hmin.
    + intros; exact I.
  - intros Hs. eapply main_parses_input; eauto.
Qed.

Lemma presliced_3mf_skips_slicer_witness :
  is_3mf_file Sample.presliced = true
  /\ holds_slice_data (Sample.sliced_members "10.0" "45s")
  /\ every (fun ev => slicer_activity ev = false)
       (main Plain.float Plain.int Sample.presliced)
  /\ In (OpenArchive "/in/model.3mf")
       (trace (main Plain.float Plain.int Sample.presliced)).
Proof.
  assert (Hd : holds_slice_data (Sample.sliced_members "10.0" "45s")).
  { split.
    - exists "Metadata/slice_info.config". split; [left|]; reflexivity.
    - exists "Metadata/plate_1.gcode". split; [right; left|split]; reflexivity. }
  destruct (presliced_3mf_skips_slicer Plain.float Plain.int Sample.presliced
              (Sample.sliced_members "10.0" "45s") eq_refl eq_refl Hd)
    as (H1 & _ & _ & H4).
  split; [reflexivity|split; [exact Hd|split; [exact H1|]]].
  apply H4. unfold starts_up. vm_compute.
  repeat split; try discriminate. lia.
Defined.

(** C10.  An input whose extension, lowered, is not [.3mf] is never
    inspected for slice data; it counts as needing slicing whatever it
    contains, and once the script has started up the slicer is launched
    with the input as the last argument. *)
Theorem only_3mf_inputs_are_inspected :
  forall py_float py_int (w : world),
    lower (snd (splitext (project_file w))) <> ".3mf" ->
    every (fun ev => is_inspection ev = false) (main py_float py_int w)
    /\ is_presliced_3mf w = false
    /\ needs_slicing w = true
    /\ (starts_up py_int w ->
        exists cfg,
          In (LaunchSlicer (slice_command w cfg)) (trace (main py_float py_int w))
          /\ List.last (slice_command w cfg) "" = project_file w).
Proof.
  intros py_float py_int w Hext.
  assert (H3 : is_3mf_file w = false).
  { unfold is_3mf_file, input_extension. apply String.eqb_neq, Hext. }
  assert (Hp : is_presliced_3mf w = false)
    by (unfold is_presliced_3mf; rewrite H3; reflexivity).
  assert (Hn : needs_slicing w = true)
    by (unfold needs_slicing; rewrite Hp; reflexivity).
  split; [|split; [|split]]; auto.
  - apply every_main.
    + intros [] E; try discriminate E; reflexivity.
    + rewrite H3. discriminate.
    + reflexivity.
    + intros _. repeat split; reflexivity.
    + reflexivity.
    + reflexivity.
  - intros Hs. destruct (main_launches py_float py_int w Hs Hn) as [cfg Hc].
    exists cfg. split; [exact Hc|reflexivity].
Qed.

Lemma only_3mf_inputs_are_inspected_witness :
  holds_slice_data (Sample.sliced_members "10.0" "45s")
  /\ archive_at Sample.presliced_as_zip "/in/model.zip"
     = Zip (Sample.sliced_members "10.0" "45s")
  /\ needs_slicing Sample.presliced_as_zip = true
  /\ exists cfg,
       In (LaunchSlicer (slice_command Sample.presliced_as_zip cfg))
          (trace (main Plain.float Plain.int Sample.presliced_as_zip)).
Proof.
  assert (Hext : lower (snd (splitext (project_file Sample.presliced_as_zip))) <> ".3mf")
    by (vm_compute; discriminate).
  destruct (only_3mf_inputs_are_inspected Plain.float Plain.int
              Sample.presliced_as_zip Hext) as (_ & _ & Hn & Hl).
  split; [|split; [reflexivity|split; [exact Hn|]]].
  - split.
    + exists "Metadata/slice_info.config". split; [left|]; reflexivity.
    + exists "Metadata/plate_1.gcode". split; [right; left|split]; reflexivity.
  - destruct Hl as [cfg [Hc _]].
    + unfold starts_up. vm_compute. repeat split; try discriminate. lia.
    + exists cfg. exact Hc.
Defined.

(** ** Infill density *)

(** C9.  Whenever the infill override is not empty, a profile that the
    script writes carries it under [sparse_infill_density] with a
    trailing percent sign: appended when it was missing, left alone when
    it was there, so that applying the rule twice changes nothing. *)
Theorem infill_density_gets_percent_sign :
  forall py_float py_int (w : world) path data,
    INFILL_DENSITY w <> "" ->
    In (WriteProfile path data) (trace (main py_float py_int w)) ->
    data !! "sparse_infill_density"
    = Some (JStr (density_value (INFILL_DENSITY w)))
    /\ endswith (density_value (INFILL_DENSITY w)) "%" = true
    /\ (endswith (INFILL_DENSITY w) "%" = false ->
        density_value (INFILL_DENSITY w) = INFILL_DENSITY w ++ "%")
    /\ (endswith (INFILL_DENSITY w) "%" = true ->
        density_value (INFILL_DENSITY w) = INFILL_DENSITY w)
    /\ density_value (density_value (INFILL_DENSITY w))
       = density_value (INFILL_DENSITY w)
    /\ density_value "30" = "30%"
    /\ density_value "30%" = "30%".
Proof.
  intros py_float py_int w path data Hne Hin.
  split; [|split; [|split; [|split; [|split; [|split]]]]].
  - assert (Hev : every (fun ev =>
                    match ev with
                    | WriteProfile _ d =>
                        d !! "sparse_infill_density"
                        = Some (JStr (density_value (INFILL_DENSITY w)))
                    | _ => True
                    end) (main py_float py_int w)).
    { apply every_main.
      - intros [] E; try discriminate E; exact I.
      - intros _. exact I.
      - intros d. apply modify_process_data_infill, Hne.
      - intros _. repeat split; intros; exact I.
      - exact I.
      - intros; exact I. }
    unfold every in Hev. rewrite List.Forall_forall in Hev.
    exact (Hev _ Hin).
  - apply density_value_ends_with_percent.
  - intros E. unfold density_value. rewrite E. reflexivity.
  - intros E. unfold density_value. rewrite E. reflexivity.
  - apply density_value_idempotent.
  - reflexivity.
  - reflexivity.
Qed.

Lemma infill_density_gets_percent_sign_witness :
  INFILL_DENSITY (Sample.with_infill " 30 ") <> ""
  /\ In (WriteProfile (modified_process_path (Sample.with_infill " 30 "))
           (modify_process_data (Sample.with_infill " 30 ") ∅))
        (trace (main Plain.float Plain.int (Sample.with_infill " 30 ")))
  /\ modify_process_data (Sample.with_infill " 30 ") ∅ !! "sparse_infill_density"
     = Some (JStr "30%").
Proof.
  assert (Hne : INFILL_DENSITY (Sample.with_infill " 30 ") <> "")
    by (vm_compute; discriminate).
  assert (Hin : In (WriteProfile (modified_process_path (Sample.with_infill " 30 "))
                      (modify_process_data (Sample.with_infill " 30 ") ∅))
                   (trace (main Plain.float Plain.int (Sample.with_infill " 30 "))))
    by (vm_compute; tauto).
  destruct (infill_density_gets_percent_sign Plain.float Plain.int _ _ _ Hne Hin)
    as (H & _).
  split; [exact Hne|split; [exact Hin|exact H]].
Defined.


(** ** Printing time *)

Section Duration.
Import Parse.

Lemma span_digits_stop (ds : string) (c : ascii) (rest : string) :
  all_chars is_digit ds = true -> is_digit c = false ->
  span is_digit (ds ++ String c rest) = (ds, String c rest).
Proof.
  intros Hd Hc. induction ds as [|a ds IH].
  - simpl. rewrite Hc. reflexivity.
  - simpl in Hd. apply andb_true_iff in Hd as [Ha Hd].
    change (String a ds ++ String c rest) with (String a (ds ++ String c rest)).
    cbn [span]. rewrite Ha, (IH Hd). reflexivity.
Qed.

Lemma unit_group_taken (u : ascii) (ds rest : string) :
  digits ds = true -> is_digit u = false ->
  unit_group u (ds ++ String u rest) = Some (ds, rest).
Proof.
  intros Hd Hu. apply andb_true_iff in Hd as [Hne Hd].
  unfold unit_group. rewrite (span_digits_stop _ _ _ Hd Hu).
  destruct ds; [discriminate Hne|]. rewrite Ascii.eqb_refl. reflexivity.
Qed.

Lemma unit_group_other (u v : ascii) (ds rest : string) :
  digits ds = true -> is_digit v = false -> Ascii.eqb v u = false ->
  unit_group u (ds ++ String v rest) = None.
Proof.
  intros Hd Hv Hne. apply andb_true_iff in Hd as [_ Hd].
  unfold unit_group. rewrite (span_digits_stop _ _ _ Hd Hv).
  destruct ds; [reflexivity|]. rewrite Hne. reflexivity.
Qed.

Lemma unit_group_no_digits (u : ascii) (t : string) :
  fst (span is_digit t) = "" -> unit_group u t = None.
Proof.
  unfold unit_group. destruct (span is_digit t) as [a b]. simpl.
  intros ->. reflexivity.
Qed.

Lemma lstrip_spaces (sp t : string) :
  all_chars is_space sp = true -> lstrip (sp ++ t) = lstrip t.
Proof.
  induction sp as [|c sp IH]; [reflexivity|]. simpl.
  intros H. apply andb_true_iff in H as [Hc Hs]. rewrite Hc. auto.
Qed.

Lemma digit_not_space (c : ascii) : is_digit c = true -> is_space c = false.
Proof.
  unfold is_digit, is_space. intros H.
  apply andb_true_iff in H as [H1 H2].
  apply Nat.leb_le in H1, H2.
  repeat match goal with
         | |- context [(?a <=? ?b)%nat] => destruct (Nat.leb_spec a b)
         | |- context [(?a =? ?b)%nat] => destruct (Nat.eqb_spec a b)
         end; simpl; try reflexivity; lia.
Qed.

Lemma lstrip_digits (ds t : string) :
  digits ds = true -> lstrip (ds ++ t) = ds ++ t.
Proof.
  intros H. apply andb_true_iff in H as [Hne Hd].
  destruct ds as [|c ds]; [discriminate Hne|].
  simpl in Hd. apply andb_true_iff in Hd as [Hc _].
  simpl. rewrite (digit_not_space _ Hc). reflexivity.
Qed.

Lemma no_number_ahead_here (tail : string) :
  no_number_ahead tail -> fst (span is_digit tail) = "".
Proof.
  unfold no_number_ahead. destruct tail as [|c tail]; [reflexivity|].
  simpl. destruct (is_digit c) eqn:Hc.
  - rewrite (digit_not_space _ Hc). simpl. rewrite Hc.
    destruct (span is_digit tail). discriminate.
  - reflexivity.
Qed.

Ltac duration_step :=
  first
    [ rewrite unit_group_taken by (assumption || reflexivity)
    | rewrite unit_group_other by (assumption || reflexivity)
    | rewrite unit_group_no_digits by assumption
    | rewrite lstrip_spaces by assumption
    | rewrite lstrip_digits by assumption ];
  cbv beta iota.

(** The matcher reads back the components of a printed duration. *)
Lemma match_rendered_duration (d h m s : option string)
    (sp1 sp2 sp3 tail : string) :
  optional_digits d = true -> optional_digits h = true ->
  optional_digits m = true -> optional_digits s = true ->
  all_chars is_space sp1 = true -> all_chars is_space sp2 = true ->
  all_chars is_space sp3 = true ->
  s <> None \/ no_number_ahead tail ->
  match_duration (render_duration d h m s sp1 sp2 sp3 tail) = Groups d h m s.
Proof.
  intros Hd Hh Hm Hs H1 H2 H3 Htail.
  assert (Ht : s = None ->
               fst (span is_digit tail) = ""
               /\ fst (span is_digit (lstrip tail)) = "").
  { intros ->. destruct Htail as [Hc|Hn]; [contradiction|].
    split; [apply no_number_ahead_here, Hn|exact Hn]. }
  unfold match_duration, render_duration, render_unit, optional_unit.
  destruct d as [dd|], h as [hh|], m as [mm|], s as [ss|];
    cbn [optional_digits] in Hd, Hh, Hm, Hs;
    try (destruct (Ht eq_refl) as [Ht1 Ht2]);
    repeat duration_step; reflexivity.
Qed.

Lemma after_first_nonempty (needle line rest : string) :
  needle <> "" -> after_first needle line = Some rest -> truthy line = true.
Proof.
  intros Hn. destruct line; [|reflexivity].
  destruct needle; [contradiction|]. discriminate.
Qed.

(** The conversion of a component: its number, or [ValueError] when
    it is too long. *)
Lemma group_int_cases (g : option string) :
  group_int g = if convertible g then ok (component g) else throw ValueError.
Proof.
  destruct g as [ds|]; [|reflexivity].
  unfold group_int, int_of_str, convertible, component, max_str_digits.
  rewrite Z.ltb_antisym. destruct (Z.of_nat (String.length ds) <=? 4300);
    reflexivity.
Qed.

Lemma hours_formula_cases (days hours minutes seconds : Z) :
  Cost.hours_formula days hours minutes seconds
  = if in_float_range days hours minutes seconds
    then ok (PyFloat (hours_in_binary64 days hours minutes seconds))
    else throw OverflowError.
Proof.
  cbv beta iota zeta delta
    [Cost.hours_formula Num.mul Num.add Num.truediv Num.to_float
     Num.int_to_float rbind ok throw in_float_range hours_in_binary64].
  change (60 =? 0) with false. change (3600 =? 0) with false.
  change (0 <? 60) with true. change (0 <? 3600) with true. cbv beta iota.
  destruct (Float64.is_finite (Float64.ratio minutes 60));
    destruct (Float64.is_finite (Float64.of_Z (days * 24 + hours)));
    destruct (Float64.is_finite (Float64.ratio seconds 3600)); reflexivity.
Qed.

Lemma hours_of_groups_cases (d h m s : option string) :
  Cost.hours_of_groups (Groups d h m s)
  = if convertible d && convertible h && convertible m && convertible s
    then if in_float_range (component d) (component h) (component m)
                           (component s)
         then ok (PyFloat (hours_in_binary64 (component d) (component h)
                             (component m) (component s)))
         else throw OverflowError
    else throw ValueError.
Proof.
  unfold Cost.hours_of_groups. cbn [group_d group_h group_m group_s].
  rewrite !group_int_cases.
  destruct (convertible d); [|reflexivity].
  destruct (convertible h); [|reflexivity].
  destruct (convertible m); [|reflexivity].
  destruct (convertible s); [|reflexivity].
  cbn [rbind ok andb]. apply hours_formula_cases.
Qed.

End Duration.

(** C2, as stated, fails on its own example: [1d 2h 3m 4s] is
    [26 + 3/60 + 4/3600] hours, a little over 26.051, not 26.05. *)
Lemma one_day_two_hours_three_minutes_four_seconds :
  Cost.Total_printing_hours (Some "; total estimated time: 1d 2h 3m 4s")
  = ok (PyFloat (S754_finite false 7332735893286712 (-48)))
  /\ Num.eqb (PyFloat (S754_finite false 7332735893286712 (-48)))
             (PyFloat (literal 2605 2)) = false
  /\ ((2605 # 100) + (1 # 1000)
      < Float64.to_Q (S754_finite false 7332735893286712 (-48)))%Q.
Proof.
  split; [vm_compute; reflexivity|split; [vm_compute; reflexivity|]].
  vm_compute. reflexivity.
Qed.

(** C2, amended.  For a line whose text after the first
    [total estimated time: ] is a duration
    [<days>d <hours>h <minutes>m <seconds>s], each component optional
    and in that order, the printing time is
    [days * 24 + hours + minutes / 60 + seconds / 3600] in binary64
    arithmetic, provided no component has more than 4300 digits and
    the values are in the range of a float.  A component of more than
    4300 digits makes [int] raise [ValueError]; values out of the
    range of a float raise [OverflowError].  [45s] gives 0.0125; an
    empty or missing duration gives 0; [1d 2h 3m 4s] gives 11723/450
    hours, about 26.0511, up to the rounding of binary64. *)
Theorem printing_hours_of_duration :
  forall (d h m s : option string) (sp1 sp2 sp3 tail line : string),
    optional_digits d = true -> optional_digits h = true ->
    optional_digits m = true -> optional_digits s = true ->
    all_chars is_space sp1 = true -> all_chars is_space sp2 = true ->
    all_chars is_space sp3 = true ->
    s <> None \/ no_number_ahead tail ->
    Parse.after_first "total estimated time: " line
    = Some (render_duration d h m s sp1 sp2 sp3 tail) ->
    (convertible d && convertible h && convertible m && convertible s = true ->
     in_float_range (component d) (component h) (component m) (component s)
     = true ->
     Cost.Total_printing_hours (Some line)
     = ok (PyFloat (hours_in_binary64 (component d) (component h)
                      (component m) (component s))))
    /\ (convertible d && convertible h && convertible m && convertible s = false ->
        Cost.Total_printing_hours (Some line) = throw ValueError)
    /\ (convertible d && convertible h && convertible m && convertible s = true ->
        in_float_range (component d) (component h) (component m) (component s)
        = false ->
        Cost.Total_printing_hours (Some line) = throw OverflowError)
    /\ Cost.Total_printing_hours (Some "; total estimated time: 45s")
       = ok (PyFloat (literal 125 4))
    /\ Cost.Total_printing_hours (Some "; total estimated time: ")
       = ok (PyFloat (S754_zero false))
    /\ Cost.Total_printing_hours (Some "; no such field") = ok (PyInt 0)
    /\ Cost.Total_printing_hours None = ok (PyInt 0)
    /\ exists x,
         Cost.Total_printing_hours (Some "; total estimated time: 1d 2h 3m 4s")
         = ok (PyFloat x)
         /\ within (Float64.to_Q x) (11723 # 450) (1 # 1000000000000).
Proof.
  intros d h m s sp1 sp2 sp3 tail line Hd Hh Hm Hs H1 H2 H3 Htail Hline.
  assert (Hgroups : Cost.Total_printing_hours (Some line)
                    = Cost.hours_of_groups (Parse.Groups d h m s)).
  { unfold Cost.Total_printing_hours.
    rewrite (after_first_nonempty "total estimated time: " _ _
               ltac:(discriminate) Hline).
    unfold Parse.search_duration. rewrite Hline.
    rewrite match_rendered_duration by assumption. reflexivity. }
  rewrite Hgroups, hours_of_groups_cases.
  split; [|split; [|split; [|split; [|split; [|split; [|split]]]]]].
  - intros -> ->. reflexivity.
  - intros ->. reflexivity.
  - intros -> ->. reflexivity.
  - vm_compute. reflexivity.
  - vm_compute. reflexivity.
  - vm_compute. reflexivity.
  - reflexivity.
  - eexists. split; [vm_compute; reflexivity|].
    unfold within. vm_compute. discriminate.
Qed.

Lemma printing_hours_of_duration_witness :
  (Parse.after_first "total estimated time: "
     "; model printing time: 1h; total estimated time: 1d 2h  3m 4s trailing"
   = Some (render_duration (Some "1") (Some "2") (Some "3") (Some "4")
             " " "  " " " " trailing")
   /\ Cost.Total_printing_hours
        (Some "; model printing time: 1h; total estimated time: 1d 2h  3m 4s trailing")
      = ok (PyFloat (hours_in_binary64 (component (Some "1")) (component (Some "2"))
                       (component (Some "3")) (component (Some "4")))))
  /\ (String.length overlong_seconds = 4301%nat
      /\ Cost.Total_printing_hours
           (Some ("; total estimated time: " ++ overlong_seconds ++ "s"))
         = throw ValueError).
Proof.
  split.
  - assert (Hline : Parse.after_first "total estimated time: "
              "; model printing time: 1h; total estimated time: 1d 2h  3m 4s trailing"
            = Some (render_duration (Some "1") (Some "2") (Some "3") (Some "4")
                      " " "  " " " " trailing")) by reflexivity.
    split; [exact Hline|].
    pose proof (printing_hours_of_duration
                  (Some "1") (Some "2") (Some "3") (Some "4")
                  " " "  " " " " trailing" _
                  eq_refl eq_refl eq_refl eq_refl eq_refl eq_refl eq_refl
                  (or_introl (fun E => eq_ind (Some "4")
                                         (fun o => match o with
                                                   | Some _ => True
                                                   | None => False
                                                   end) I None E))
                  Hline) as [H _].
    apply H; vm_compute; reflexivity.
  - split; [vm_compute; reflexivity|].
    assert (Hs : optional_digits (Some overlong_seconds) = true)
      by (vm_compute; reflexivity).
    assert (Hline : Parse.after_first "total estimated time: "
              ("; total estimated time: " ++ overlong_seconds ++ "s")
            = Some (render_duration None None None (Some overlong_seconds)
                      "" "" "" ""))
      by (vm_compute; reflexivity).
    pose proof (printing_hours_of_duration
                  None None None (Some overlong_seconds) "" "" "" "" _
                  eq_refl eq_refl eq_refl Hs eq_refl eq_refl eq_refl
                  (or_introl (fun E => eq_ind (Some overlong_seconds)
                                         (fun o => match o with
                                                   | Some _ => True
                                                   | None => False
                                                   end) I None E))
                  Hline) as (_ & H & _).
    apply H. vm_compute. reflexivity.
Defined.

(** ** Cost *)

(** The two hourly rates are constants of the script. *)
Lemma dep_rate_value :
  Cost.total_dep_cost_per_hour
  = ok (PyFloat (sum_floats (map rounded_rate Cost.items))).
Proof. vm_compute. reflexivity. Qed.

Lemma electricity_rate_value :
  Cost.electricity_cost_per_hour = ok (PyFloat (literal 6 3)).
Proof. vm_compute. reflexivity. Qed.

(** What [estimate] returns, spelled out. *)
Lemma estimate_inv (hours grams price : number) (b : Cost.breakdown) :
  Cost.estimate hours grams price = ok b ->
  Num.mul hours (PyFloat (sum_floats (map rounded_rate Cost.items)))
  = ok (Cost.total_depreciation_cost b)
  /\ Num.mul hours (PyFloat (literal 6 3)) = ok (Cost.total_electricity_cost b)
  /\ Cost.calculate_filament_cost price Cost.spool_weight grams
     = ok (Cost.filament_cost b)
  /\ exists s,
       Num.add (Cost.total_depreciation_cost b) (Cost.total_electricity_cost b)
       = ok s
       /\ Num.add s (Cost.filament_cost b) = ok (Cost.total_cost b).
Proof.
  unfold Cost.estimate. rewrite dep_rate_value, electricity_rate_value.
  unfold ok. cbn [rbind].
  destruct (Cost.calculate_filament_cost _ _ _) as [e|fil];
    cbn [rbind]; [discriminate|].
  destruct (Num.mul hours (PyFloat (sum_floats _))) as [e|dep];
    cbn [rbind]; [discriminate|].
  destruct (Num.mul hours (PyFloat (literal 6 3))) as [e|el];
    cbn [rbind]; [discriminate|].
  destruct (Num.add dep el) as [e|s] eqn:Es; cbn [rbind]; [discriminate|].
  destruct (Num.add s fil) as [e|total] eqn:Et; cbn [rbind]; [discriminate|].
  intros H. injection H as <-. cbn [Cost.total_depreciation_cost
    Cost.total_electricity_cost Cost.filament_cost Cost.total_cost].
  split; [reflexivity|split; [reflexivity|split; [reflexivity|]]].
  exists s. split; assumption.
Qed.

(** C4, as stated, fails: for one hour the script charges 0.006, the
    formula of the claim gives 0.0063. *)
Lemma one_hour_of_electricity :
  match Cost.estimate (PyFloat (Float64.of_Z 1)) (PyInt 0) (PyFloat (Float64.of_Z 12)),
        unrounded_electricity_cost (PyFloat (Float64.of_Z 1)) with
  | inr b, inr stated =>
      Cost.total_electricity_cost b = PyFloat (literal 6 3)
      /\ Num.eqb (Cost.total_electricity_cost b) stated = false
      /\ (Num.to_Q (Cost.total_electricity_cost b) + (2 # 10000) < Num.to_Q stated)%Q
  | _, _ => False
  end.
Proof. vm_compute. repeat split; reflexivity. Qed.

(** C4, amended.  The hourly electricity rate is [(105 / 1000) * 0.06]
    rounded to three decimals, which is 0.006, and the electricity cost
    is the printing hours times that rounded rate. *)
Theorem electricity_cost_uses_rounded_rate :
  forall (hours grams price : number) (b : Cost.breakdown),
    Cost.estimate hours grams price = ok b ->
    Cost.electricity_cost_per_hour
    = ok (Num.round
            (PyFloat (Float64.mul (Float64.ratio 105 1000) (literal 6 2))) 3)
    /\ Cost.electricity_cost_per_hour = ok (PyFloat (literal 6 3))
    /\ Num.mul hours (PyFloat (literal 6 3)) = ok (Cost.total_electricity_cost b).
Proof.
  intros hours grams price b H.
  split; [vm_compute; reflexivity|split; [apply electricity_rate_value|]].
  apply (estimate_inv _ _ _ _ H).
Qed.

Lemma electricity_cost_uses_rounded_rate_witness :
  exists b,
    Cost.estimate (PyFloat (literal 125 4)) (PyFloat (Float64.of_Z 10))
      (PyFloat (Float64.of_Z 12)) = ok b
    /\ Num.mul (PyFloat (literal 125 4)) (PyFloat (literal 6 3))
       = ok (Cost.total_electricity_cost b).
Proof.
  assert (H : exists b,
             Cost.estimate (PyFloat (literal 125 4)) (PyFloat (Float64.of_Z 10))
               (PyFloat (Float64.of_Z 12)) = ok b)
    by (eexists; vm_compute; reflexivity).
  destruct H as [b Hb]. exists b. split; [exact Hb|].
  exact (proj2 (proj2 (electricity_cost_uses_rounded_rate _ _ _ _ Hb))).
Defined.

(** C7, as stated, fails: the script's hourly rate is the sum of the
    rounded rates, 0.237, while price over lifespan summed without
    rounding is about 0.2394. *)
Lemma depreciation_rate_is_not_the_exact_sum :
  match Cost.total_dep_cost_per_hour with
  | inr rate =>
      Num.eqb rate (PyFloat (sum_floats (map exact_rate Cost.items))) = false
      /\ (Num.to_Q rate + (2 # 1000)
          < Float64.to_Q (sum_floats (map exact_rate Cost.items)))%Q
  | inl _ => False
  end.
Proof. vm_compute. split; reflexivity. Qed.

(** C7, amended.  The hourly depreciation rate is the sum over the
    parts table of price over lifespan, each quotient rounded to three
    decimals before it is added; the LCD Screen entry has the lifespan
    [5 * 365 * 24]; the depreciation cost is the printing hours times
    that rate. *)
Theorem depreciation_uses_rounded_rates :
  forall (hours grams price : number) (b : Cost.breakdown),
    Cost.estimate hours grams price = ok b ->
    Cost.total_dep_cost_per_hour
    = ok (PyFloat (sum_floats (map rounded_rate Cost.items)))
    /\ In (Cost.Item "LCD Screen" 60 (5 * 365 * 24)) Cost.items
    /\ Num.mul hours (PyFloat (sum_floats (map rounded_rate Cost.items)))
       = ok (Cost.total_depreciation_cost b)
    /\ within (Float64.to_Q (sum_floats (map rounded_rate Cost.items)))
         (237 # 1000) (1 # 1000000000000).
Proof.
  intros hours grams price b H.
  split; [apply dep_rate_value|split; [|split]].
  - do 12 right. left. reflexivity.
  - apply (estimate_inv _ _ _ _ H).
  - unfold within. vm_compute. discriminate.
Qed.

Lemma depreciation_uses_rounded_rates_witness :
  exists b,
    Cost.estimate (PyFloat (literal 125 4)) (PyFloat (Float64.of_Z 10))
      (PyFloat (Float64.of_Z 12)) = ok b
    /\ Num.mul (PyFloat (literal 125 4))
         (PyFloat (sum_floats (map rounded_rate Cost.items)))
       = ok (Cost.total_depreciation_cost b).
Proof.
  assert (H : exists b,
             Cost.estimate (PyFloat (literal 125 4)) (PyFloat (Float64.of_Z 10))
               (PyFloat (Float64.of_Z 12)) = ok b)
    by (eexists; vm_compute; reflexivity).
  destruct H as [b Hb]. exists b. split; [exact Hb|].
  exact (proj1 (proj2 (proj2 (depreciation_uses_rounded_rates _ _ _ _ Hb)))).
Defined.

(** C5, as stated, fails for the printed values: for 45 seconds of
    printing and 10 g of filament the result object carries a total of
    0.123 next to components 0.003, 0.0001 and 0.12, whose sum is
    0.1231. *)
Lemma emitted_costs_do_not_add_up :
  match reply_of (trace (main Plain.float Plain.int Sample.presliced)) with
  | Some r =>
      match emitted_sum r with
      | inr sum =>
          Reply.total_cost r = PyFloat (literal 123 3)
          /\ Reply.depreciation_cost r = PyFloat (literal 3 3)
          /\ Reply.electricity_cost r = PyFloat (literal 1 4)
          /\ Reply.filament_cost r = PyFloat (literal 12 2)
          /\ Num.eqb (Reply.total_cost r) sum = false
          /\ (Num.to_Q (Reply.total_cost r) + (9 # 100000) < Num.to_Q sum)%Q
      | inl _ => False
      end
  | None => False
  end.
Proof. vm_compute. repeat split; reflexivity. Qed.

(** C5, amended.  Before printing, the total cost is the sum of the
    depreciation cost, the electricity cost and the filament cost, added
    in that order.  The result object carries each of the four figures
    rounded on its own, the total and the first two components to four
    decimals and the filament cost to two; those rounded figures need
    not add up. *)
Theorem total_cost_is_sum_before_rounding :
  forall py_float py_int (w : world) (r : Reply.t),
    In (ResultJson r) (trace (main py_float py_int w)) ->
    exists (b : Cost.breakdown) (s : number),
      Num.add (Cost.total_depreciation_cost b) (Cost.total_electricity_cost b)
      = ok s
      /\ Num.add s (Cost.filament_cost b) = ok (Cost.total_cost b)
      /\ Reply.total_cost r = Num.round (Cost.total_cost b) 4
      /\ Reply.depreciation_cost r = Num.round (Cost.total_depreciation_cost b) 4
      /\ Reply.electricity_cost r = Num.round (Cost.total_electricity_cost b) 4
      /\ Reply.filament_cost r = Num.round (Cost.filament_cost b) 2.
Proof.
  intros py_float py_int w r Hin.
  assert (Hev : every (fun ev =>
                  match ev with
                  | ResultJson r' =>
                      exists hours grams price b,
                        Cost.estimate hours grams price = ok b
                        /\ r' = result_json w hours grams b
                  | _ => True
                  end) (main py_float py_int w)).
  { apply every_main.
    - intros [] E; try discriminate E; exact I.
    - intros _. exact I.
    - intros d. exact I.
    - intros _. repeat split; intros; exact I.
    - exact I.
    - intros meta hours grams b H. unfold compute_costs, ok in H.
      destruct (Cost.Total_printing_hours _) as [e|hours']; [discriminate|].
      cbn [rbind] in H.
      destruct (Cost.float_of_str _ _) as [e|price]; [discriminate|].
      cbn [rbind] in H.
      destruct (Cost.total_used_grams _ _ _) as [e|grams']; [discriminate|].
      cbn [rbind] in H.
      destruct (Cost.estimate hours' grams' price) as [e|b'] eqn:Eb; [discriminate|].
      cbn [rbind] in H. injection H as <- <- <-.
      exists hours', grams', price, b'. split; [exact Eb|reflexivity]. }
  unfold every in Hev. rewrite List.Forall_forall in Hev.
  destruct (Hev _ Hin) as (hours & grams & price & b & Hb & ->).
  destruct (estimate_inv _ _ _ _ Hb) as (_ & _ & _ & s & Hs & Ht).
  exists b, s. repeat split; assumption.
Qed.

Lemma total_cost_is_sum_before_rounding_witness :
  exists r,
    In (ResultJson r) (trace (main Plain.float Plain.int Sample.presliced))
    /\ exists b, Reply.total_cost r = Num.round (Cost.total_cost b) 4.
Proof.
  assert (H : exists r,
             In (ResultJson r)
                (trace (main Plain.float Plain.int Sample.presliced))).
  { eexists. vm_compute. do 11 right. left. reflexivity. }
  destruct H as [r Hin]. exists r. split; [exact Hin|].
  destruct (total_cost_is_sum_before_rounding _ _ _ _ Hin)
    as (b & s & _ & _ & Ht & _).
  exists b. exact Ht.
Defined.

(** C6.  When the parsed mass is absent or zero and a length in meters
    was parsed, the mass in grams is
    [meters * 100 * cross-section * density], the cross-section being
    [3.14159 * (0.175 / 2) ** 2] for a diameter of 1.75 mm and the
    density 1.24; for 10 meters this is within 0.01 of 29.82 g. *)
Theorem filament_mass_from_length :
  forall (py_float : string -> option spec_float)
         (used_g_value : option string) (used_m_value : string)
         (meters : spec_float),
    mass_absent_or_zero py_float used_g_value ->
    truthy used_m_value = true ->
    py_float used_m_value = Some meters ->
    Cost.total_used_grams py_float used_g_value (Some used_m_value)
    = ok (PyFloat
            (Float64.mul
               (Float64.mul (Float64.mul meters (Float64.of_Z 100))
                  Cost.FILAMENT_CROSS_SECTION)
               Cost.DEFAULT_FILAMENT_DENSITY))
    /\ Cost.FILAMENT_CROSS_SECTION
       = Float64.mul (literal 314159 5)
           (Num.square (Float64.div (literal 175 3) (Float64.of_Z 2)))
    /\ Cost.DEFAULT_FILAMENT_DENSITY = literal 124 2
    /\ within
         (Float64.to_Q
            (Float64.mul
               (Float64.mul (Float64.mul (Float64.of_Z 10) (Float64.of_Z 100))
                  Cost.FILAMENT_CROSS_SECTION)
               Cost.DEFAULT_FILAMENT_DENSITY))
         (2982 # 100) (1 # 100).
Proof.
  intros py_float g m meters Hg Hm Hmeters.
  split; [|split; [reflexivity|split; [reflexivity|]]].
  - unfold Cost.total_used_grams, Cost.float_of_str.
    assert (Hzero : exists grams,
               match g with
               | Some s =>
                   if truthy s
                   then match py_float s with
                        | Some f => ok (PyFloat f)
                        | None => throw ValueError
                        end
                   else ok (PyInt 0)
               | None => ok (PyInt 0)
               end = ok grams /\ Num.is_zero grams = true).
    { destruct g as [s|]; [|exists (PyInt 0); split; reflexivity].
      destruct Hg as [Hs|(f & Hf & Hz)].
      - rewrite Hs. exists (PyInt 0). split; reflexivity.
      - destruct (truthy s); [|exists (PyInt 0); split; reflexivity].
        rewrite Hf. exists (PyFloat f). split; [reflexivity|exact Hz]. }
    destruct Hzero as (grams & -> & Hz). unfold ok. cbn [rbind].
    rewrite Hz, Hm, Hmeters. reflexivity.
  - unfold within. vm_compute. discriminate.
Qed.

Lemma filament_mass_from_length_witness :
  mass_absent_or_zero Plain.float (Some "0.00")
  /\ Plain.float "10" = Some (Float64.of_Z 10)
  /\ exists grams,
       Cost.total_used_grams Plain.float (Some "0.00") (Some "10")
       = ok (PyFloat grams)
       /\ within (Float64.to_Q grams) (2982 # 100) (1 # 100).
Proof.
  assert (Hg : mass_absent_or_zero Plain.float (Some "0.00")).
  { right. exists (S754_zero false). split; reflexivity. }
  assert (Hm : Plain.float "10" = Some (Float64.of_Z 10)) by reflexivity.
  destruct (filament_mass_from_length Plain.float (Some "0.00") "10"
              (Float64.of_Z 10) Hg eq_refl Hm) as (H & _ & _ & Hw).
  split; [exact Hg|split; [exact Hm|]].
  eexists. split; [exact H|exact Hw].
Defined.


(** ** Request identifiers *)

Section RequestId.
Import Uuid.

Lemma str_app_assoc (a b c : string) : ((a ++ b) ++ c = a ++ (b ++ c))%string.
Proof.
  induction a as [|x a IH]; [reflexivity|].
  change (String x ((a ++ b) ++ c) = String x (a ++ (b ++ c)))%string.
  rewrite IH. reflexivity.
Qed.

Lemma str_app_nil_r (a : string) : (a ++ "")%string = a.
Proof.
  induction a as [|x a IH]; [reflexivity|].
  change (String x (a ++ "") = String x a)%string. rewrite IH. reflexivity.
Qed.

Lemma str_length_app (a b : string) :
  String.length (a ++ b) = (String.length a + String.length b)%nat.
Proof. induction a as [|x a IH]; simpl; [reflexivity|]. rewrite IH. reflexivity. Qed.

Lemma substring_prefix (a b : string) :
  String.substring 0 (String.length a) (a ++ b) = a.
Proof.
  induction a as [|x a IH]; simpl.
  - destruct b; reflexivity.
  - rewrite IH. reflexivity.
Qed.

Lemma slice_prefix (a b : string) :
  String.length a = 8%nat -> slice (a ++ b) 0 8 = a.
Proof.
  intros H. unfold slice. change (Z.to_nat 0) with 0%nat.
  change (Z.to_nat (8 - 0)) with 8%nat. rewrite <- H. apply substring_prefix.
Qed.

Lemma hex_fixed_length (n : nat) (i : Z) : String.length (hex_fixed n i) = n.
Proof.
  revert i. induction n as [|n IH]; intros i; [reflexivity|].
  cbn [hex_fixed]. rewrite str_length_app, IH. simpl. lia.
Qed.

Lemma hex_fixed_split (a b : nat) (i : Z) :
  hex_fixed (a + b) i
  = (hex_fixed a (i / 16 ^ Z.of_nat b) ++ hex_fixed b i)%string.
Proof.
  revert i. induction b as [|b IH]; intros i.
  - rewrite Nat.add_0_r. change (16 ^ Z.of_nat 0) with 1. rewrite Z.div_1_r.
    cbn [hex_fixed]. rewrite str_app_nil_r. reflexivity.
  - rewrite Nat.add_succ_r. cbn [hex_fixed]. rewrite IH, str_app_assoc.
    rewrite Z.div_div by lia.
    replace (16 * 16 ^ Z.of_nat b) with (16 ^ Z.of_nat (S b)); [reflexivity|].
    rewrite Nat2Z.inj_succ, Z.pow_succ_r by lia. reflexivity.
Qed.

(** Forcing the version and variant bits leaves the top 32 bits of the
    random draw alone. *)
Lemma uuid4_int_top_bits (random : Z) :
  uuid4_int random / 16 ^ 24 = random / 2 ^ 96.
Proof.
  change (16 ^ 24) with (2 ^ 96).
  rewrite <- !Z.shiftr_div_pow2 by lia. unfold uuid4_int.
  rewrite Z.shiftr_lor, Z.shiftr_land, Z.shiftr_lor, Z.shiftr_land.
  change (Z.shiftr (Z.shiftl 4 76) 96) with 0.
  change (Z.shiftr (Z.lnot (Z.shiftl 61440 64)) 96) with (-1).
  change (Z.shiftr (Z.shiftl 32768 48) 96) with 0.
  change (Z.shiftr (Z.lnot (Z.shiftl 49152 48)) 96) with (-1).
  rewrite !Z.lor_0_r, !Z.land_m1_r. reflexivity.
Qed.

(** The generated identifier is the top 32 bits of the draw in
    hexadecimal. *)
Lemma generated_request_id_top_bits (random : Z) :
  generated_request_id random = hex_fixed 8 (random / 2 ^ 96).
Proof.
  unfold generated_request_id, to_str.
  change (hex_fixed 32 (uuid4_int random))
    with (hex_fixed (8 + 24) (uuid4_int random)).
  rewrite hex_fixed_split. change (Z.of_nat 24) with 24.
  rewrite uuid4_int_top_bits.
  rewrite (slice_prefix (hex_fixed 8 _)) by apply hex_fixed_length.
  apply slice_prefix, hex_fixed_length.
Qed.

Lemma top_bits_range (random : Z) :
  0 <= random < 2 ^ 128 -> 0 <= random / 2 ^ 96 < 2 ^ 32.
Proof.
  intros [H0 H1]. split.
  - apply Z.div_pos; lia.
  - apply Z.div_lt_upper_bound; [lia|].
    change (2 ^ 96 * 2 ^ 32) with (2 ^ 128). exact H1.
Qed.

Lemma hex_digit_code (d : Z) :
  0 <= d < 16 -> Z.of_nat (nat_of_ascii (hex_digit d)) = hex_code d.
Proof.
  intros H. unfold hex_digit, hex_code.
  destruct (d <? 10); rewrite nat_ascii_embedding; lia.
Qed.

Lemma hex_digit_inj (d d' : Z) :
  0 <= d < 16 -> 0 <= d' < 16 -> hex_digit d = hex_digit d' -> d = d'.
Proof.
  intros H H' E.
  assert (Hc : hex_code d = hex_code d')
    by (rewrite <- !hex_digit_code by assumption; rewrite E; reflexivity).
  unfold hex_code in Hc.
  destruct (Z.ltb_spec d 10), (Z.ltb_spec d' 10); lia.
Qed.

Lemma app_last_inj (a b : string) (x y : ascii) :
  (a ++ String x "" = b ++ String y "")%string -> a = b /\ x = y.
Proof.
  revert b. induction a as [|c a IH]; intros [|c' b] H; simpl in H.
  - injection H as ->. auto.
  - injection H as _ H. destruct b; discriminate H.
  - injection H as _ H. destruct a; discriminate H.
  - injection H as -> H. destruct (IH _ H) as [-> ->]. auto.
Qed.

Lemma hex_fixed_inj (n : nat) (k k' : Z) :
  0 <= k < 16 ^ Z.of_nat n -> 0 <= k' < 16 ^ Z.of_nat n ->
  hex_fixed n k = hex_fixed n k' -> k = k'.
Proof.
  revert k k'. induction n as [|n IH]; intros k k' Hk Hk' E.
  - change (16 ^ Z.of_nat 0) with 1 in *. lia.
  - rewrite Nat2Z.inj_succ, Z.pow_succ_r in Hk, Hk' by lia.
    cbn [hex_fixed] in E. apply app_last_inj in E as [Eh Ed].
    assert (Hq : k / 16 = k' / 16).
    { apply IH; [| |exact Eh]; split;
        try (apply Z.div_pos; lia); apply Z.div_lt_upper_bound; lia. }
    assert (Hr : k mod 16 = k' mod 16).
    { apply hex_digit_inj; [| |exact Ed]; apply Z.mod_pos_bound; lia. }
    rewrite (Z.div_mod k 16), (Z.div_mod k' 16) by lia. rewrite Hq, Hr.
    reflexivity.
Qed.

(** No function maps [n + 1] numbers one-to-one into [n] numbers. *)
Lemma no_injection_into_fewer (n : Z) (g : Z -> Z) :
  0 <= n ->
  (forall i, 0 <= i <= n -> 0 <= g i < n) ->
  (forall i j, 0 <= i <= n -> 0 <= j <= n -> g i = g j -> i = j) ->
  False.
Proof.
  intros Hn Hrange Hinj.
  remember (Z.to_nat n) as N eqn:HN.
  pose (l := map (fun i => g (Z.of_nat i)) (seq 0 (S N))).
  pose (l' := map Z.of_nat (seq 0 N)).
  assert (Hnd : List.NoDup l).
  { apply List.NoDup_map_NoDup_ForallPairs; [|apply List.seq_NoDup].
    intros i j Hi Hj E. apply List.in_seq in Hi, Hj.
    apply Nat2Z.inj, Hinj; [lia|lia|exact E]. }
  assert (Hincl : List.incl l l').
  { intros x Hx. apply List.in_map_iff in Hx as (i & <- & Hi).
    apply List.in_seq in Hi. destruct (Hrange (Z.of_nat i)) as [H0 H1]; [lia|].
    apply List.in_map_iff. exists (Z.to_nat (g (Z.of_nat i))).
    split; [lia|]. apply List.in_seq. lia. }
  pose proof (List.NoDup_incl_length Hnd Hincl) as Hlen.
  unfold l, l' in Hlen.
  rewrite !List.length_map, !List.length_seq in Hlen. lia.
Qed.

End RequestId.

(** C8, as stated, fails: no 2^48 draws have pairwise different
    identifiers. *)
Lemma fewer_than_2_48_identifiers : ~ at_least_distinct_ids (2 ^ 48).
Proof.
  intros (draw & Hrange & Hinj).
  apply (no_injection_into_fewer (2 ^ 32) (fun i => draw i / 2 ^ 96)).
  - lia.
  - intros i Hi. apply top_bits_range, Hrange. lia.
  - intros i j Hi Hj E. apply Hinj; [lia|lia|].
    rewrite !generated_request_id_top_bits, E. reflexivity.
Qed.

(** C8, amended.  When no request identifier is given on the command
    line, the identifier is the first eight hexadecimal digits of a
    random version-4 UUID, that is the top 32 bits of the random draw:
    every eight-digit value occurs and different values give different
    identifiers, so the identifier is drawn from exactly 2^32 values,
    32 bits of entropy. *)
Theorem generated_request_id_has_32_bits :
  forall (w : world) (k k' : Z),
    (List.length (argv w) <= 2)%nat ->
    0 <= urandom w < 2 ^ 128 ->
    0 <= k < 2 ^ 32 -> 0 <= k' < 2 ^ 32 ->
    request_id w = Uuid.hex_fixed 8 (urandom w / 2 ^ 96)
    /\ 0 <= urandom w / 2 ^ 96 < 2 ^ 32
    /\ Uuid.generated_request_id (k * 2 ^ 96) = Uuid.hex_fixed 8 k
    /\ (Uuid.hex_fixed 8 k = Uuid.hex_fixed 8 k' -> k = k')
    /\ ~ at_least_distinct_ids (2 ^ 32 + 1).
Proof.
  intros w k k' Hargs Hr Hk Hk'.
  split; [|split; [|split; [|split]]].
  - unfold request_id.
    destruct (Z.ltb_spec 2 (Z.of_nat (List.length (argv w)))); [lia|].
    apply generated_request_id_top_bits.
  - apply top_bits_range, Hr.
  - rewrite generated_request_id_top_bits, Z.div_mul by lia. reflexivity.
  - apply hex_fixed_inj; assumption.
  - intros (draw & Hrange & Hinj).
    apply (no_injection_into_fewer (2 ^ 32) (fun i => draw i / 2 ^ 96)).
    + lia.
    + intros i Hi. apply top_bits_range, Hrange. lia.
    + intros i j Hi Hj E. apply Hinj; [lia|lia|].
      rewrite !generated_request_id_top_bits, E. reflexivity.
Qed.

Lemma generated_request_id_has_32_bits_witness :
  (List.length (argv Sample.no_request_id) <= 2)%nat
  /\ 0 <= urandom Sample.no_request_id < 2 ^ 128
  /\ request_id Sample.no_request_id = "01234567".
Proof.
  assert (Hargs : (List.length (argv Sample.no_request_id) <= 2)%nat)
    by (simpl; lia).
  assert (Hr : 0 <= urandom Sample.no_request_id < 2 ^ 128) by (simpl; lia).
  split; [exact Hargs|split; [exact Hr|]].
  rewrite (proj1 (generated_request_id_has_32_bits Sample.no_request_id 0 1
                    Hargs Hr ltac:(lia) ltac:(lia))).
  reflexivity.
Defined.

(** * Further properties of the script *)

(** * Further properties of the script *)

(** ** More laws of the effect monad *)

Section MoreLaws.
Import Eff.

Lemma outcome_bind_returns {A B} (m : run A) (k : A -> run B) a :
  outcome_of m = Returns a -> outcome_of (bind m k) = outcome_of (k a).
Proof. intros H. rewrite (bind_returns _ _ _ H). reflexivity. Qed.

Lemma trace_bind_returns {A B} (m : run A) (k : A -> run B) a :
  outcome_of m = Returns a ->
  trace (bind m k) = (trace m ++ trace (k a))%list.
Proof. intros H. rewrite (bind_returns _ _ _ H). reflexivity. Qed.

Lemma outcome_bind_stops {A B} (m : run A) (k : A -> run B) :
  (forall a, outcome_of m <> Returns a) ->
  trace (bind m k) = trace m
  /\ match outcome_of m with
     | Returns _ => False
     | Raises e => outcome_of (bind m k) = Raises e
     | Exits c => outcome_of (bind m k) = Exits c
     end.
Proof.
  intros H. unfold bind. destruct (outcome_of m) as [a|e|c] eqn:E.
  - destruct (H a). reflexivity.
  - split; reflexivity.
  - split; reflexivity.
Qed.

Lemma outcome_bind_stops_exit {A B} (m : run A) (k : A -> run B) c :
  outcome_of m = Exits c -> outcome_of (bind m k) = Exits c.
Proof. intros H. rewrite (bind_exits _ _ _ H). reflexivity. Qed.

Lemma exit_status_bind {A B} (m : run A) (k : A -> run B) :
  exits_with_failure m -> (forall a, exits_with_failure (k a)) ->
  exits_with_failure (bind m k).
Proof.
  unfold exits_with_failure, bind. intros Hm Hk c.
  destruct (outcome_of m) as [a|e|c'] eqn:E; simpl.
  - apply Hk.
  - discriminate.
  - intros H. injection H as <-. apply Hm. reflexivity.
Qed.

Lemma exit_status_try {A} catches (body : run A) handler :
  exits_with_failure body -> (forall e, exits_with_failure (handler e)) ->
  exits_with_failure (try_except catches body handler).
Proof.
  unfold exits_with_failure, try_except. intros Hb Hh c.
  destruct (outcome_of body) as [a|e|c'] eqn:E.
  - rewrite E. discriminate.
  - destruct (catches e); simpl; [apply Hh|rewrite E; discriminate].
  - rewrite E. intros H. injection H as <-. apply Hb. reflexivity.
Qed.

Lemma exit_status_none {A} (m : run A) :
  (forall c, outcome_of m <> Exits c) -> exits_with_failure m.
Proof. intros H c Hc. destruct (H c Hc). Qed.

End MoreLaws.

Ltac exit_leaf :=
  first
    [ apply exit_status_none; intros ?;
      first [ apply no_exit_emit | apply no_exit_lift | apply no_exit_faulting
            | discriminate ]
    | intros ? H; injection H as <-; reflexivity ].

Ltac exit_step :=
  match goal with
  | |- exits_with_failure (Eff.bind _ _) => apply exit_status_bind; [|intros ?]
  | |- exits_with_failure (Eff.try_except _ _ _) => apply exit_status_try; [|intros ?]
  | |- exits_with_failure (if ?b then _ else _) => destruct b
  | |- exits_with_failure (match ?x with _ => _ end) => destruct x
  | |- exits_with_failure _ => exit_leaf
  end.

Section TeardownLaws.
Import Eff.

Lemma teardown_exit_bind {A B} (m : run A) (k : A -> run B) :
  teardown_then_exit m -> (forall a, teardown_then_exit (k a)) ->
  teardown_then_exit (bind m k).
Proof.
  unfold teardown_then_exit, bind. intros Hm Hk dir.
  destruct (outcome_of m) as [a|e|c] eqn:E; simpl.
  - intros H. apply in_app_or in H as [H|H].
    + destruct (Hm _ H) as [c Hc]. discriminate Hc.
    + eapply Hk, H.
  - intros H. destruct (Hm _ H) as [c Hc]. discriminate Hc.
  - intros _. eauto.
Qed.

Lemma teardown_exit_try {A} catches (body : run A) handler :
  teardown_then_exit body -> (forall e, teardown_then_exit (handler e)) ->
  teardown_then_exit (try_except catches body handler).
Proof.
  unfold teardown_then_exit, try_except. intros Hb Hh dir.
  destruct (outcome_of body) as [a|e|c] eqn:E.
  - rewrite E. intros H. destruct (Hb _ H) as [c Hc]. discriminate Hc.
  - destruct (catches e); simpl.
    + intros H. apply in_app_or in H as [H|H].
      * destruct (Hb _ H) as [c Hc]. discriminate Hc.
      * eapply Hh, H.
    + rewrite E. intros H. destruct (Hb _ H) as [c Hc]. discriminate Hc.
  - rewrite E. intros _. eauto.
Qed.

Lemma teardown_exit_exits {A} (m : run A) c :
  outcome_of m = Exits c -> teardown_then_exit m.
Proof. intros H dir _. eauto. Qed.

Lemma teardown_exit_quiet {A} (m : run A) :
  every (fun ev => match ev with Teardown _ => False | _ => True end) m ->
  teardown_then_exit m.
Proof.
  unfold every. intros H dir Hin. rewrite List.Forall_forall in H.
  destruct (H _ Hin).
Qed.

End TeardownLaws.

Section ExitStatus.
Import Eff.
Variable py_float : string -> option spec_float.
Variable py_int : string -> option Z.
Variable w : world.

Lemma cleanup_exit_status : exits_with_failure (cleanup_current_work_dir w).
Proof. apply exit_status_none. intros c. rewrite cleanup_returns. discriminate. Qed.

Lemma startup_exit_status : exits_with_failure (startup py_int w).
Proof.
  unfold startup, int_of_env.
  repeat first [apply cleanup_exit_status | exit_step].
Qed.

Lemma slicing_exit_status cfg : exits_with_failure (slicing w cfg).
Proof.
  unfold slicing, supervise, run_probe, on_exit, on_timeout.
  repeat first [apply cleanup_exit_status | exit_step].
Qed.

Lemma parse_archive_exit_status : exits_with_failure (parse_archive w).
Proof.
  unfold parse_archive.
  destruct (archive_at w (min_save_3mf w));
    repeat first [apply cleanup_exit_status | exit_step].
  all: apply exit_status_none; intros c; apply scan_members_no_exit.
Qed.

(** Whenever the script ends through [sys.exit], the status is 1. *)
Theorem exit_status_is_1 (status : Z) :
  outcome_of (main py_float py_int w) = Exits status -> status = 1.
Proof.
  revert status. change (exits_with_failure (main py_float py_int w)).
  unfold main.
  apply exit_status_bind; [apply startup_exit_status|intros _].
  apply exit_status_bind;
    [apply exit_status_none; intros c;
     apply returns_no_exit, compose_config_returns|intros cfg].
  apply exit_status_bind; [apply slicing_exit_status|intros _].
  apply exit_status_bind; [apply parse_archive_exit_status|intros meta].
  apply exit_status_none. intros c. apply report_no_exit.
Qed.

End ExitStatus.

Ltac teardown_leaf :=
  apply teardown_exit_quiet; repeat every_step; exact I.

Ltac teardown_step :=
  match goal with
  | |- teardown_then_exit (Eff.bind (cleanup_current_work_dir _) (fun _ => Eff.sys_exit _)) =>
      eapply teardown_exit_exits;
      rewrite (outcome_bind_returns _ _ tt (cleanup_returns _)); reflexivity
  | |- teardown_then_exit (Eff.bind _ _) => apply teardown_exit_bind; [|intros ?]
  | |- teardown_then_exit (Eff.try_except _ _ _) => apply teardown_exit_try; [|intros ?]
  | |- teardown_then_exit (if ?b then _ else _) => destruct b
  | |- teardown_then_exit (match ?x with _ => _ end) => destruct x
  | |- teardown_then_exit _ => teardown_leaf
  end.

Section Endings.
Import Eff.
Variable py_float : string -> option spec_float.
Variable py_int : string -> option Z.
Variable w : world.

Lemma startup_teardown_exit : teardown_then_exit (startup py_int w).
Proof.
  apply teardown_exit_quiet. unfold startup, int_of_env.
  destruct (is_3mf_file w); repeat every_step; exact I.
Qed.

Lemma compose_teardown_exit : teardown_then_exit (compose_config w).
Proof.
  apply teardown_exit_quiet. unfold compose_config.
  repeat every_step; exact I.
Qed.

Lemma slicing_teardown_exit cfg : teardown_then_exit (slicing w cfg).
Proof.
  unfold slicing, supervise, run_probe, on_exit, on_timeout.
  repeat teardown_step.
Qed.

Lemma scan_members_quiet members file_list acc :
  every (fun ev => match ev with Teardown _ => False | _ => True end)
        (scan_members members file_list acc).
Proof.
  revert acc. induction file_list as [|f rest IH]; intros acc.
  - apply every_silent. reflexivity.
  - cbn [scan_members]. unfold read_slice_info, read_plate_1.
    repeat first [apply IH | every_step]; exact I.
Qed.

Lemma parse_teardown_exit : teardown_then_exit (parse_archive w).
Proof.
  unfold parse_archive.
  destruct (archive_at w (min_save_3mf w)); repeat teardown_step.
  all: apply teardown_exit_quiet, scan_members_quiet.
Qed.

Lemma no_result_housekeeping ev : housekeeping ev = true -> is_result ev = false.
Proof. destruct ev; intros E; try discriminate E; reflexivity. Qed.

Lemma startup_no_result : every (fun ev => is_result ev = false) (startup py_int w).
Proof. apply every_startup; [apply no_result_housekeeping|reflexivity]. Qed.

Lemma compose_no_result : every (fun ev => is_result ev = false) (compose_config w).
Proof. apply every_compose_config; [apply no_result_housekeeping|reflexivity]. Qed.

Lemma slicing_no_result cfg : every (fun ev => is_result ev = false) (slicing w cfg).
Proof. apply every_slicing; try reflexivity. apply no_result_housekeeping. Qed.

Lemma parse_no_result : every (fun ev => is_result ev = false) (parse_archive w).
Proof. apply every_parse_archive; [apply no_result_housekeeping|reflexivity]. Qed.

Lemma report_unfinished meta :
  (forall a, outcome_of (report py_float w meta) <> Returns a) ->
  trace (report py_float w meta) = [].
Proof.
  intros H. destruct (outcome_of (report py_float w meta)) as [a|e|c] eqn:E.
  - destruct (H a). reflexivity.
  - eapply report_raises_untouched, E.
  - destruct (report_no_exit py_float w meta c E).
Qed.

(** A run that does not complete prints no result. *)
Lemma unfinished_prints_no_result :
  (forall a, outcome_of (main py_float py_int w) <> Returns a) ->
  every (fun ev => is_result ev = false) (main py_float py_int w).
Proof.
  intros H. unfold main in *.
  apply every_bind; [apply startup_no_result|intros u Hu].
  rewrite (outcome_bind_returns _ _ _ Hu) in H.
  apply every_bind; [apply compose_no_result|intros cfg Hc].
  rewrite (outcome_bind_returns _ _ _ Hc) in H.
  apply every_bind; [apply slicing_no_result|intros u' Hs].
  rewrite (outcome_bind_returns _ _ _ Hs) in H.
  apply every_bind; [apply parse_no_result|intros meta Hp].
  rewrite (outcome_bind_returns _ _ _ Hp) in H.
  apply every_silent, report_unfinished, H.
Qed.

Lemma teardown_not_raised_bind {A B} (m : run A) (k : A -> run B) :
  teardown_then_exit m ->
  (forall a dir, In (Teardown dir) (trace (k a)) ->
                 forall e, outcome_of (k a) <> Raises e) ->
  forall dir, In (Teardown dir) (trace (bind m k)) ->
              forall e, outcome_of (bind m k) <> Raises e.
Proof.
  unfold bind. intros Hm Hk dir.
  destruct (outcome_of m) as [a|e'|c] eqn:E; simpl.
  - intros H. apply in_app_or in H as [H|H].
    + destruct (Hm _ H) as [c Hc]. rewrite E in Hc. discriminate Hc.
    + eapply Hk, H.
  - intros H. destruct (Hm _ H) as [c Hc]. rewrite E in Hc. discriminate Hc.
  - discriminate.
Qed.

End Endings.

(** X1.  A run that ends through [sys.exit] ends with status 1 and has
    printed no result object. *)
Theorem sys_exit_means_failure :
  forall py_float py_int (w : world) (status : Z),
    outcome_of (main py_float py_int w) = Exits status ->
    status = 1
    /\ every (fun ev => is_result ev = false) (main py_float py_int w).
Proof.
  intros py_float py_int w status H. split.
  - eapply exit_status_is_1, H.
  - apply unfinished_prints_no_result. intros a. rewrite H. discriminate.
Qed.

Lemma sys_exit_means_failure_witness :
  outcome_of (main Plain.float Plain.int Sample.no_arguments) = Exits 1
  /\ every (fun ev => is_result ev = false)
       (main Plain.float Plain.int Sample.no_arguments).
Proof.
  assert (H : outcome_of (main Plain.float Plain.int Sample.no_arguments) = Exits 1)
    by reflexivity.
  split; [exact H|].
  exact (proj2 (sys_exit_means_failure _ _ _ _ H)).
Defined.

(** Of the exceptions this model has (a setting that is not an
    integer, a directory that cannot be made, an archive or a member
    that cannot be opened, a figure that cannot be computed) none is
    raised after teardown was called or after the result was printed. *)
Lemma raised_run_untouched py_float py_int (w : world) (e : exn) :
  outcome_of (main py_float py_int w) = Raises e ->
  (forall dir, ~ In (Teardown dir) (trace (main py_float py_int w)))
  /\ every (fun ev => is_result ev = false) (main py_float py_int w).
Proof.
  intros H. split.
  - intros dir Hin. revert dir Hin e H. unfold main.
    apply teardown_not_raised_bind; [apply startup_teardown_exit|intros _].
    apply teardown_not_raised_bind; [apply compose_teardown_exit|intros cfg].
    apply teardown_not_raised_bind; [apply slicing_teardown_exit|intros _].
    apply teardown_not_raised_bind; [apply parse_teardown_exit|intros meta].
    intros dir Hin e He.
    rewrite (report_raises_untouched _ _ _ _ He) in Hin. destruct Hin.
  - apply unfinished_prints_no_result. intros a. rewrite H. discriminate.
Qed.

(** A start-up that returns has made the work directory. *)
Lemma startup_made_work_dir py_int (w : world) u :
  outcome_of (startup py_int w) = Returns u ->
  In (MakeDirs (request_work_dir w)) (trace (startup py_int w)).
Proof.
  intros H1. unfold startup, int_of_env in *.
  destruct (Z.of_nat (List.length (argv w)) <? 2); [discriminate H1|].
  apply bind_returns_inv in H1 as (u1 & Hi & H1).
  eapply in_bind_r; [exact Hi|].
  destruct (py_int (getenv w "BAMBU_SLICE_TIMEOUT" "120")); [|discriminate H1].
  eapply in_bind_r; [reflexivity|].
  destruct (py_int (getenv w "CLEANUP_AGE_SECONDS" "3600")); [|discriminate H1].
  eapply in_bind_r; [reflexivity|].
  rewrite bind_emit. cbn [trace]. right.
  rewrite bind_emit in H1. cbn [outcome_of] in H1.
  destruct (makedirs_fault w); [discriminate H1|].
  eapply in_bind_r; [reflexivity|]. left. reflexivity.
Qed.

(** X2.  When the script has come as far as the cost computation
    (start-up, slicing where needed and parsing have gone through) and
    that computation raises, be it for a price, a mass or a length
    that is not a number or for a printing time that cannot be
    converted, nothing catches the exception and it ends the script:
    the work directory has been made, teardown is not called at any
    point of the run, and no result object is printed. *)
Theorem failed_cost_computation_skips_teardown :
  forall py_float py_int (w : world) (cfg : string) (meta : metadata) (e : exn),
    outcome_of (startup py_int w) = Returns tt ->
    outcome_of (compose_config w) = Returns cfg ->
    outcome_of (slicing w cfg) = Returns tt ->
    outcome_of (parse_archive w) = Returns meta ->
    compute_costs py_float w meta = throw e ->
    outcome_of (main py_float py_int w) = Raises e
    /\ In (MakeDirs (request_work_dir w)) (trace (main py_float py_int w))
    /\ (forall dir, ~ In (Teardown dir) (trace (main py_float py_int w)))
    /\ every (fun ev => is_result ev = false) (main py_float py_int w).
Proof.
  intros py_float py_int w cfg meta e H1 H2 H3 H4 H5.
  assert (Hout : outcome_of (main py_float py_int w) = Raises e).
  { unfold main.
    rewrite (outcome_bind_returns _ _ _ H1), (outcome_bind_returns _ _ _ H2),
      (outcome_bind_returns _ _ _ H3), (outcome_bind_returns _ _ _ H4).
    unfold report. rewrite H5. reflexivity. }
  split; [exact Hout|split].
  - unfold main. apply in_bind_l. eapply startup_made_work_dir, H1.
  - exact (raised_run_untouched py_float py_int w e Hout).
Qed.

Lemma failed_cost_computation_skips_teardown_witness :
  outcome_of (main Plain.float Plain.int Cases.bad_price) = Raises ValueError
  /\ forall dir,
       ~ In (Teardown dir) (trace (main Plain.float Plain.int Cases.bad_price)).
Proof.
  assert (Hc : exists cfg,
             outcome_of (compose_config Cases.bad_price) = Returns cfg
             /\ outcome_of (slicing Cases.bad_price cfg) = Returns tt)
    by (eexists; split; vm_compute; reflexivity).
  destruct Hc as (cfg & H2 & H3).
  assert (Hm : exists meta,
             outcome_of (parse_archive Cases.bad_price) = Returns meta
             /\ compute_costs Plain.float Cases.bad_price meta = throw ValueError)
    by (eexists; split; vm_compute; reflexivity).
  destruct Hm as (meta & H4 & H5).
  assert (H1 : outcome_of (startup Plain.int Cases.bad_price) = Returns tt)
    by (vm_compute; reflexivity).
  destruct (failed_cost_computation_skips_teardown Plain.float Plain.int
              Cases.bad_price cfg meta ValueError H1 H2 H3 H4 H5)
    as (Hout & _ & Hno & _).
  split; [exact Hout|exact Hno].
Defined.

Section Completed.
Import Eff.
Variable py_float : string -> option spec_float.
Variable py_int : string -> option Z.
Variable w : world.

Lemma returned_without_teardown {A} (m : run A) a :
  teardown_then_exit m -> outcome_of m = Returns a ->
  Forall (fun ev => match ev with Teardown _ => False | _ => True end) (trace m).
Proof.
  intros Hm Ha. apply List.Forall_forall. intros ev Hin.
  destruct ev; try exact I.
  destruct (Hm _ Hin) as [c Hc]. rewrite Ha in Hc. discriminate Hc.
Qed.

Lemma report_returns_trace meta a :
  outcome_of (report py_float w meta) = Returns a ->
  exists r total post,
    trace (report py_float w meta)
    = (ResultJson r :: LegacyTotal total :: Log "Total Cost:"
       :: Teardown (request_work_dir w) :: post)
    /\ Forall (fun ev => is_result ev = false) post.
Proof.
  unfold report.
  destruct (compute_costs py_float w meta) as [e|[[hours grams] b]];
    [discriminate|intros _].
  exists (result_json w hours grams b), (Cost.total_cost b).
  rewrite (trace_bind_returns (lift (inr (hours, grams, b))) _ (hours, grams, b) eq_refl).
  cbv beta iota. unfold log. rewrite !bind_emit. cbn [trace app lift ret].
  rewrite (trace_bind_returns _ _ tt (cleanup_returns w)).
  unfold cleanup_current_work_dir at 1. rewrite bind_emit. cbn [trace app].
  eexists. split; [reflexivity|].
  apply Forall_app. split.
  - assert (H : every (fun ev => is_result ev = false)
                  (try_except any_exception
                     (bind (faulting (teardown_fault w))
                        (fun _ => if work_dir_present w
                                  then bind (emit (RemoveTree (request_work_dir w)))
                                         (fun _ => emit (Log "Cleaned up work directory"))
                                  else ret tt))
                     (fun _ => emit (Log "Failed to cleanup work directory"))))
      by (repeat every_step; reflexivity).
    exact H.
  - repeat constructor.
Qed.

Lemma completed_run_has_result :
  outcome_of (main py_float py_int w) = Returns tt ->
  exists r, In (ResultJson r) (trace (main py_float py_int w)).
Proof.
  intros H. unfold main in *.
  apply bind_returns_inv in H as (u & H1 & H).
  apply bind_returns_inv in H as (cfg & H2 & H).
  apply bind_returns_inv in H as (u' & H3 & H).
  apply bind_returns_inv in H as (meta & H4 & H).
  destruct (report_returns_trace meta _ H) as (r & total & post & Ht & _).
  exists r.
  eapply in_bind_r; [exact H1|]. eapply in_bind_r; [exact H2|].
  eapply in_bind_r; [exact H3|]. eapply in_bind_r; [exact H4|].
  rewrite Ht. left. reflexivity.
Qed.

End Completed.

(** X3.  A run that completes has printed exactly one result object,
    then the legacy total line, and only then called teardown; nothing
    before the result object tears down or prints a result. *)
Theorem completed_run_reports_then_tears_down :
  forall py_float py_int (w : world),
    outcome_of (main py_float py_int w) = Returns tt ->
    exists pre r total post,
      trace (main py_float py_int w)
      = (pre ++ ResultJson r :: LegacyTotal total :: Log "Total Cost:"
             :: Teardown (request_work_dir w) :: post)%list
      /\ Forall (fun ev => is_result ev = false) pre
      /\ Forall (fun ev => match ev with Teardown _ => False | _ => True end) pre
      /\ Forall (fun ev => is_result ev = false) post.
Proof.
  intros py_float py_int w H. unfold main in *.
  apply bind_returns_inv in H as (u & H1 & H).
  apply bind_returns_inv in H as (cfg & H2 & H).
  apply bind_returns_inv in H as (u' & H3 & H).
  apply bind_returns_inv in H as (meta & H4 & H).
  destruct (report_returns_trace py_float w meta _ H) as (r & total & post & Ht & Hpost).
  exists (trace (startup py_int w) ++ trace (compose_config w)
          ++ trace (slicing w cfg) ++ trace (parse_archive w))%list, r, total, post.
  split; [|split; [|split]].
  - rewrite (trace_bind_returns _ _ _ H1), (trace_bind_returns _ _ _ H2),
      (trace_bind_returns _ _ _ H3), (trace_bind_returns _ _ _ H4), Ht.
    rewrite <- !app_assoc. reflexivity.
  - repeat (apply Forall_app; split).
    + apply startup_no_result.
    + apply compose_no_result.
    + apply slicing_no_result.
    + apply parse_no_result.
  - repeat (apply Forall_app; split).
    + eapply returned_without_teardown; [apply startup_teardown_exit|exact H1].
    + eapply returned_without_teardown; [apply compose_teardown_exit|exact H2].
    + eapply returned_without_teardown; [apply slicing_teardown_exit|exact H3].
    + eapply returned_without_teardown; [apply parse_teardown_exit|exact H4].
  - exact Hpost.
Qed.

Lemma completed_run_reports_then_tears_down_witness :
  outcome_of (main Plain.float Plain.int Sample.presliced) = Returns tt
  /\ exists r, In (ResultJson r) (trace (main Plain.float Plain.int Sample.presliced)).
Proof.
  assert (H : outcome_of (main Plain.float Plain.int Sample.presliced) = Returns tt)
    by (vm_compute; reflexivity).
  split; [exact H|].
  destruct (completed_run_reports_then_tears_down _ _ _ H)
    as (pre & r & total & post & Ht & _).
  exists r. rewrite Ht. apply in_or_app. right. left. reflexivity.
Defined.

(** ** The supervised slicer *)

Section Supervision.
Import Eff.
Variable py_float : string -> option spec_float.
Variable py_int : string -> option Z.
Variable w : world.

Lemma in_try_handler {A} catches (body : run A) handler e ev :
  outcome_of body = Raises e -> catches e = true ->
  In ev (trace (handler e)) -> In ev (trace (try_except catches body handler)).
Proof.
  intros Hb Hc Hin. unfold try_except. rewrite Hb, Hc. simpl.
  apply in_or_app. right. exact Hin.
Qed.

Lemma supervise_failed command :
  slicer_failed w -> outcome_of (supervise w command) = Exits 1.
Proof.
  unfold slicer_failed, supervise, on_exit, on_timeout, cleanup_current_work_dir.
  destruct (slicer_run w) as [rc out err| |e]; intros Hf.
  - destruct (Z.eqb_spec rc 0) as [->|_]; [contradiction|].
    destruct (teardown_fault w), (work_dir_present w); reflexivity.
  - destruct (teardown_fault w), (work_dir_present w); reflexivity.
  - destruct e, (teardown_fault w), (work_dir_present w); reflexivity.
Qed.

Lemma supervise_succeeded command out err :
  slicer_run w = SlicerExit 0 out err ->
  outcome_of (supervise w command) = Returns tt.
Proof. unfold supervise, on_exit. intros ->. reflexivity. Qed.

Lemma slicing_failed cfg :
  needs_slicing w = true -> slicer_failed w ->
  outcome_of (slicing w cfg) = Exits 1.
Proof.
  intros Hn Hf. unfold slicing. rewrite Hn. cbn [negb].
  apply outcome_bind_stops_exit. unfold log.
  repeat first
    [ rewrite bind_emit
    | rewrite (outcome_bind_returns _ _ tt (run_probe_returns _ _))
    | progress cbn [outcome_of]
    | progress cbv beta ].
  rewrite (bind_exits _ _ _ (supervise_failed _ Hf)). reflexivity.
Qed.

End Supervision.

Section SupervisionMain.
Import Eff.
Variable py_float : string -> option spec_float.
Variable py_int : string -> option Z.
Variable w : world.

Lemma not_parse_housekeeping ev : housekeeping ev = true -> is_parse ev = false.
Proof. destruct ev; intros E; try discriminate E; reflexivity. Qed.

Lemma supervise_timeout_trace command :
  slicer_run w = SlicerTimeout ->
  trace (supervise w command)
  = Log "=== Starting slicer process ===" :: LaunchSlicer command
    :: Log "ERROR: slicer TIMEOUT" :: KillSlicer
    :: Log "Files created before timeout:"
    :: WriteFile (join (request_work_dir w) "bambu_cli_error.txt")
    :: trace (cleanup_current_work_dir w).
Proof.
  intros H. unfold supervise, on_timeout, cleanup_current_work_dir. rewrite H.
  destruct (teardown_fault w), (work_dir_present w); reflexivity.
Qed.

Lemma bind_tail {A B} (m : run A) (k : A -> run B) a t :
  outcome_of m = Returns a ->
  (exists pre, trace (k a) = (pre ++ t)%list) ->
  exists pre, trace (bind m k) = (pre ++ t)%list.
Proof.
  intros Hm [pre Hk]. exists (trace m ++ pre)%list.
  rewrite (trace_bind_returns _ _ _ Hm), Hk, app_assoc. reflexivity.
Qed.

Lemma bind_head {A B} (m : run A) (k : A -> run B) t :
  (forall a, outcome_of m <> Returns a) ->
  (exists pre, trace m = (pre ++ t)%list) ->
  exists pre, trace (bind m k) = (pre ++ t)%list.
Proof.
  intros Hm [pre Ht]. exists pre.
  rewrite (proj1 (outcome_bind_stops _ _ Hm)). exact Ht.
Qed.

Lemma slicing_trace_failed cfg :
  needs_slicing w = true -> slicer_failed w ->
  exists pre,
    trace (slicing w cfg) = (pre ++ trace (supervise w (slice_command w cfg)))%list.
Proof.
  intros Hn Hf.
  assert (Hsup : forall a, outcome_of (supervise w (slice_command w cfg)) <> Returns a)
    by (intros a; rewrite (supervise_failed w _ Hf); discriminate).
  unfold slicing. rewrite Hn. cbn [negb]. apply bind_head.
  - intros a. unfold log.
    repeat first
      [ rewrite bind_emit
      | rewrite (outcome_bind_returns _ _ tt (run_probe_returns _ _))
      | progress cbn [outcome_of]
      | progress cbv beta ].
    rewrite (bind_exits _ _ _ (supervise_failed w _ Hf)). discriminate.
  - do 2 (eapply bind_tail; [reflexivity|]).
    eapply bind_tail; [apply run_probe_returns|].
    eapply bind_tail; [reflexivity|].
    eapply bind_tail; [apply run_probe_returns|].
    apply bind_head; [exact Hsup|]. exists []. reflexivity.
Qed.

End SupervisionMain.

(** X4.  When slicing is needed and the slicer does not finish with
    return code 0 (non-zero exit, timeout, or an exception while
    launching or waiting), the script exits with status 1 after
    teardown and never opens an archive for parsing. *)
Theorem slicer_failure_ends_the_run :
  forall py_float py_int (w : world),
    starts_up py_int w -> needs_slicing w = true -> slicer_failed w ->
    outcome_of (main py_float py_int w) = Exits 1
    /\ In (Teardown (request_work_dir w)) (trace (main py_float py_int w))
    /\ every (fun ev => is_parse ev = false) (main py_float py_int w).
Proof.
  intros py_float py_int w Hs Hn Hf.
  destruct (compose_config_returns w) as [cfg Hc].
  assert (Hout : outcome_of (main py_float py_int w) = Exits 1).
  { unfold main.
    rewrite (outcome_bind_returns _ _ tt (startup_returns py_int w Hs)).
    rewrite (outcome_bind_returns _ _ cfg Hc).
    apply outcome_bind_stops_exit, slicing_failed; assumption. }
  split; [exact Hout|split].
  - apply (proj2 (main_torn_down py_float py_int w) 1 Hout), Hs.
  - unfold main.
    apply every_bind;
      [apply every_startup; [apply not_parse_housekeeping|reflexivity]|intros _ _].
    apply every_bind;
      [apply every_compose_config; [apply not_parse_housekeeping|reflexivity]
      |intros cfg' _].
    apply every_bind;
      [apply every_slicing; try reflexivity; apply not_parse_housekeeping|].
    intros u Hu. rewrite (slicing_failed w cfg' Hn Hf) in Hu. discriminate Hu.
Qed.

Lemma slicer_failure_ends_the_run_witness :
  starts_up Plain.int (Sample.with_infill "30")
  /\ slicer_failed (Sample.with_infill "30")
  /\ outcome_of (main Plain.float Plain.int (Sample.with_infill "30")) = Exits 1.
Proof.
  assert (Hs : starts_up Plain.int (Sample.with_infill "30")).
  { unfold starts_up. vm_compute. repeat split; try discriminate. lia. }
  assert (Hf : slicer_failed (Sample.with_infill "30")) by (simpl; discriminate).
  split; [exact Hs|split; [exact Hf|]].
  exact (proj1 (slicer_failure_ends_the_run Plain.float Plain.int _ Hs eq_refl Hf)).
Defined.

(** X5.  On a timeout the script, after launching the slicer, kills
    it, writes the error artifact into the work directory, tears down;
    these are the last things it does. *)
Theorem slicer_timeout_kills_records_and_tears_down :
  forall py_float py_int (w : world),
    starts_up py_int w -> needs_slicing w = true ->
    slicer_run w = SlicerTimeout ->
    exists pre cfg,
      trace (main py_float py_int w)
      = (pre ++ LaunchSlicer (slice_command w cfg)
             :: Log "ERROR: slicer TIMEOUT" :: KillSlicer
             :: Log "Files created before timeout:"
             :: WriteFile (join (request_work_dir w) "bambu_cli_error.txt")
             :: trace (cleanup_current_work_dir w))%list.
Proof.
  intros py_float py_int w Hs Hn Ht.
  assert (Hf : slicer_failed w) by (unfold slicer_failed; rewrite Ht; exact I).
  destruct (compose_config_returns w) as [cfg Hc].
  destruct (slicing_trace_failed w cfg Hn Hf) as [pre Hpre].
  exists (trace (startup py_int w) ++ trace (compose_config w) ++ pre
          ++ [Log "=== Starting slicer process ==="])%list, cfg.
  unfold main.
  rewrite (trace_bind_returns _ _ tt (startup_returns py_int w Hs)).
  rewrite (trace_bind_returns _ _ cfg Hc).
  rewrite (bind_exits _ _ _ (slicing_failed w cfg Hn Hf)). cbn [trace].
  rewrite Hpre, (supervise_timeout_trace w _ Ht).
  rewrite <- !app_assoc. reflexivity.
Qed.

Lemma slicer_timeout_kills_records_and_tears_down_witness :
  starts_up Plain.int Cases.hung_slicer
  /\ In KillSlicer (trace (main Plain.float Plain.int Cases.hung_slicer)).
Proof.
  assert (Hs : starts_up Plain.int Cases.hung_slicer).
  { unfold starts_up. vm_compute. repeat split; try discriminate. lia. }
  split; [exact Hs|].
  destruct (slicer_timeout_kills_records_and_tears_down
              Plain.float Plain.int Cases.hung_slicer Hs eq_refl eq_refl)
    as (pre & cfg & ->).
  apply in_or_app. right. do 2 right. left. reflexivity.
Defined.

(** ** The parser's error handling *)

Section ParserErrors.
Import Eff.
Variable w : world.

Lemma open_member_found name members m :
  open_member name members = Some m -> In (name, m) members.
Proof.
  induction members as [|[n m'] rest IH]; cbn [open_member]; [discriminate|].
  destruct (open_member name rest) as [m''|] eqn:E.
  - intros H. injection H as ->. right. apply IH. reflexivity.
  - destruct (String.eqb_spec n name) as [->|]; [|discriminate].
    intros H. injection H as ->. left. reflexivity.
Qed.

Lemma open_member_listed name members :
  In name (map fst members) -> open_member name members <> None.
Proof.
  induction members as [|[n m'] rest IH]; cbn [open_member map fst In];
    [tauto|].
  intros [->|H].
  - destruct (open_member name rest); [discriminate|].
    rewrite String.eqb_refl. discriminate.
  - destruct (open_member name rest); [discriminate|]. destruct (IH H). reflexivity.
Qed.

Lemma read_slice_info_returns members acc :
  opens_cleanly members ->
  In "Metadata/slice_info.config" (map fst members) ->
  returns (read_slice_info members acc).
Proof.
  intros Hc Hin. unfold read_slice_info.
  apply returns_bind; [eexists; reflexivity|intros _].
  destruct (open_member _ members) as [[lines|e|e]|] eqn:E.
  - destruct (Parse.scan_slice_info _ lines). eexists. reflexivity.
  - destruct (Hc _ _ (open_member_found _ _ _ E)).
  - eexists. reflexivity.
  - destruct (open_member_listed _ _ Hin E).
Qed.

Lemma read_plate_1_returns members acc :
  opens_cleanly members ->
  In "Metadata/plate_1.gcode" (map fst members) ->
  returns (read_plate_1 members acc).
Proof.
  intros Hc Hin. unfold read_plate_1.
  apply returns_bind; [eexists; reflexivity|intros _].
  destruct (open_member _ members) as [[lines|e|e]|] eqn:E.
  - destruct (Parse.third_line lines); eexists; reflexivity.
  - destruct (Hc _ _ (open_member_found _ _ _ E)).
  - eexists. reflexivity.
  - destruct (open_member_listed _ _ Hin E).
Qed.

Lemma scan_members_returns members file_list acc :
  opens_cleanly members ->
  (forall f, In f file_list -> In f (map fst members)) ->
  returns (scan_members members file_list acc).
Proof.
  intros Hc. revert acc. induction file_list as [|f rest IH]; intros acc Hsub.
  - eexists. reflexivity.
  - cbn [scan_members]. apply returns_bind.
    + destruct (String.eqb_spec f "Metadata/slice_info.config") as [->|];
        [|eexists; reflexivity].
      apply read_slice_info_returns; [exact Hc|]. apply Hsub. left. reflexivity.
    + intros acc1. apply returns_bind.
      * destruct (String.eqb_spec f "Metadata/plate_1.gcode") as [->|];
          [|eexists; reflexivity].
        apply read_plate_1_returns; [exact Hc|]. apply Hsub. left. reflexivity.
      * intros acc2. apply IH. intros g Hg. apply Hsub. right. exact Hg.
Qed.

Lemma parse_archive_zip members :
  archive_at w (min_save_3mf w) = Zip members ->
  opens_cleanly members ->
  returns (parse_archive w).
Proof.
  intros Ha Hc. unfold parse_archive. rewrite Ha.
  apply returns_bind; [eexists; reflexivity|intros _].
  destruct (scan_members_returns members (map fst members)
              (Metadata None None None) Hc (fun f H => H)) as [meta Hm].
  exists meta. rewrite (try_returns _ _ _ meta); rewrite bind_emit; exact Hm.
Qed.

End ParserErrors.

(** X6.  A missing archive and a file that is not a zip container end
    the script with status 1 after teardown, the first without any
    attempt to open it.  Any other exception from opening the archive
    is not caught: it propagates and teardown is not called.  An archive
    whose members can be opened always parses: a member that cannot be
    read is logged and skipped. *)
Theorem parse_archive_error_handling :
  forall (w : world),
    match archive_at w (min_save_3mf w) with
    | Missing =>
        outcome_of (parse_archive w) = Exits 1
        /\ In (Teardown (request_work_dir w)) (trace (parse_archive w))
        /\ every (fun ev => is_parse ev = false) (parse_archive w)
    | OpenFails e =>
        if exn_eqb e BadZipFile then
          outcome_of (parse_archive w) = Exits 1
          /\ In (Teardown (request_work_dir w)) (trace (parse_archive w))
        else
          outcome_of (parse_archive w) = Raises e
          /\ trace (parse_archive w)
             = [Log "Opening .3mf zip to parse metadata...";
                OpenArchive (min_save_3mf w)]
    | Zip members =>
        opens_cleanly members -> returns (parse_archive w)
    end.
Proof.
  intros w.
  destruct (archive_at w (min_save_3mf w)) as [|e|members] eqn:Ha.
  - unfold parse_archive. rewrite Ha. unfold cleanup_current_work_dir.
    destruct (teardown_fault w), (work_dir_present w);
      (split; [reflexivity|split; [right; left; reflexivity|]]);
      repeat constructor.
  - unfold parse_archive. rewrite Ha. unfold cleanup_current_work_dir.
    destruct e, (teardown_fault w), (work_dir_present w); cbn;
      try (split; reflexivity); (split; [reflexivity|tauto]).
  - apply parse_archive_zip, Ha.
Qed.

Lemma parse_archive_error_handling_witness :
  opens_cleanly (Sample.sliced_members "10.0" "45s")
  /\ returns (parse_archive Sample.presliced).
Proof.
  assert (Hc : opens_cleanly (Sample.sliced_members "10.0" "45s")).
  { intros n e [H|[H|[]]]; discriminate H. }
  split; [exact Hc|].
  exact (parse_archive_error_handling Sample.presliced Hc).
Defined.

(** ** The composed profile *)

Section Composer.
Import Eff.
Variable w : world.

Lemma needs_config_modification_iff :
  needs_config_modification w = needs_slicing w.
Proof. unfold needs_config_modification. apply andb_true_r. Qed.

Lemma modify_keeps_support (d : gmap string json) :
  modify_process_data w d !! "enable_support" = Some (JStr "1")
  /\ modify_process_data w d !! "support_type" = Some (JStr "tree(auto)")
  /\ modify_process_data w d !! "support_threshold_angle"
     = Some (JStr (getenv w "SUPPORT_THRESHOLD_ANGLE" "30")).
Proof.
  unfold modify_process_data.
  change (String.eqb ENABLE_SUPPORT "1") with true. cbv iota.
  destruct (truthy (WALL_LOOPS w)), (truthy (INFILL_DENSITY w));
    repeat split;
    repeat first [ rewrite lookup_insert_eq; reflexivity
                 | rewrite lookup_insert_ne by discriminate ].
Qed.

Lemma modify_frame (d : gmap string json) (key : string) :
  key <> "enable_support" -> key <> "support_type" ->
  key <> "support_threshold_angle" ->
  (key = "wall_loops" -> WALL_LOOPS w = "") ->
  (key = "sparse_infill_density" -> INFILL_DENSITY w = "") ->
  modify_process_data w d !! key = d !! key.
Proof.
  intros H1 H2 H3 Hw Hi. unfold modify_process_data.
  change (String.eqb ENABLE_SUPPORT "1") with true. cbv iota.
  assert (Hk1 : truthy (WALL_LOOPS w) = true -> "wall_loops" <> key).
  { intros Ht <-. rewrite (Hw eq_refl) in Ht. discriminate Ht. }
  assert (Hk2 : truthy (INFILL_DENSITY w) = true -> "sparse_infill_density" <> key).
  { intros Ht <-. rewrite (Hi eq_refl) in Ht. discriminate Ht. }
  destruct (truthy (WALL_LOOPS w)), (truthy (INFILL_DENSITY w));
    rewrite ?lookup_insert_ne by (auto; congruence); reflexivity.
Qed.

End Composer.

Section ComposerMain.
Import Eff.
Variable py_float : string -> option spec_float.
Variable py_int : string -> option Z.
Variable w : world.

Lemma every_main_phases (P : event -> Prop) :
  every P (startup py_int w) ->
  every P (compose_config w) ->
  (forall cfg, outcome_of (compose_config w) = Returns cfg ->
               every P (slicing w cfg)) ->
  every P (parse_archive w) ->
  (forall meta, every P (report py_float w meta)) ->
  every P (main py_float py_int w).
Proof.
  intros H1 H2 H3 H4 H5. unfold main.
  apply every_bind; [exact H1|intros _ _].
  apply every_bind; [exact H2|intros cfg Hc].
  apply every_bind; [apply H3, Hc|intros _ _].
  apply every_bind; [exact H4|intros meta _]. apply H5.
Qed.

Lemma composed_housekeeping ev : housekeeping ev = true -> composed_from_base w ev.
Proof. destruct ev; intros E; try discriminate E; exact I. Qed.

Lemma compose_config_composed : every (composed_from_base w) (compose_config w).
Proof.
  unfold compose_config. rewrite needs_config_modification_iff.
  destruct (needs_slicing w) eqn:Hn; [|apply every_silent; reflexivity].
  apply every_bind; [apply every_emit; exact I|intros _ _].
  destruct (profile_at w (print_quality_config w)) as [e|base] eqn:Hp.
  - repeat every_step; try exact I.
    match goal with H : outcome_of (lift (inl _)) = Returns _ |- _ => discriminate H end.
  - destruct (profile_write w) as [e|] eqn:Hw.
    + repeat every_step; try exact I.
      match goal with H : outcome_of (faulting (Some _)) = Returns _ |- _ => discriminate H end.
    + apply every_try; [|intros e; repeat every_step; exact I].
      apply every_bind; [apply every_silent; reflexivity|intros a Ha].
      injection Ha as <-.
      repeat every_step; try exact I.
      split; [reflexivity|split; [exact Hn|split; [exact Hw|]]].
      exists base. split; [exact Hp|reflexivity].
Qed.

Lemma main_composed : every (composed_from_base w) (main py_float py_int w).
Proof.
  apply every_main_phases.
  - apply every_startup; [apply composed_housekeeping|intros _; exact I].
  - apply compose_config_composed.
  - intros cfg _. apply every_slicing; try (intros; exact I).
    apply composed_housekeeping.
  - apply every_parse_archive; [apply composed_housekeeping|exact I].
  - intros meta. apply every_report; [apply composed_housekeeping|intros; exact I].
Qed.

End ComposerMain.

(** X7.  A profile is written only when slicing is needed, only to
    [process_modified.json] in the work directory, and it is the base
    profile read from disk with the overrides applied: support is
    switched on with type [tree(auto)] and the configured threshold
    angle whatever the base profile says, a non-empty wall-loop override
    is stored as given, and every other key keeps its base value. *)
Theorem written_profile_is_base_plus_overrides :
  forall py_float py_int (w : world) path data,
    In (WriteProfile path data) (trace (main py_float py_int w)) ->
    path = join (request_work_dir w) "process_modified.json"
    /\ needs_slicing w = true
    /\ data !! "enable_support" = Some (JStr "1")
    /\ data !! "support_type" = Some (JStr "tree(auto)")
    /\ data !! "support_threshold_angle"
       = Some (JStr (getenv w "SUPPORT_THRESHOLD_ANGLE" "30"))
    /\ (WALL_LOOPS w <> "" -> data !! "wall_loops" = Some (JStr (WALL_LOOPS w)))
    /\ exists base,
         profile_at w (print_quality_config w) = inr base
         /\ forall key,
              key <> "enable_support" -> key <> "support_type" ->
              key <> "support_threshold_angle" ->
              (key = "wall_loops" -> WALL_LOOPS w = "") ->
              (key = "sparse_infill_density" -> INFILL_DENSITY w = "") ->
              data !! key = base !! key.
Proof.
  intros py_float py_int w path data Hin.
  pose proof (main_composed py_float py_int w) as Hev.
  unfold every in Hev. rewrite List.Forall_forall in Hev.
  destruct (Hev _ Hin) as (-> & Hn & _ & base & Hb & ->).
  destruct (modify_keeps_support w base) as (S1 & S2 & S3).
  repeat (split; [assumption || reflexivity|]).
  split.
  - intros Hne. unfold modify_process_data.
    change (String.eqb ENABLE_SUPPORT "1") with true. cbv iota.
    rewrite (truthy_nonempty _ Hne).
    destruct (truthy (INFILL_DENSITY w));
      rewrite ?lookup_insert_ne by discriminate; apply lookup_insert_eq.
  - exists base. split; [exact Hb|]. intros key. apply modify_frame.
Qed.

Lemma written_profile_is_base_plus_overrides_witness :
  exists path data,
    In (WriteProfile path data)
       (trace (main Plain.float Plain.int Cases.hung_slicer))
    /\ data !! "enable_support" = Some (JStr "1").
Proof.
  assert (Hs : starts_up Plain.int Cases.hung_slicer).
  { unfold starts_up. vm_compute. repeat split; try discriminate. lia. }
  assert (Hin : In (WriteProfile (modified_process_path Cases.hung_slicer)
                      (modify_process_data Cases.hung_slicer ∅))
                   (trace (main Plain.float Plain.int Cases.hung_slicer))).
  { unfold main.
    eapply in_bind_r; [apply (startup_returns Plain.int _ Hs)|].
    apply in_bind_l. unfold compose_config.
    rewrite needs_config_modification_iff.
    change (needs_slicing Cases.hung_slicer) with true. cbv iota.
    eapply in_bind_r; [reflexivity|].
    apply in_try_body. cbn. left. reflexivity. }
  exists (modified_process_path Cases.hung_slicer),
    (modify_process_data Cases.hung_slicer ∅).
  split; [exact Hin|].
  exact (proj1 (proj2 (proj2
          (written_profile_is_base_plus_overrides _ _ _ _ _ Hin)))).
Defined.


Section Launch.
Import Eff.
Variable py_float : string -> option spec_float.
Variable py_int : string -> option Z.
Variable w : world.

Lemma slicing_launched_with cfg : every (launched_with w cfg) (slicing w cfg).
Proof.
  unfold slicing, supervise, run_probe, on_exit, on_timeout, cleanup_current_work_dir.
  repeat every_step; first [exact I | reflexivity].
Qed.

(** The profile handed on by the composer is the modified one exactly
    when it was written, and the base profile otherwise. *)
Lemma compose_config_result cfg :
  outcome_of (compose_config w) = Returns cfg ->
  (cfg = modified_process_path w
   /\ exists data, In (WriteProfile cfg data) (trace (compose_config w)))
  \/ (cfg = print_quality_config w
      /\ every (fun ev => is_profile_write ev = false) (compose_config w)).
Proof.
  unfold compose_config. rewrite needs_config_modification_iff.
  destruct (needs_slicing w).
  - destruct (profile_at w (print_quality_config w)) as [e|base];
      [|destruct (profile_write w) as [e|]]; cbn; intros H; injection H as <-.
    + right. split; [reflexivity|repeat constructor].
    + right. split; [reflexivity|repeat constructor].
    + left. split; [reflexivity|]. eexists. right. left. reflexivity.
  - cbn. intros H. injection H as <-.
    right. split; [reflexivity|constructor].
Qed.

End Launch.

(** X8.  The slicer is launched with the profile the composer handed
    on: the modified profile when one was written, the base profile
    when composing failed.  Its command ends with the input file and
    tells the slicer to export to the very path the parser later opens. *)
Theorem slicer_runs_on_composed_profile :
  forall py_float py_int (w : world) command,
    In (LaunchSlicer command) (trace (main py_float py_int w)) ->
    exists cfg,
      command = slice_command w cfg
      /\ outcome_of (compose_config w) = Returns cfg
      /\ ((cfg = modified_process_path w
           /\ exists data, In (WriteProfile cfg data) (trace (main py_float py_int w)))
          \/ (cfg = print_quality_config w
              /\ every (fun ev => is_profile_write ev = false)
                       (compose_config w)))
      /\ In ("--load-settings=" ++ printer_machine_config w ++ ";" ++ cfg) command
      /\ In ("--export-3mf=" ++ min_save_3mf w) command
      /\ List.last command "" = project_file w
      /\ every (parses_only (min_save_3mf w)) (main py_float py_int w).
Proof.
  intros py_float py_int w command Hin.
  assert (Hquiet : forall (P : event -> Prop),
             (forall ev, match ev with LaunchSlicer _ => False | _ => True end -> P ev) ->
             forall ev, housekeeping ev = true -> P ev).
  { intros P HP ev E. apply HP. destruct ev; try discriminate E; exact I. }
  unfold main in Hin.
  apply in_bind_inv in Hin as [Hin|(u & Hu & Hin)].
  { exfalso.
    assert (H : every (fun ev => match ev with LaunchSlicer _ => False | _ => True end)
                  (startup py_int w))
      by (apply every_startup; [apply Hquiet; auto|intros _; exact I]).
    unfold every in H. rewrite List.Forall_forall in H. exact (H _ Hin). }
  apply in_bind_inv in Hin as [Hin|(cfg & Hc & Hin)].
  { exfalso.
    assert (H : every (fun ev => match ev with LaunchSlicer _ => False | _ => True end)
                  (compose_config w))
      by (apply every_compose_config; [apply Hquiet; auto|intros d; exact I]).
    unfold every in H. rewrite List.Forall_forall in H. exact (H _ Hin). }
  apply in_bind_inv in Hin as [Hin|(u' & Hs & Hin)].
  - pose proof (slicing_launched_with w cfg) as H.
    unfold every in H. rewrite List.Forall_forall in H.
    pose proof (H _ Hin) as Hcmd. cbn in Hcmd. subst command.
    exists cfg. split; [reflexivity|split; [exact Hc|split; [|split; [|split; [|split]]]]].
    + destruct (compose_config_result w cfg Hc) as [[E [data Hd]]|[E Hq]].
      * left. split; [exact E|]. exists data. unfold main.
        eapply in_bind_r; [exact Hu|]. apply in_bind_l. exact Hd.
      * right. split; assumption.
    + do 6 right. left. reflexivity.
    + do 8 right. left. reflexivity.
    + reflexivity.
    + apply every_main; try (intros; exact I); try reflexivity.
      * intros [] E; try discriminate E; exact I.
      * intros _. repeat split.
  - exfalso. apply in_bind_inv in Hin as [Hin|(meta & Hm & Hin)].
    + assert (H : every (fun ev => match ev with LaunchSlicer _ => False | _ => True end)
                    (parse_archive w))
        by (apply every_parse_archive; [apply Hquiet; auto|exact I]).
      unfold every in H. rewrite List.Forall_forall in H. exact (H _ Hin).
    + assert (H : every (fun ev => match ev with LaunchSlicer _ => False | _ => True end)
                    (report py_float w meta))
        by (apply every_report; [apply Hquiet; auto|intros; exact I]).
      unfold every in H. rewrite List.Forall_forall in H. exact (H _ Hin).
Qed.

Lemma slicer_runs_on_composed_profile_witness :
  exists command,
    In (LaunchSlicer command) (trace (main Plain.float Plain.int Cases.hung_slicer))
    /\ In ("--export-3mf=" ++ min_save_3mf Cases.hung_slicer) command.
Proof.
  assert (Hs : starts_up Plain.int Cases.hung_slicer).
  { unfold starts_up. vm_compute. repeat split; try discriminate. lia. }
  destruct (main_launches Plain.float Plain.int Cases.hung_slicer Hs eq_refl)
    as [cfg Hin].
  exists (slice_command Cases.hung_slicer cfg). split; [exact Hin|].
  destruct (slicer_runs_on_composed_profile _ _ _ _ Hin)
    as (cfg' & Hcmd & _ & _ & _ & Hexp & _).
  exact Hexp.
Defined.


Section ExactNames.
Import Eff.
Variable py_float : string -> option spec_float.
Variable py_int : string -> option Z.
Variable w : world.

(** A result line comes from the figures computed on the metadata the
    parser returned. *)
Lemma result_inv r :
  In (ResultJson r) (trace (main py_float py_int w)) ->
  exists meta hours grams b,
    outcome_of (parse_archive w) = Returns meta
    /\ compute_costs py_float w meta = ok (hours, grams, b)
    /\ r = result_json w hours grams b.
Proof.
  assert (Hno : forall {A} (m : run A),
             every (fun ev => is_result ev = false) m ->
             In (ResultJson r) (trace m) -> False).
  { intros A m H Hin. unfold every in H. rewrite List.Forall_forall in H.
    specialize (H _ Hin). discriminate H. }
  unfold main. intros Hin.
  apply in_bind_inv in Hin as [Hin|(u & Hu & Hin)];
    [destruct (Hno _ _ (startup_no_result py_int w) Hin)|].
  apply in_bind_inv in Hin as [Hin|(cfg & Hc & Hin)];
    [destruct (Hno _ _ (compose_no_result w) Hin)|].
  apply in_bind_inv in Hin as [Hin|(u' & Hs & Hin)];
    [destruct (Hno _ _ (slicing_no_result w cfg) Hin)|].
  apply in_bind_inv in Hin as [Hin|(meta & Hm & Hin)];
    [destruct (Hno _ _ (parse_no_result w) Hin)|].
  exists meta. unfold report in Hin.
  destruct (compute_costs py_float w meta) as [e|[[hours grams] b]] eqn:E.
  - destruct Hin.
  - exists hours, grams, b. split; [exact Hm|split; [reflexivity|]].
    apply in_bind_inv in Hin as [[]|(figures & Hf & Hin)].
    cbn in Hf. injection Hf as <-.
    rewrite bind_emit in Hin. cbn [trace] in Hin.
    destruct Hin as [Hin|Hin]; [injection Hin as <-; reflexivity|].
    exfalso. revert Hin. apply Hno.
    unfold cleanup_current_work_dir. repeat every_step; reflexivity.
Qed.

Lemma read_slice_info_time members acc meta :
  outcome_of (read_slice_info members acc) = Returns meta ->
  printing_time_line meta = printing_time_line acc.
Proof.
  unfold read_slice_info.
  destruct (open_member _ members) as [[lines|e|e]|]; cbn; try discriminate.
  - destruct (Parse.scan_slice_info _ lines). cbn.
    intros H. injection H as <-. reflexivity.
  - intros H. injection H as <-. reflexivity.
Qed.

Lemma read_plate_1_filament members acc meta :
  outcome_of (read_plate_1 members acc) = Returns meta ->
  used_g_value meta = used_g_value acc /\ used_m_value meta = used_m_value acc.
Proof.
  unfold read_plate_1.
  destruct (open_member _ members) as [[lines|e|e]|]; cbn; try discriminate.
  - destruct (Parse.third_line lines); cbn;
      intros H; injection H as <-; split; reflexivity.
  - intros H. injection H as <-. split; reflexivity.
Qed.

(** Without a name equal to [Metadata/plate_1.gcode] the loop leaves
    the printing-time line alone. *)
Lemma scan_members_time members file_list acc meta :
  ~ In "Metadata/plate_1.gcode" file_list ->
  outcome_of (scan_members members file_list acc) = Returns meta ->
  printing_time_line meta = printing_time_line acc.
Proof.
  revert acc. induction file_list as [|f rest IH]; intros acc Hn.
  - cbn. intros H. injection H as <-. reflexivity.
  - cbn [scan_members]. intros H.
    apply bind_returns_inv in H as (acc1 & H1 & H).
    apply bind_returns_inv in H as (acc2 & H2 & H).
    rewrite (IH acc2) by (intros Hin; apply Hn; right; exact Hin) || exact H.
    destruct (String.eqb_spec f "Metadata/plate_1.gcode") as [->|_];
      [destruct Hn; left; reflexivity|].
    cbn in H2. injection H2 as <-.
    destruct (String.eqb f "Metadata/slice_info.config").
    + eapply read_slice_info_time, H1.
    + cbn in H1. injection H1 as <-. reflexivity.
Qed.

(** Without a name equal to [Metadata/slice_info.config] it leaves the
    two filament attributes alone. *)
Lemma scan_members_filament members file_list acc meta :
  ~ In "Metadata/slice_info.config" file_list ->
  outcome_of (scan_members members file_list acc) = Returns meta ->
  used_g_value meta = used_g_value acc /\ used_m_value meta = used_m_value acc.
Proof.
  revert acc. induction file_list as [|f rest IH]; intros acc Hn.
  - cbn. intros H. injection H as <-. split; reflexivity.
  - cbn [scan_members]. intros H.
    apply bind_returns_inv in H as (acc1 & H1 & H).
    apply bind_returns_inv in H as (acc2 & H2 & H).
    destruct (IH acc2 (fun Hin => Hn (or_intror Hin)) H) as [-> ->].
    destruct (String.eqb_spec f "Metadata/slice_info.config") as [->|_];
      [destruct Hn; left; reflexivity|].
    cbn in H1. injection H1 as <-.
    destruct (String.eqb f "Metadata/plate_1.gcode").
    + eapply read_plate_1_filament, H2.
    + cbn in H2. injection H2 as <-. split; reflexivity.
Qed.

Lemma parse_archive_scanned members meta :
  archive_at w (min_save_3mf w) = Zip members ->
  outcome_of (parse_archive w) = Returns meta ->
  outcome_of (scan_members members (map fst members) (Metadata None None None))
  = Returns meta.
Proof.
  unfold parse_archive, log. intros ->. rewrite bind_emit. cbn [outcome_of].
  unfold try_except. rewrite bind_emit. cbn [outcome_of trace].
  destruct (outcome_of (scan_members members _ _)) as [a|e|c] eqn:E.
  - exact (fun H => H).
  - destruct (only BadZipFile e).
    + unfold cleanup_current_work_dir. cbn [outcome_of].
      rewrite bind_emit. cbn [outcome_of].
      intros H. apply bind_returns_inv in H as (u & _ & H).
      discriminate H.
    + cbn [outcome_of]. discriminate.
  - discriminate.
Qed.

End ExactNames.

(** X9.  The parser reads the printing time only from a member named
    exactly [Metadata/plate_1.gcode] and the filament attributes only
    from one named exactly [Metadata/slice_info.config].  When the
    archive it opens lists no such name, the result line reports zero
    printing hours, respectively zero grams of filament, although the
    pre-sliced check accepts any name ending in [slice_info.config] and
    any g-code name that mentions a plate. *)
Theorem only_exactly_named_members_are_read :
  forall py_float py_int (w : world) members r,
    archive_at w (min_save_3mf w) = Zip members ->
    In (ResultJson r) (trace (main py_float py_int w)) ->
    (~ In "Metadata/plate_1.gcode" (map fst members) ->
     Reply.printing_hours r = PyInt 0)
    /\ (~ In "Metadata/slice_info.config" (map fst members) ->
        Reply.filament_grams r = PyInt 0).
Proof.
  intros py_float py_int w members r Ha Hin.
  destruct (result_inv py_float py_int w r Hin)
    as (meta & hours & grams & b & Hm & Hc & ->).
  pose proof (parse_archive_scanned w members meta Ha Hm) as Hs.
  unfold compute_costs in Hc. split; intros Hn.
  - pose proof (scan_members_time _ _ _ _ Hn Hs) as Ht. cbn in Ht.
    rewrite Ht in Hc. cbn in Hc.
    destruct (Cost.float_of_str py_float _) as [e|price]; [discriminate Hc|].
    cbn in Hc.
    destruct (Cost.total_used_grams py_float _ _) as [e|g]; [discriminate Hc|].
    cbn in Hc.
    destruct (Cost.estimate (PyInt 0) g price) as [e|b']; [discriminate Hc|].
    cbn in Hc. injection Hc as <- _ _. reflexivity.
  - destruct (scan_members_filament _ _ _ _ Hn Hs) as [Hg Hu].
    cbn in Hg, Hu. rewrite Hg, Hu in Hc.
    destruct (Cost.Total_printing_hours _) as [e|h]; [discriminate Hc|].
    cbn in Hc.
    destruct (Cost.float_of_str py_float _) as [e|price]; [discriminate Hc|].
    cbn in Hc.
    destruct (Cost.estimate h (PyInt 0) price) as [e|b']; [discriminate Hc|].
    cbn in Hc. injection Hc as _ <- _. reflexivity.
Qed.

Lemma only_exactly_named_members_are_read_witness :
  is_presliced_3mf Cases.second_plate = true
  /\ exists r,
       In (ResultJson r) (trace (main Plain.float Plain.int Cases.second_plate))
       /\ Reply.printing_hours r = PyInt 0.
Proof.
  split; [vm_compute; reflexivity|].
  assert (H : exists r, In (ResultJson r)
                (trace (main Plain.float Plain.int Cases.second_plate))).
  { apply completed_run_has_result. vm_compute. reflexivity. }
  destruct H as [r Hin]. exists r. split; [exact Hin|].
  refine (proj1 (only_exactly_named_members_are_read Plain.float Plain.int
                   Cases.second_plate _ r eq_refl Hin) _).
  vm_compute. intros [H|[H|[]]]; discriminate H.
Defined.


Section SweepLaws.
Import Eff.
Variable w : world.
Variable now : spec_float.
Variable limit : Z.

Lemma sweep_entry_run cleaned d :
  sweep_entry w now limit cleaned d
  = Run (if is_stale now limit d
         then [RemoveTree (join (WORK_BASE_DIR w) (entry_name d))] else [])
        (Returns (if removed_cleanly now limit d then cleaned + 1 else cleaned)).
Proof.
  unfold sweep_entry, is_stale, removed_cleanly, is_stale.
  destruct (entry_is_dir d); [|reflexivity].
  destruct (entry_mtime d) as [e|mtime]; [reflexivity|].
  cbn -[float_gt_int SFsub].
  destruct (float_gt_int _ limit); [|reflexivity].
  destruct (entry_rmtree_fault d); reflexivity.
Qed.

Lemma sweep_entries_outcome entries : forall cleaned,
  outcome_of (sweep_entries w now limit cleaned entries)
  = Returns (cleaned
             + Z.of_nat (List.length (List.filter (removed_cleanly now limit) entries))).
Proof.
  induction entries as [|d rest IH]; intros cleaned.
  - cbn. f_equal. lia.
  - cbn [sweep_entries]. rewrite sweep_entry_run.
    unfold bind at 1. cbn [outcome_of trace]. rewrite IH.
    cbn [List.filter]. destruct (removed_cleanly now limit d);
      cbn [List.length]; f_equal; lia.
Qed.

Lemma sweep_entries_trace entries : forall cleaned,
  trace (sweep_entries w now limit cleaned entries)
  = map (fun d => RemoveTree (join (WORK_BASE_DIR w) (entry_name d)))
        (List.filter (is_stale now limit) entries).
Proof.
  induction entries as [|d rest IH]; intros cleaned.
  - reflexivity.
  - cbn [sweep_entries]. rewrite sweep_entry_run.
    unfold bind at 1. cbn [outcome_of trace]. rewrite IH.
    cbn [List.filter]. destruct (is_stale now limit d); reflexivity.
Qed.

Lemma cleanup_old_listed entries :
  cleanup_old_work_dirs w now limit (Listed entries)
  = Run (map (fun d => RemoveTree (join (WORK_BASE_DIR w) (entry_name d)))
             (List.filter (is_stale now limit) entries)
         ++ (if existsb (removed_cleanly now limit) entries
             then [Log "Cleanup: removed old work directories"] else []))%list
        (Returns tt).
Proof.
  unfold cleanup_old_work_dirs.
  assert (Hb : bind (ret entries)
                 (fun es => bind (sweep_entries w now limit 0 es)
                    (fun cleaned => if 0 <? cleaned
                                    then log "Cleanup: removed old work directories"
                                    else ret tt))
               = Run (map (fun d => RemoveTree (join (WORK_BASE_DIR w) (entry_name d)))
                          (List.filter (is_stale now limit) entries)
                      ++ (if existsb (removed_cleanly now limit) entries
                          then [Log "Cleanup: removed old work directories"]
                          else []))%list
                     (Returns tt)).
  { unfold bind at 1. cbn [outcome_of trace ret app].
    unfold bind. rewrite sweep_entries_outcome, sweep_entries_trace.
    assert (Hc : (0 <? 0 + Z.of_nat (List.length
                     (List.filter (removed_cleanly now limit) entries)))
                 = existsb (removed_cleanly now limit) entries).
    { induction entries as [|d rest IH]; [reflexivity|].
      cbn [List.filter existsb].
      destruct (removed_cleanly now limit d); [|exact IH].
      cbn [List.length orb]. apply Z.ltb_lt. lia. }
    rewrite Hc. destruct (existsb _ entries); reflexivity. }
  unfold try_except. rewrite Hb. reflexivity.
Qed.

End SweepLaws.

(** X10.  The sweep of stale work directories removes exactly the
    entries of the work base that are directories, whose modification
    time can be read, and whose age is strictly greater than the
    limit; the removals happen in listing order, one per entry, and an
    entry whose time cannot be read or whose removal fails does not
    keep the later entries from being swept.  When the work base is
    missing or cannot be listed, nothing is removed. *)
Theorem sweep_removes_exactly_the_stale_directories :
  forall (w : world) (now : spec_float) (limit : Z) (found : listing),
    (forall path,
          In (RemoveTree path) (trace (cleanup_old_work_dirs w now limit found))
          <-> exists entries d,
                found = Listed entries
                /\ In d entries
                /\ entry_is_dir d = true
                /\ (exists mtime,
                      entry_mtime d = ok mtime
                      /\ float_gt_int (SFsub Float64.prec Float64.emax now mtime)
                                      limit = true)
                /\ path = join (WORK_BASE_DIR w) (entry_name d))
    /\ List.filter (fun ev => match ev with RemoveTree _ => true | _ => false end)
         (trace (cleanup_old_work_dirs w now limit found))
       = match found with
         | Listed entries =>
             map (fun d => RemoveTree (join (WORK_BASE_DIR w) (entry_name d)))
                 (List.filter (is_stale now limit) entries)
         | _ => []
         end.
Proof.
  intros w now limit found.
  assert (Hstale : forall d,
            is_stale now limit d = true
            <-> entry_is_dir d = true
                /\ exists mtime,
                     entry_mtime d = ok mtime
                     /\ float_gt_int (SFsub Float64.prec Float64.emax now mtime)
                                     limit = true).
  { intros d. unfold is_stale, ok.
    destruct (entry_is_dir d); cbn [andb].
    - destruct (entry_mtime d) as [e|t].
      + split; [discriminate|]. intros [_ (t & H & _)]. discriminate H.
      + split.
        * intros H. split; [reflexivity|]. exists t. split; [reflexivity|exact H].
        * intros [_ (t' & H & H')]. injection H as ->. exact H'.
    - split; [discriminate|]. intros [H _]. discriminate H. }
  destruct found as [|e|entries].
  - split; [|reflexivity].
    intros path. split; [intros []|].
    intros (entries & d & H & _). discriminate H.
  - split; [|reflexivity].
    intros path. split.
    + cbn. intros [H|[]]. discriminate H.
    + intros (entries & d & H & _). discriminate H.
  - rewrite cleanup_old_listed. cbn [outcome_of trace].
    split.
    + intros path. rewrite in_app_iff, List.in_map_iff. split.
      * intros [(d & Hp & Hd)|Hlog].
        -- apply List.filter_In in Hd as [Hd Hs].
           apply Hstale in Hs as [Hdir Hm].
           injection Hp as <-.
           exists entries, d.
           split; [reflexivity|split; [exact Hd|split; [exact Hdir|split;
             [exact Hm|reflexivity]]]].
        -- destruct (existsb _ entries); [destruct Hlog as [H|[]]; discriminate H
                                          |destruct Hlog].
      * intros (entries' & d & He & Hd & Hdir & Hm & ->).
        injection He as <-. left. exists d. split; [reflexivity|].
        apply List.filter_In. split; [exact Hd|].
        apply Hstale. split; assumption.
    + rewrite List.filter_app.
      assert (H1 : forall l : list dir_entry,
                 List.filter (fun ev => match ev with RemoveTree _ => true | _ => false end)
                   (map (fun d => RemoveTree (join (WORK_BASE_DIR w) (entry_name d))) l)
                 = map (fun d => RemoveTree (join (WORK_BASE_DIR w) (entry_name d))) l).
      { induction l as [|d l IH]; [reflexivity|].
        cbn [List.filter map]. rewrite IH. reflexivity. }
      rewrite H1.
      destruct (existsb _ entries); cbn [List.filter]; apply app_nil_r.
Qed.

(** X11.  The sweep logs its summary exactly when at least one stale
    directory was removed without a fault, and it logs nothing else
    unless listing the work base failed. *)
Theorem sweep_logs_only_when_something_was_removed :
  forall (w : world) (now : spec_float) (limit : Z) entries line,
    In (Log line) (trace (cleanup_old_work_dirs w now limit (Listed entries)))
    <-> line = "Cleanup: removed old work directories"
        /\ exists d, In d entries
                     /\ is_stale now limit d = true
                     /\ entry_rmtree_fault d = None.
Proof.
  intros w now limit entries line.
  rewrite cleanup_old_listed. cbn [trace]. rewrite in_app_iff.
  assert (Hex : existsb (removed_cleanly now limit) entries = true
                <-> exists d, In d entries /\ is_stale now limit d = true
                              /\ entry_rmtree_fault d = None).
  { rewrite List.existsb_exists. unfold removed_cleanly.
    split; intros (d & Hd & H); exists d; (split; [exact Hd|]).
    - apply andb_prop in H as [Hs Hf]. split; [exact Hs|].
      destruct (entry_rmtree_fault d); [discriminate Hf|reflexivity].
    - destruct H as [-> ->]. reflexivity. }
  split.
  - intros [H|H].
    + apply List.in_map_iff in H as (d & H & _). discriminate H.
    + destruct (existsb _ entries) eqn:E; [|destruct H].
      destruct H as [H|[]]. injection H as <-.
      split; [reflexivity|]. apply Hex. reflexivity.
  - intros [-> H]. right. apply Hex in H. rewrite H. left. reflexivity.
Qed.


Section Attributes.
Import Parse.

Lemma strip_prefix_app (p s rest : string) :
  strip_prefix p s = Some rest -> s = (p ++ rest)%string.
Proof.
  revert s. induction p as [|a p IH]; intros [|b s]; cbn [strip_prefix].
  - intros H. injection H as <-. reflexivity.
  - intros H. injection H as <-. reflexivity.
  - discriminate.
  - destruct (Ascii.eqb_spec a b) as [->|]; [|discriminate].
    intros H. rewrite (IH _ H). reflexivity.
Qed.

Lemma strip_prefix_here (p rest : string) :
  strip_prefix p (p ++ rest) = Some rest.
Proof.
  induction p as [|a p IH]; [destruct rest; reflexivity|].
  change (String a p ++ rest)%string with (String a (p ++ rest)).
  cbn [strip_prefix]. rewrite Ascii.eqb_refl. exact IH.
Qed.

Lemma span_app (p : ascii -> bool) (s a b : string) :
  span p s = (a, b) ->
  s = (a ++ b)%string /\ all_chars p a = true.
Proof.
  revert a b. induction s as [|c s IH]; intros a b; cbn [span].
  - intros H. injection H as <- <-. split; reflexivity.
  - destruct (p c) eqn:E.
    + destruct (span p s) as [a' b'].
      intros H. injection H as <- <-.
      destruct (IH _ _ eq_refl) as [-> Ha].
      split; [reflexivity|]. cbn [all_chars]. rewrite E, Ha. reflexivity.
    + intros H. injection H as <- <-. split; reflexivity.
Qed.

Lemma span_rest_head (p : ascii -> bool) (s a : string) (q : ascii) (post : string) :
  span p s = (a, String q post) -> p q = false.
Proof.
  revert a. induction s as [|c s IH]; intros a; cbn [span]; [discriminate|].
  destruct (p c) eqn:E.
  - destruct (span p s) as [a' b'] eqn:Es.
    intros H. injection H as <- ->. eapply IH. reflexivity.
  - intros H. injection H as <- <- <-. exact E.
Qed.

Lemma span_stop (p : ascii -> bool) (v : string) (c : ascii) (rest : string) :
  all_chars p v = true -> p c = false ->
  span p (v ++ String c rest) = (v, String c rest).
Proof.
  intros Hv Hc. induction v as [|a v IH].
  - change (span p (String c rest) = ("", String c rest)).
    cbn [span]. rewrite Hc. reflexivity.
  - cbn [all_chars] in Hv. apply andb_true_iff in Hv as [Ha Hv].
    change (String a v ++ String c rest)%string
      with (String a (v ++ String c rest)).
    cbn [span]. rewrite Ha, (IH Hv). reflexivity.
Qed.

Lemma attribute_here_sound (open s v : string) :
  attribute_here open s = Some v ->
  truthy v = true /\ all_chars not_quote v = true
  /\ exists post, s = (open ++ v ++ String quote post)%string.
Proof.
  unfold attribute_here.
  destruct (strip_prefix open s) as [rest|] eqn:E; [|discriminate].
  apply strip_prefix_app in E.
  destruct (span not_quote rest) as [a b] eqn:Es.
  destruct a as [|c a]; [discriminate|].
  destruct b as [|q post] eqn:Eb; [discriminate|].
  intros H. injection H as <-.
  destruct (span_app _ _ _ _ Es) as [Hs Ha].
  split; [reflexivity|split; [exact Ha|]].
  assert (Hq : q = quote).
  { pose proof (span_rest_head _ _ _ _ _ Es) as Hq. unfold not_quote in Hq.
    apply negb_false_iff, Ascii.eqb_eq in Hq. exact Hq. }
  subst q. exists post. rewrite E, Hs. reflexivity.
Qed.

Lemma attribute_here_complete (open v post : string) :
  truthy v = true -> all_chars not_quote v = true ->
  attribute_here open (open ++ v ++ String quote post) = Some v.
Proof.
  intros Hne Hv. unfold attribute_here.
  rewrite strip_prefix_here.
  rewrite (span_stop not_quote v quote post Hv)
    by (unfold not_quote; rewrite Ascii.eqb_refl; reflexivity).
  destruct v; [discriminate Hne|reflexivity].
Qed.

Lemma search_attribute_found (open pre t v : string) :
  attribute_here open t = Some v ->
  exists v', search_attribute open (pre ++ t) = Some v'.
Proof.
  intros H. induction pre as [|c pre IH].
  - exists v. change ("" ++ t)%string with t.
    destruct t; cbn [search_attribute]; rewrite H; reflexivity.
  - change (String c pre ++ t)%string with (String c (pre ++ t)).
    cbn [search_attribute].
    destruct (attribute_here open (String c (pre ++ t))) as [v'|];
      [exists v'; reflexivity|exact IH].
Qed.

End Attributes.

(** X12.  What the attribute patterns of the parser return is the
    quoted text itself: a non-empty run of characters without a quote
    that stands in the line between the key with its opening quote and
    a closing quote. *)
Theorem parsed_attribute_is_the_quoted_text :
  forall (open line v : string),
    Parse.search_attribute open line = Some v ->
    truthy v = true
    /\ all_chars Parse.not_quote v = true
    /\ exists pre post,
         line = (pre ++ open ++ v ++ String Parse.quote post)%string.
Proof.
  intros open line. induction line as [|c line IH]; intros v;
    cbn [Parse.search_attribute].
  - destruct (Parse.attribute_here open "") as [v'|] eqn:E; [|discriminate].
    intros H. injection H as ->.
    destruct (attribute_here_sound _ _ _ E) as (H1 & H2 & post & H3).
    split; [exact H1|split; [exact H2|]]. exists "", post. exact H3.
  - destruct (Parse.attribute_here open (String c line)) as [v'|] eqn:E.
    + intros H. injection H as ->.
      destruct (attribute_here_sound _ _ _ E) as (H1 & H2 & post & H3).
      split; [exact H1|split; [exact H2|]]. exists "", post. exact H3.
    + intros H. destruct (IH _ H) as (H1 & H2 & pre & post & ->).
      split; [exact H1|split; [exact H2|]].
      exists (String c pre), post. reflexivity.
Qed.

Lemma parsed_attribute_is_the_quoted_text_witness :
  exists pre post,
    ("<filament id=" ++ Sample.quoted "1" ++ " used_g=" ++ Sample.quoted "12.5"
       ++ "/>")%string
    = (pre ++ Parse.used_g_open ++ "12.5" ++ String Parse.quote post)%string.
Proof.
  exact (proj2 (proj2 (parsed_attribute_is_the_quoted_text Parse.used_g_open
           ("<filament id=" ++ Sample.quoted "1" ++ " used_g="
              ++ Sample.quoted "12.5" ++ "/>") "12.5" eq_refl))).
Defined.

(** X13.  Round trip of an attribute: a non-empty value without a quote,
    written after the key and closed by a quote, is read back as it is
    when the line starts there, and some value is found wherever in the
    line it stands.  An empty value is not read. *)
Theorem written_attribute_is_read_back :
  forall (open v post : string),
    truthy v = true ->
    all_chars Parse.not_quote v = true ->
    Parse.search_attribute open (open ++ v ++ String Parse.quote post) = Some v
    /\ (forall pre, exists v',
          Parse.search_attribute open (pre ++ open ++ v ++ String Parse.quote post)
          = Some v')
    /\ Parse.attribute_here open (open ++ String Parse.quote post) = None.
Proof.
  intros open v post Hne Hv.
  pose proof (attribute_here_complete open v post Hne Hv) as H.
  split; [|split].
  - destruct (open ++ v ++ String Parse.quote post)%string;
      cbn [Parse.search_attribute]; rewrite H; reflexivity.
  - intros pre. eapply search_attribute_found. exact H.
  - unfold Parse.attribute_here. rewrite strip_prefix_here. cbn [Parse.span].
    unfold Parse.not_quote. rewrite Ascii.eqb_refl. reflexivity.
Qed.

Lemma written_attribute_is_read_back_witness :
  Parse.search_attribute Parse.used_m_open
    (Parse.used_m_open ++ "3.42" ++ String Parse.quote " used_g=")
  = Some "3.42".
Proof.
  exact (proj1 (written_attribute_is_read_back Parse.used_m_open "3.42"
                  " used_g=" eq_refl eq_refl)).
Defined.

(** X14.  A filament mass that is present and not zero is used as it
    is: the length attribute is then not even converted, so that a
    length that is not a number does no harm. *)
Theorem nonzero_mass_is_preferred_to_length :
  forall (py_float : string -> option spec_float) (g : string)
         (f : spec_float) (used_m : option string),
    truthy g = true ->
    py_float g = Some f ->
    Float64.is_zero f = false ->
    Cost.total_used_grams py_float (Some g) used_m = ok (PyFloat f).
Proof.
  intros py_float g f used_m Hg Hf Hz.
  unfold Cost.total_used_grams, Cost.float_of_str.
  rewrite Hg, Hf. cbn [rbind ok]. cbn [Num.is_zero]. rewrite Hz.
  destruct used_m; reflexivity.
Qed.

Lemma nonzero_mass_is_preferred_to_length_witness :
  exists f,
    Cost.total_used_grams Plain.float (Some "12.5") (Some "n/a")
    = ok (PyFloat f).
Proof.
  assert (H : exists f, Plain.float "12.5" = Some f
                        /\ Float64.is_zero f = false).
  { eexists. split; vm_compute; reflexivity. }
  destruct H as (f & Hf & Hz). exists f.
  exact (nonzero_mass_is_preferred_to_length Plain.float "12.5" f (Some "n/a")
           eq_refl Hf Hz).
Defined.

(** X15.  When the mass is absent, empty or zero, the length counts,
    and a length that is present but not a number raises
    [ValueError]. *)
Theorem length_not_a_number_raises :
  forall (py_float : string -> option spec_float)
         (used_g : option string) (m : string),
    mass_absent_or_zero py_float used_g ->
    truthy m = true ->
    py_float m = None ->
    Cost.total_used_grams py_float used_g (Some m) = throw ValueError.
Proof.
  intros py_float used_g m Hg Hm Hpm.
  unfold Cost.total_used_grams, Cost.float_of_str.
  destruct used_g as [g|]; cbn [mass_absent_or_zero] in Hg.
  - destruct Hg as [Hg|(z & Hz & Hzz)].
    + rewrite Hg. cbn [rbind ok Num.is_zero Z.eqb andb]. rewrite Hm, Hpm.
      reflexivity.
    + rewrite Hz. destruct (truthy g);
        cbn [rbind ok Num.is_zero Z.eqb andb]; rewrite ?Hzz, Hm, Hpm;
        reflexivity.
  - cbn [rbind ok Num.is_zero Z.eqb andb]. rewrite Hm, Hpm. reflexivity.
Qed.

Lemma length_not_a_number_raises_witness :
  Cost.total_used_grams Plain.float (Some "0.00") (Some "n/a")
  = throw ValueError.
Proof.
  apply (length_not_a_number_raises Plain.float (Some "0.00") "n/a").
  - right. eexists. split; vm_compute; reflexivity.
  - reflexivity.
  - vm_compute. reflexivity.
Defined.


(** X16.  A time limit or a cleanup age that is not an integer stops
    the script with [ValueError] before it has touched the file
    system: nothing is swept, no directory is made, nothing is logged.
    All it has done is look into the input when that is a 3mf file. *)
Theorem bad_integer_setting_stops_before_any_change :
  forall py_float py_int (w : world),
    (2 <= List.length (argv w))%nat ->
    py_int (getenv w "BAMBU_SLICE_TIMEOUT" "120") = None
    \/ py_int (getenv w "CLEANUP_AGE_SECONDS" "3600") = None ->
    main py_float py_int w
    = Run (if is_3mf_file w then [InspectArchive (project_file w)] else [])
          (Raises ValueError).
Proof.
  intros py_float py_int w Hargs H.
  assert (Hlt : (Z.of_nat (List.length (argv w)) <? 2) = false)
    by (apply Z.ltb_ge; lia).
  unfold main, startup, int_of_env. rewrite Hlt.
  destruct (py_int (getenv w "BAMBU_SLICE_TIMEOUT" "120")) as [t|] eqn:Et.
  - destruct H as [H|H]; [discriminate H|]. rewrite H.
    destruct (is_3mf_file w); reflexivity.
  - destruct (is_3mf_file w); reflexivity.
Qed.

Lemma bad_integer_setting_stops_before_any_change_witness :
  main Plain.float Plain.int Cases.bad_timeout
  = Run [InspectArchive "/in/model.3mf"] (Raises ValueError).
Proof.
  apply (bad_integer_setting_stops_before_any_change Plain.float Plain.int
           Cases.bad_timeout).
  - cbn. lia.
  - left. vm_compute. reflexivity.
Defined.

(** X17.  Without an input file on the command line the script prints
    its usage line on the error stream and exits with status 1; it
    does nothing else. *)
Theorem missing_input_prints_usage :
  forall py_float py_int (w : world),
    (List.length (argv w) < 2)%nat ->
    main py_float py_int w = Run [StderrUsage] (Exits 1).
Proof.
  intros py_float py_int w Hargs.
  assert (Hlt : (Z.of_nat (List.length (argv w)) <? 2) = true)
    by (apply Z.ltb_lt; lia).
  unfold main, startup. rewrite Hlt. reflexivity.
Qed.

Lemma missing_input_prints_usage_witness :
  main Plain.float Plain.int Sample.no_arguments = Run [StderrUsage] (Exits 1).
Proof.
  apply (missing_input_prints_usage Plain.float Plain.int Sample.no_arguments).
  cbn. lia.
Defined.

Section Probes.
Import Eff.

Lemma same_refl {A} (m : run A) : same_but_for_log m m.
Proof. split; reflexivity. Qed.

Lemma same_bind {A B} (m m' : run A) (k k' : A -> run B) :
  same_but_for_log m m' ->
  (forall a, same_but_for_log (k a) (k' a)) ->
  same_but_for_log (bind m k) (bind m' k').
Proof.
  unfold same_but_for_log, actions, bind. intros [Ho Ht] Hk.
  rewrite <- Ho. destruct (outcome_of m) as [a|e|c]; cbn [outcome_of trace].
  - destruct (Hk a) as [Hko Hkt]. split; [exact Hko|].
    rewrite !List.filter_app, Ht, Hkt. reflexivity.
  - split; [reflexivity|exact Ht].
  - split; [reflexivity|exact Ht].
Qed.

Lemma run_probe_same command p q :
  same_but_for_log (run_probe command p) (run_probe command q).
Proof.
  unfold run_probe, log.
  destruct p as [rc| | |e]; [destruct (rc =? 0)| | |];
    (destruct q as [rc'| | |e']; [destruct (rc' =? 0)| | |]);
    split; reflexivity.
Qed.

Lemma slicing_same (w : world) display opengl cfg :
  same_but_for_log (slicing (with_probes w display opengl) cfg) (slicing w cfg).
Proof.
  unfold slicing.
  change (needs_slicing (with_probes w display opengl)) with (needs_slicing w).
  apply same_bind; [|intros; apply same_refl].
  destruct (negb (needs_slicing w)); [apply same_refl|].
  apply same_bind; [apply same_refl|intros _].
  apply same_bind; [apply same_refl|intros _].
  apply same_bind; [apply run_probe_same|intros _].
  apply same_bind; [apply same_refl|intros _].
  apply same_bind; [apply run_probe_same|intros _].
  apply same_refl.
Qed.

End Probes.

(** X18.  The two diagnostic probes run before the slicer are for the
    log only: whatever they return, and whether they can be run at
    all, the script ends the same way and does the same things apart
    from the lines it logs. *)
Theorem probes_change_the_log_only :
  forall py_float py_int (w : world) (display opengl : probe),
    outcome_of (main py_float py_int (with_probes w display opengl))
    = outcome_of (main py_float py_int w)
    /\ actions (main py_float py_int (with_probes w display opengl))
       = actions (main py_float py_int w).
Proof.
  intros py_float py_int w display opengl.
  change (same_but_for_log (main py_float py_int (with_probes w display opengl))
                           (main py_float py_int w)).
  unfold main.
  change (startup py_int (with_probes w display opengl)) with (startup py_int w).
  change (compose_config (with_probes w display opengl)) with (compose_config w).
  apply same_bind; [apply same_refl|intros _].
  apply same_bind; [apply same_refl|intros cfg].
  apply same_bind; [apply slicing_same|intros _].
  apply same_refl.
Qed.


Section WorkDir.
Import Eff.

Lemma str_app_nonempty (a b : string) : truthy b = true -> truthy (a ++ b) = true.
Proof. destruct a; [exact (fun H => H)|reflexivity]. Qed.

Lemma endswith_app_letter (a : string) (c : ascii) (b suf : string) (d : ascii) :
  (forall x, In x (list_ascii_of_string (String c b)) -> x <> d) ->
  endswith (a ++ String c b) (String d "") = false.
Proof.
  intros Hn.
  assert (Hb : forall t, (forall x, In x (list_ascii_of_string t) -> x <> d) ->
                         endswith t (String d "") = false).
  { induction t as [|x t IH]; intros Ht; [reflexivity|].
    cbn [endswith]. rewrite IH by (intros y Hy; apply Ht; right; exact Hy).
    rewrite orb_false_r. cbn [String.eqb].
    destruct (Ascii.eqb_spec x d) as [->|]; [|reflexivity].
    destruct (Ht d (or_introl eq_refl) eq_refl). }
  induction a as [|x a IH]; [apply Hb, Hn|].
  change (String x a ++ String c b)%string with (String x (a ++ String c b)).
  cbn [endswith]. rewrite IH, orb_false_r. cbn [String.eqb].
  destruct (Ascii.eqb x d); [|reflexivity].
  destruct a; reflexivity.
Qed.

Lemma work_base_not_closed (w : world) :
  truthy (WORK_BASE_DIR w) = true /\ endswith (WORK_BASE_DIR w) "/" = false.
Proof.
  assert (Hw : forall a, endswith (a ++ "work") "/" = false).
  { intros a. apply (endswith_app_letter a "w" "ork" "" "/").
    cbn. intros x [<-|[<-|[<-|[<-|[]]]]]; discriminate. }
  unfold WORK_BASE_DIR, join. change (startswith "work" "/") with false.
  cbv iota.
  destruct (negb (truthy (CONFIG_DIR w)) || endswith (CONFIG_DIR w) "/").
  - split; [apply str_app_nonempty; reflexivity|apply Hw].
  - split; [apply str_app_nonempty; reflexivity|].
    rewrite <- (str_app_assoc (CONFIG_DIR w) "/" "work"). apply Hw.
Qed.

Lemma request_work_dir_relative (w : world) :
  startswith (request_id w) "/" = false ->
  request_work_dir w = (WORK_BASE_DIR w ++ "/" ++ request_id w)%string.
Proof.
  intros H. unfold request_work_dir, join at 1. rewrite H.
  destruct (work_base_not_closed w) as [-> ->]. reflexivity.
Qed.

Lemma hex_digit_not_slash (d : Z) : 0 <= d < 16 -> Uuid.hex_digit d <> "/"%char.
Proof.
  intros Hd E. pose proof (hex_digit_code d Hd) as H. rewrite E in H.
  unfold hex_code in H. change (Z.of_nat (nat_of_ascii "/")) with 47 in H.
  destruct (d <? 10); lia.
Qed.

Lemma hex_fixed_head (n : nat) (i : Z) :
  exists d t, 0 <= d < 16 /\ Uuid.hex_fixed (S n) i = String (Uuid.hex_digit d) t.
Proof.
  revert i. induction n as [|n IH]; intros i.
  - exists (i mod 16), "". split; [apply Z.mod_pos_bound; lia|reflexivity].
  - destruct (IH (i / 16)) as (d & t & Hd & E).
    exists d, (t ++ String (Uuid.hex_digit (i mod 16)) "")%string.
    split; [exact Hd|].
    change (Uuid.hex_fixed (S (S n)) i)
      with (Uuid.hex_fixed (S n) (i / 16)
            ++ String (Uuid.hex_digit (i mod 16)) "")%string.
    rewrite E. reflexivity.
Qed.

Lemma generated_request_id_relative (random : Z) :
  startswith (Uuid.generated_request_id random) "/" = false.
Proof.
  rewrite generated_request_id_top_bits.
  destruct (hex_fixed_head 7 (random / 2 ^ 96)) as (d & t & Hd & ->).
  unfold startswith. cbn [String.prefix].
  destruct (ascii_dec "/" (Uuid.hex_digit d)) as [E|]; [|reflexivity].
  destruct (hex_digit_not_slash d Hd). symmetry. exact E.
Qed.

Lemma str_app_inv_head (a b c : string) :
  (a ++ b)%string = (a ++ c)%string -> b = c.
Proof.
  induction a as [|x a IH]; [exact (fun H => H)|].
  change (String x (a ++ b) = String x (a ++ c) -> b = c).
  intros H. injection H as H. exact (IH H).
Qed.

Lemma in_cleanup_remove (w : world) :
  work_dir_present w = true -> teardown_fault w = None ->
  In (RemoveTree (request_work_dir w)) (trace (cleanup_current_work_dir w)).
Proof.
  intros Hp Hf. unfold cleanup_current_work_dir. rewrite Hp, Hf.
  cbn. right. left. reflexivity.
Qed.

Lemma completed_run_removes_work_dir py_float py_int (w : world) :
  outcome_of (main py_float py_int w) = Returns tt ->
  work_dir_present w = true -> teardown_fault w = None ->
  In (RemoveTree (request_work_dir w)) (trace (main py_float py_int w)).
Proof.
  intros H Hp Hf. unfold main in *.
  apply bind_returns_inv in H as (u & H1 & H).
  apply bind_returns_inv in H as (cfg & H2 & H).
  apply bind_returns_inv in H as (u' & H3 & H).
  apply bind_returns_inv in H as (meta & H4 & H).
  eapply in_bind_r; [exact H1|]. eapply in_bind_r; [exact H2|].
  eapply in_bind_r; [exact H3|]. eapply in_bind_r; [exact H4|].
  unfold report in *.
  destruct (compute_costs py_float w meta) as [e|[[hours grams] b]];
    [discriminate H|].
  eapply in_bind_r; [reflexivity|]. cbv beta iota.
  rewrite !bind_emit. cbn [trace]. do 3 right.
  apply in_bind_l. apply in_cleanup_remove; assumption.
Qed.

End WorkDir.

(** X19.  A request identifier that does not start with a slash gives a
    work directory directly under the work base, named after it; this
    holds for every identifier the script generates itself, which has
    eight characters. *)
Theorem work_dir_is_named_after_the_request :
  forall (w : world),
    (startswith (request_id w) "/" = false ->
     request_work_dir w = (WORK_BASE_DIR w ++ "/" ++ request_id w)%string)
    /\ ((List.length (argv w) <= 2)%nat ->
        request_work_dir w
        = (WORK_BASE_DIR w ++ "/" ++ Uuid.generated_request_id (urandom w))%string
        /\ String.length (Uuid.generated_request_id (urandom w)) = 8%nat).
Proof.
  intros w. split; [apply request_work_dir_relative|].
  intros Hargs.
  assert (E : request_id w = Uuid.generated_request_id (urandom w)).
  { unfold request_id.
    assert (H : (2 <? Z.of_nat (List.length (argv w))) = false)
      by (apply Z.ltb_ge; lia).
    rewrite H. reflexivity. }
  split.
  - rewrite <- E. apply request_work_dir_relative. rewrite E.
    apply generated_request_id_relative.
  - rewrite generated_request_id_top_bits. apply hex_fixed_length.
Qed.

(** X20.  Two requests under the same configuration directory whose
    identifiers differ and do not start with a slash work in
    different directories. *)
Theorem distinct_requests_work_in_distinct_directories :
  forall (w1 w2 : world),
    CONFIG_DIR w1 = CONFIG_DIR w2 ->
    startswith (request_id w1) "/" = false ->
    startswith (request_id w2) "/" = false ->
    request_id w1 <> request_id w2 ->
    request_work_dir w1 <> request_work_dir w2.
Proof.
  intros w1 w2 Hc H1 H2 Hne E.
  rewrite (request_work_dir_relative w1 H1),
          (request_work_dir_relative w2 H2) in E.
  assert (Hb : WORK_BASE_DIR w1 = WORK_BASE_DIR w2)
    by (unfold WORK_BASE_DIR; rewrite Hc; reflexivity).
  rewrite Hb in E. apply str_app_inv_head in E.
  apply (str_app_inv_head "/") in E. exact (Hne E).
Qed.

Lemma distinct_requests_work_in_distinct_directories_witness :
  request_work_dir Sample.presliced <> request_work_dir Cases.hung_slicer.
Proof.
  apply distinct_requests_work_in_distinct_directories.
  - reflexivity.
  - reflexivity.
  - reflexivity.
  - discriminate.
Defined.

(** X21.  A request identifier that starts with a slash is not placed
    under the work base: it is the work directory itself, and a run
    that completes removes the tree at that path. *)
Theorem absolute_request_id_is_the_work_dir :
  forall py_float py_int (w : world),
    startswith (request_id w) "/" = true ->
    request_work_dir w = request_id w
    /\ (outcome_of (main py_float py_int w) = Returns tt ->
        work_dir_present w = true ->
        teardown_fault w = None ->
        In (MakeDirs (request_id w)) (trace (main py_float py_int w))
        /\ In (RemoveTree (request_id w)) (trace (main py_float py_int w))).
Proof.
  intros py_float py_int w Habs.
  assert (E : request_work_dir w = request_id w)
    by (unfold request_work_dir, join; rewrite Habs; reflexivity).
  split; [exact E|]. intros Hr Hp Hf. rewrite <- E. split.
  - unfold main in *. apply in_bind_l.
    apply bind_returns_inv in Hr as (u & H1 & _).
    unfold startup, int_of_env in *.
    destruct (Z.of_nat (List.length (argv w)) <? 2); [discriminate H1|].
    apply bind_returns_inv in H1 as (u1 & Hi & H1).
    eapply in_bind_r; [exact Hi|].
    destruct (py_int (getenv w "BAMBU_SLICE_TIMEOUT" "120")); [|discriminate H1].
    eapply in_bind_r; [reflexivity|].
    destruct (py_int (getenv w "CLEANUP_AGE_SECONDS" "3600")); [|discriminate H1].
    eapply in_bind_r; [reflexivity|].
    rewrite bind_emit. cbn [trace]. right.
    rewrite bind_emit in H1. cbn [outcome_of] in H1.
    destruct (makedirs_fault w); [discriminate H1|].
    eapply in_bind_r; [reflexivity|]. left. reflexivity.
  - apply completed_run_removes_work_dir; assumption.
Qed.

Lemma absolute_request_id_is_the_work_dir_witness :
  In (RemoveTree "/srv/data")
     (trace (main Plain.float Plain.int Cases.absolute_id)).
Proof.
  refine (proj2 (proj2 (absolute_request_id_is_the_work_dir Plain.float Plain.int
                          Cases.absolute_id eq_refl) _ eq_refl eq_refl)).
  vm_compute. reflexivity.
Defined.

Lemma handled_paths_tear_down_witness :
  In (Teardown (request_work_dir Cases.hung_slicer))
     (trace (main Plain.float Plain.int Cases.hung_slicer)).
Proof.
  apply (handled_paths_tear_down Plain.float Plain.int Cases.hung_slicer 1).
  - cbn. lia.
  - right. vm_compute. reflexivity.
Defined.
